(** * neuroswarm-ai: governance coalition, conflict detection and the
      Q-learning vote predictor

    A shallow embedding of

    - [governance/coalition.py]   (GovernanceCoalition, GovernanceProposal),
    - [sdk/python/agent_swarm_sdk/proposal.py]   (Proposal),
    - [agents/consensus_agent.py]   (the conflict test of ConsensusAgent),
    - [agents/enhanced_learning_agent.py]   (the Q-table of
      EnhancedLearningAgent),

    together with the properties of the specification that concern them.

    Python floats are kept abstract behind the interface [PyFloat]; the
    functions are written once against it and are run on two instances:
    exact rationals ([Q], on which the arithmetic facts are proved) and IEEE
    binary64 ([PrimFloat], on which the concrete scenarios are replayed with
    the roundings Python performs).  Dictionaries keep their insertion
    order, as Python's do, because [sum] over the values of a dictionary of
    floats depends on it.  Methods that mutate [self] and may raise are
    functions from the object to an outcome and the object as the call
    leaves it. *)

From Stdlib Require Import ZArith QArith Qabs Qminmax Lqa Lia.
From Stdlib Require Import List Permutation String Ascii Bool.
From Stdlib Require Import PrimFloat Uint63.
Import ListNotations.

Set Implicit Arguments.
Set Warnings "-inexact-float".
Open Scope string_scope.

(* ------------------------------------------------------------------ *)
(** ** Python floats *)

(** The operations of Python's [float] that the sources use.  [fdiv] is
    the quotient for a divisor that is not zero; the check that Python
    makes first is in [py_div] below. *)
Class PyFloat (F : Type) : Type := {
  of_int : Z -> F;
  fadd : F -> F -> F;
  fsub : F -> F -> F;
  fmul : F -> F -> F;
  fdiv : F -> F -> F;
  fabs : F -> F;
  feqb : F -> F -> bool;
  fltb : F -> F -> bool;
  fleb : F -> F -> bool;
  fpow_half : F -> F
}.

(** A decimal literal [n / d], such as [0.667 = dec 667 1000].  On
    binary64 the correctly rounded quotient of two small integers is the
    float Python reads the literal as. *)
Definition dec {F} `{PyFloat F} (n d : Z) : F := fdiv (of_int n) (of_int d).

(** Exact rationals.  Every result is put in lowest terms, so that long
    runs of updates stay small.  [x ** 0.5] is exact on squares of
    rationals and is cut after nine decimals elsewhere. *)
Definition Qpow_half (x : Q) : Q :=
  Qred (Z.sqrt (Qnum x * Zpos (Qden x) * 10 ^ 18) # (Qden x * 10 ^ 9)).

#[export] Instance QFloat : PyFloat Q := {|
  of_int := inject_Z;
  fadd := fun x y => Qred (x + y);
  fsub := fun x y => Qred (x - y);
  fmul := fun x y => Qred (x * y);
  fdiv := fun x y => Qred (x / y);
  fabs := Qabs;
  feqb := Qeq_bool;
  fltb := fun x y => negb (Qle_bool y x);
  fleb := Qle_bool;
  fpow_half := Qpow_half
|}.

(** IEEE binary64, round to nearest even. *)
Definition float_of_Z (z : Z) : float :=
  match z with
  | Zneg p => PrimFloat.opp (PrimFloat.of_uint63 (Uint63.of_Z (Zpos p)))
  | _ => PrimFloat.of_uint63 (Uint63.of_Z z)
  end.

#[export] Instance Binary64 : PyFloat float := {|
  of_int := float_of_Z;
  fadd := PrimFloat.add;
  fsub := PrimFloat.sub;
  fmul := PrimFloat.mul;
  fdiv := PrimFloat.div;
  fabs := PrimFloat.abs;
  feqb := PrimFloat.eqb;
  fltb := PrimFloat.ltb;
  fleb := PrimFloat.leb;
  fpow_half := PrimFloat.sqrt
|}.

(* ------------------------------------------------------------------ *)
(** ** Exceptions and methods *)

Inductive exn : Type :=
| ValueError (msg : string)
| KeyError (key : string)
| ZeroDivisionError.

Inductive outcome (A : Type) : Type :=
| Return (a : A)
| Raise (e : exn).
Arguments Return {A} a.
Arguments Raise {A} e.

(** A method of an object of type [S]: the outcome of the call and the
    object as the call leaves it (also when it raises). *)
Definition method (S A : Type) : Type := S -> outcome A * S.

Definition ret {S A} (a : A) : method S A := fun s => (Return a, s).
Definition raise {S A} (e : exn) : method S A := fun s => (Raise e, s).
Definition bind {S A B} (m : method S A) (k : A -> method S B) : method S B :=
  fun s => match m s with
           | (Return a, s') => k a s'
           | (Raise e, s') => (Raise e, s')
           end.
Definition get {S} : method S S := fun s => (Return s, s).
Definition put {S} (s : S) : method S unit := fun _ => (Return tt, s).
(** An expression that reads [self] and may raise. *)
Definition eval {S A} (f : S -> outcome A) : method S A := fun s => (f s, s).

Declare Scope method_scope.
Delimit Scope method_scope with method.
Notation "x <- m ;; k" := (bind m (fun x => k))
  (at level 61, m at next level, right associativity) : method_scope.
Notation "m ;; k" := (bind m (fun _ => k))
  (at level 61, right associativity) : method_scope.

(** The same sequencing for expressions without effect on [self]. *)
Definition obind {A B} (o : outcome A) (k : A -> outcome B) : outcome B :=
  match o with
  | Return a => k a
  | Raise e => Raise e
  end.
Declare Scope outcome_scope.
Delimit Scope outcome_scope with outcome.
Notation "x <-- o ;; k" := (obind o (fun x => k))
  (at level 61, o at next level, right associativity) : outcome_scope.

(** [x / y] on floats. *)
Definition py_div {F} `{PyFloat F} (x y : F) : outcome F :=
  if feqb y (of_int 0) then Raise ZeroDivisionError else Return (fdiv x y).

(** [sum(xs)]: the fold from the integer [0], left to right. *)
Definition py_sum {F} `{PyFloat F} (xs : list F) : F :=
  fold_left fadd xs (of_int 0).

(** [max(xs)]: the first of the greatest elements; raises on the empty
    sequence. *)
Definition py_max {F} `{PyFloat F} (xs : list F) : outcome F :=
  match xs with
  | [] => Raise (ValueError "max() arg is an empty sequence")
  | x :: rest => Return (fold_left (fun m y => if fltb m y then y else m) rest x)
  end.

(** [min(a, b)]: [b] when it is smaller, else [a]. *)
Definition py_min {F} `{PyFloat F} (a b : F) : F := if fltb b a then b else a.

(* ------------------------------------------------------------------ *)
(** ** Strings *)

(** [c.lower()] on ASCII. *)
Definition lower_ascii (c : ascii) : ascii :=
  let n := nat_of_ascii c in
  if (65 <=? n)%nat && (n <=? 90)%nat then ascii_of_nat (n + 32) else c.

Fixpoint lower (s : string) : string :=
  match s with
  | EmptyString => EmptyString
  | String c rest => String (lower_ascii c) (lower rest)
  end.

(* ------------------------------------------------------------------ *)
(** ** Dictionaries and sets *)

(** Keys: the equality test that [dict] and [set] lookups use. *)
Class Key (K : Type) : Type := { key_eqb : K -> K -> bool }.

#[export] Instance string_Key : Key string := {| key_eqb := String.eqb |}.

#[export] Instance Z_Key : Key Z := {| key_eqb := Z.eqb |}.

(** Tuples compare component by component. *)
#[export] Instance pair_Key {A B} `{Key A} `{Key B} : Key (A * B) :=
  {| key_eqb := fun a b => key_eqb (fst a) (fst b) && key_eqb (snd a) (snd b) |}.

(** A Python [dict]: the items in insertion order, each key once. *)
Definition dict (K V : Type) : Type := list (K * V).

Section Dict.
Context {K V : Type} `{Key K}.

Fixpoint dict_get (k : K) (d : dict K V) : option V :=
  match d with
  | [] => None
  | (k', v) :: rest => if key_eqb k k' then Some v else dict_get k rest
  end.

(** [k in d] *)
Definition dict_mem (k : K) (d : dict K V) : bool :=
  match dict_get k d with Some _ => true | None => false end.

(** [d[k] = v]: a key that is present keeps its place, a new one goes
    last. *)
Fixpoint dict_set (k : K) (v : V) (d : dict K V) : dict K V :=
  match d with
  | [] => [(k, v)]
  | (k', v') :: rest =>
      if key_eqb k k' then (k', v) :: rest else (k', v') :: dict_set k v rest
  end.

(** [del d[k]] for a key that is present. *)
Fixpoint dict_del (k : K) (d : dict K V) : dict K V :=
  match d with
  | [] => []
  | (k', v') :: rest =>
      if key_eqb k k' then rest else (k', v') :: dict_del k rest
  end.

Definition dict_keys (d : dict K V) : list K := map fst d.
Definition dict_values (d : dict K V) : list V := map snd d.
End Dict.

(** A Python [set] of keys, as the list of its elements without
  repetition. *)
Definition pyset (K : Type) : Type := list K.

Section PySet.
Context {K : Type} `{Key K}.

Definition set_mem (k : K) (s : pyset K) : bool := existsb (key_eqb k) s.

Definition set_add (k : K) (s : pyset K) : pyset K :=
  if set_mem k s then s else (s ++ [k])%list.

Definition set_remove (k : K) (s : pyset K) : pyset K :=
  filter (fun k' => negb (key_eqb k k')) s.

(** [set(xs)] *)
Definition set_of_list (xs : list K) : pyset K :=
  fold_left (fun s k => set_add k s) xs [].
End PySet.

(* ------------------------------------------------------------------ *)
(** ** governance/coalition.py *)

Module Coalition.

Inductive VotingMethod : Type :=
| SIMPLE_MAJORITY
| SUPERMAJORITY
| UNANIMOUS
| QUADRATIC
| REPUTATION_WEIGHTED.

Section Defs.
Context {F : Type} `{PyFloat F}.

Record GovernanceProposal : Type := {
  id : Z;
  title : string;
  description : string;
  proposer : string;
  proposal_type : string;
  voting_method : VotingMethod;
  votes_for : dict string F;
  votes_against : dict string F;
  votes_abstain : dict string F;
  required_threshold : F;
  deadline : Z;
  executed : bool
}.

(** The attributes of a [GovernanceCoalition], [self.name] and so on. *)
Record GovernanceCoalition : Type := {
  self_name : string;
  self_members : pyset string;
  self_voting_method : VotingMethod;
  self_proposals : dict Z GovernanceProposal;
  self_reputation : dict string F
}.

Definition set_members m (c : GovernanceCoalition) : GovernanceCoalition :=
  {| self_name := self_name c; self_members := m;
     self_voting_method := self_voting_method c;
     self_proposals := self_proposals c;
     self_reputation := self_reputation c |}.

Definition set_proposals ps (c : GovernanceCoalition) : GovernanceCoalition :=
  {| self_name := self_name c; self_members := self_members c;
     self_voting_method := self_voting_method c;
     self_proposals := ps;
     self_reputation := self_reputation c |}.

Definition set_reputation r (c : GovernanceCoalition) : GovernanceCoalition :=
  {| self_name := self_name c; self_members := self_members c;
     self_voting_method := self_voting_method c;
     self_proposals := self_proposals c;
     self_reputation := r |}.

Definition set_votes_for v (p : GovernanceProposal) : GovernanceProposal :=
  {| id := id p; title := title p; description := description p;
     proposer := proposer p; proposal_type := proposal_type p;
     voting_method := voting_method p;
     votes_for := v; votes_against := votes_against p;
     votes_abstain := votes_abstain p;
     required_threshold := required_threshold p; deadline := deadline p;
     executed := executed p |}.

Definition set_votes_against v (p : GovernanceProposal) : GovernanceProposal :=
  {| id := id p; title := title p; description := description p;
     proposer := proposer p; proposal_type := proposal_type p;
     voting_method := voting_method p;
     votes_for := votes_for p; votes_against := v;
     votes_abstain := votes_abstain p;
     required_threshold := required_threshold p; deadline := deadline p;
     executed := executed p |}.

Definition set_votes_abstain v (p : GovernanceProposal) : GovernanceProposal :=
  {| id := id p; title := title p; description := description p;
     proposer := proposer p; proposal_type := proposal_type p;
     voting_method := voting_method p;
     votes_for := votes_for p; votes_against := votes_against p;
     votes_abstain := v;
     required_threshold := required_threshold p; deadline := deadline p;
     executed := executed p |}.

Definition set_executed b (p : GovernanceProposal) : GovernanceProposal :=
  {| id := id p; title := title p; description := description p;
     proposer := proposer p; proposal_type := proposal_type p;
     voting_method := voting_method p;
     votes_for := votes_for p; votes_against := votes_against p;
     votes_abstain := votes_abstain p;
     required_threshold := required_threshold p; deadline := deadline p;
     executed := b |}.

(** [GovernanceCoalition(name, members, voting_method)] *)
Definition init (name : string) (members : list string)
    (method : VotingMethod) : GovernanceCoalition :=
  {| self_name := name;
     self_members := set_of_list members;
     self_voting_method := method;
     self_proposals := [];
     self_reputation :=
       fold_left (fun d m => dict_set m (of_int 100) d) members [] |}.

Definition add_member (agent_id : string) (initial_reputation : F)
    : method GovernanceCoalition unit :=
  fun c =>
    if negb (set_mem agent_id (self_members c)) then
      (Return tt,
       set_reputation (dict_set agent_id initial_reputation (self_reputation c))
         (set_members (set_add agent_id (self_members c)) c))
    else (Return tt, c).

Definition remove_member (agent_id : string)
    : method GovernanceCoalition unit :=
  fun c =>
    if set_mem agent_id (self_members c) then
      let c1 := set_members (set_remove agent_id (self_members c)) c in
      if dict_mem agent_id (self_reputation c1) then
        (Return tt,
         set_reputation (dict_del agent_id (self_reputation c1)) c1)
      else (Raise (KeyError agent_id), c1)
    else (Return tt, c).

(** [create_proposal]; [voting_method] is [None] for the coalition's own
    method, [required_threshold] and [deadline] default to [0.667] and
    [86400] at the call. *)
Definition create_proposal (proposer title description proposal_type : string)
    (voting_method : option VotingMethod) (required_threshold : F)
    (deadline : Z) : method GovernanceCoalition GovernanceProposal :=
  fun c =>
    if negb (set_mem proposer (self_members c)) then
      (Raise (ValueError "Proposer not in coalition"), c)
    else
      let proposal_id := Z.of_nat (List.length (self_proposals c)) in
      let proposal :=
        {| id := proposal_id; title := title; description := description;
           proposer := proposer; proposal_type := proposal_type;
           voting_method :=
             match voting_method with
             | Some m => m
             | None => self_voting_method c
             end;
           votes_for := []; votes_against := []; votes_abstain := [];
           required_threshold := required_threshold; deadline := deadline;
           executed := false |} in
      (Return proposal,
       set_proposals (dict_set proposal_id proposal (self_proposals c)) c).

Definition default_threshold : F := dec 667 1000.
Definition default_deadline : Z := 86400.

(** [self.reputation[voter]] *)
Definition reputation_of (voter : string) (c : GovernanceCoalition)
    : outcome F :=
  match dict_get voter (self_reputation c) with
  | Some r => Return r
  | None => Raise (KeyError voter)
  end.

Definition _calculate_vote_weight (voter : string) (method : VotingMethod)
    (c : GovernanceCoalition) : outcome F :=
  match method with
  | SIMPLE_MAJORITY => Return (of_int 1)
  | SUPERMAJORITY => Return (of_int 1)
  | UNANIMOUS => Return (of_int 1)
  | REPUTATION_WEIGHTED =>
      let total_reputation := py_sum (dict_values (self_reputation c)) in
      (r <-- reputation_of voter c ;;
       q <-- py_div r total_reputation ;;
       Return (fmul q (of_int (Z.of_nat (List.length (self_members c))))))%outcome
  | QUADRATIC =>
      (r <-- reputation_of voter c ;; Return (fpow_half r))%outcome
  end.

(** The three branches that record a vote in [proposal]. *)
Definition record (vote voter : string) (vote_weight : F)
    (proposal : GovernanceProposal) : GovernanceProposal :=
  if String.eqb (lower vote) "approve" then
    set_votes_for (dict_set voter vote_weight (votes_for proposal)) proposal
  else if String.eqb (lower vote) "reject" then
    set_votes_against (dict_set voter vote_weight (votes_against proposal))
      proposal
  else
    set_votes_abstain (dict_set voter vote_weight (votes_abstain proposal))
      proposal.

Definition vote (proposal_id : Z) (voter vote : string)
    (vote_weight : option F) : method GovernanceCoalition unit :=
  fun c =>
    match dict_get proposal_id (self_proposals c) with
    | None => (Raise (ValueError "Proposal not found"), c)
    | Some proposal =>
        if negb (set_mem voter (self_members c)) then
          (Raise (ValueError "Voter not in coalition"), c)
        else
          match
            match vote_weight with
            | None => _calculate_vote_weight voter (voting_method proposal) c
            | Some w => Return w
            end
          with
          | Raise e => (Raise e, c)
          | Return w =>
              (Return tt,
               set_proposals
                 (dict_set proposal_id (record vote voter w proposal)
                    (self_proposals c)) c)
          end
    end.

(** The dictionary that [tally_votes] returns. *)
Record Tally : Type := {
  tally_proposal_id : Z;
  total_for : F;
  total_against : F;
  approval_rate : F;
  tally_required_threshold : F;
  passed : bool;
  tally_voting_method : VotingMethod
}.

Definition tally_votes (proposal_id : Z) (c : GovernanceCoalition)
    : outcome Tally :=
  match dict_get proposal_id (self_proposals c) with
  | None => Raise (ValueError "Proposal not found")
  | Some proposal =>
      let total_for := py_sum (dict_values (votes_for proposal)) in
      let total_against := py_sum (dict_values (votes_against proposal)) in
      let total_votes := fadd total_for total_against in
      let approval_rate :=
        if feqb total_votes (of_int 0) then of_int 0
        else fdiv total_for total_votes in
      let passed := fleb (required_threshold proposal) approval_rate in
      Return {| tally_proposal_id := proposal_id;
                total_for := total_for;
                total_against := total_against;
                approval_rate := approval_rate;
                tally_required_threshold := required_threshold proposal;
                passed := passed;
                tally_voting_method := voting_method proposal |}
  end.

(** One turn of the loop of [_update_reputation]. *)
Definition update_one (proposal : GovernanceProposal) (outcome : bool)
    (voter : string) : method GovernanceCoalition unit :=
  fun c =>
    let bump (delta : F -> F) :=
      match dict_get voter (self_reputation c) with
      | None => (Raise (KeyError voter), c)
      | Some r =>
          (Return tt,
           set_reputation (dict_set voter (delta r) (self_reputation c)) c)
      end in
    if dict_mem voter (votes_for proposal) && outcome then
      bump (fun r => fadd r (of_int 1))
    else if dict_mem voter (votes_against proposal) && negb outcome then
      bump (fun r => fadd r (of_int 1))
    else if dict_mem voter (votes_for proposal) && negb outcome then
      bump (fun r => fsub r (dec 5 10))
    else if dict_mem voter (votes_against proposal) && outcome then
      bump (fun r => fsub r (dec 5 10))
    else (Return tt, c).

Fixpoint for_each {S A} (body : A -> method S unit) (xs : list A)
    : method S unit :=
  match xs with
  | [] => ret tt
  | x :: rest => (body x ;; for_each body rest)%method
  end.

Definition _update_reputation (proposal_id : Z) (outcome : bool)
    : method GovernanceCoalition unit :=
  fun c =>
    match dict_get proposal_id (self_proposals c) with
    | None => (Raise (KeyError "proposal_id"), c)
    | Some proposal => for_each (update_one proposal outcome) (self_members c) c
    end.

Definition execute_proposal (proposal_id : Z)
    : method GovernanceCoalition bool :=
  fun c =>
    match tally_votes proposal_id c with
    | Raise e => (Raise e, c)
    | Return tally =>
        if negb (passed tally) then (Return false, c)
        else
          match dict_get proposal_id (self_proposals c) with
          | None => (Raise (KeyError "proposal_id"), c)
          | Some proposal =>
              if executed proposal then (Return false, c)
              else
                let c1 :=
                  set_proposals
                    (dict_set proposal_id (set_executed true proposal)
                       (self_proposals c)) c in
                (_update_reputation proposal_id (passed tally) ;; ret true)%method
                  c1
          end
    end.

End Defs.

Arguments GovernanceProposal F : clear implicits.
Arguments GovernanceCoalition F : clear implicits.
Arguments Tally F : clear implicits.

End Coalition.

(* ------------------------------------------------------------------ *)
(** ** sdk/python/agent_swarm_sdk/proposal.py *)

Module Sdk.

Record Proposal : Type := {
  id : Z;
  proposer : string;
  proposal_type : string;
  description : string;
  data : dict string string;
  votes : dict string string;
  executed : bool
}.

(** [Proposal(id, proposer, proposal_type, description, data)] *)
Definition init (id : Z) (proposer proposal_type description : string)
    (data : option (dict string string)) : Proposal :=
  {| id := id; proposer := proposer; proposal_type := proposal_type;
     description := description;
     data := match data with Some d => d | None => [] end;
     votes := []; executed := false |}.

Definition record_vote (voter vote : string) : method Proposal unit :=
  fun p =>
    (Return tt,
     {| id := id p; proposer := proposer p; proposal_type := proposal_type p;
        description := description p; data := data p;
        votes := dict_set voter vote (votes p);
        executed := executed p |}).

(** [sum(1 for v in self.votes.values() if v == choice)] *)
Definition count_votes (choice : string) (p : Proposal) : Z :=
  Z.of_nat
    (List.length (filter (fun v => String.eqb v choice) (dict_values (votes p)))).

Definition get_status (p : Proposal) : string :=
  if executed p then "executed"
  else
    match votes p with
    | [] => "pending"
    | _ =>
        let approve_count := count_votes "approve" p in
        let reject_count := count_votes "reject" p in
        if (approve_count >? reject_count)%Z then "approved"
        else if (reject_count >? approve_count)%Z then "rejected"
        else "tied"
    end.

End Sdk.

(* ------------------------------------------------------------------ *)
(** ** agents/consensus_agent.py *)

Module Consensus.

(** [ProposalData] of [base_agent.py], with the vote counts that the
    conflict test reads. *)
Record ProposalData : Type := {
  description : string;
  votes_for : Z;
  votes_against : Z;
  votes_abstain : Z;
  weighted_votes_for : Z;
  weighted_votes_against : Z;
  executed : bool
}.

Section Defs.
Context {F : Type} `{PyFloat F}.

(** [self.conflict_threshold] as [__init__] sets it. *)
Definition conflict_threshold : F := dec 4 10.

(** [a / b] on integers: true division, to a float. *)
Definition int_div (a b : Z) : F := fdiv (of_int a) (of_int b).

(** The test that guards the warning in the loop of [analyze_and_decide]:
    [true] when the proposal is logged as a voting conflict. *)
Definition conflict_detected (conflict_threshold : F) (proposal : ProposalData)
    : bool :=
  let total_votes :=
    (votes_for proposal + votes_against proposal + votes_abstain proposal)%Z in
  if (total_votes >? 0)%Z then
    let for_ratio := int_div (votes_for proposal) total_votes in
    let against_ratio := int_div (votes_against proposal) total_votes in
    fltb (fabs (fsub for_ratio against_ratio)) conflict_threshold
  else false.

(** The loop of [analyze_and_decide] over the proposals fetched ([None]
    for one that [get_proposal] did not find): the descriptions logged
    as conflicts, in order. *)
Fixpoint analyze_and_decide (conflict_threshold : F)
    (fetched : list (option ProposalData)) : list string :=
  match fetched with
  | [] => []
  | None :: rest => analyze_and_decide conflict_threshold rest
  | Some proposal :: rest =>
      if conflict_detected conflict_threshold proposal
      then description proposal :: analyze_and_decide conflict_threshold rest
      else analyze_and_decide conflict_threshold rest
  end.

End Defs.
End Consensus.

(* ------------------------------------------------------------------ *)
(** ** agents/enhanced_learning_agent.py *)

Module Learning.

(** [(market_condition, proposal_type, risk_level)] *)
Definition State : Type := (string * string * string)%type.

Section Defs.
Context {F : Type} `{PyFloat F}.

(** The attributes of an [EnhancedLearningAgent] that the Q-learning
    reads and writes. *)
Record EnhancedLearningAgent : Type := {
  learning_rate : F;
  discount_factor : F;
  exploration_rate : F;
  q_table : dict State (dict string F)
}.

(** The Q-learning parameters and the empty table of [__init__]. *)
Definition init : EnhancedLearningAgent :=
  {| learning_rate := dec 1 10;
     discount_factor := dec 95 100;
     exploration_rate := dec 2 10;
     q_table := [] |}.

Definition set_q_table t (a : EnhancedLearningAgent) : EnhancedLearningAgent :=
  {| learning_rate := learning_rate a;
     discount_factor := discount_factor a;
     exploration_rate := exploration_rate a;
     q_table := t |}.

(** [agent.exploration_rate = e] *)
Definition set_exploration_rate e (a : EnhancedLearningAgent)
    : EnhancedLearningAgent :=
  {| learning_rate := learning_rate a;
     discount_factor := discount_factor a;
     exploration_rate := e;
     q_table := q_table a |}.

(** The row that a state gets when it is first met. *)
Definition zero_row : dict string F :=
  [("approve", of_int 0); ("reject", of_int 0); ("abstain", of_int 0)].

(** [if state not in self.q_table: self.q_table[state] = {...}] *)
Definition ensure_state (state : State) : method EnhancedLearningAgent unit :=
  fun a =>
    if negb (dict_mem state (q_table a)) then
      (Return tt, set_q_table (dict_set state zero_row (q_table a)) a)
    else (Return tt, a).

(** [self.q_table[state]] *)
Definition row_of (state : State) (a : EnhancedLearningAgent)
    : outcome (dict string F) :=
  match dict_get state (q_table a) with
  | Some row => Return row
  | None => Raise (KeyError "state")
  end.

(** [row[key]] *)
Definition row_get (key : string) (row : dict string F) : outcome F :=
  match dict_get key row with
  | Some q => Return q
  | None => Raise (KeyError key)
  end.

(** [_update_q_value]; the write to the database that ends it is outside
    the model. *)
Definition _update_q_value (state : State) (action : string) (reward : F)
    : method EnhancedLearningAgent unit :=
  (ensure_state state ;;
   row <- eval (row_of state) ;;
   current_q <- eval (fun _ => row_get (lower action) row) ;;
   max_future_q <- eval (fun _ => py_max (dict_values row)) ;;
   a <- get ;;
   let new_q :=
     fadd current_q
       (fmul (learning_rate a)
          (fsub (fadd reward (fmul (discount_factor a) max_future_q))
             current_q)) in
   put (set_q_table
          (dict_set state (dict_set (lower action) new_q row) (q_table a)) a)
  )%method.

(** [max(q_values, key=q_values.get)]: the first key whose value is the
    greatest. *)
Definition argmax (q_values : dict string F) : outcome string :=
  match q_values with
  | [] => Raise (ValueError "max() arg is an empty sequence")
  | first :: rest =>
      Return
        (fst (fold_left
                (fun best item => if fltb (snd best) (snd item) then item else best)
                rest first))
  end.

(** [predict_vote].  The two draws of the random generator are arguments:
    [draw] is the value of [np.random.random()], in [[0, 1)], and [choice]
    the action that [np.random.choice] picks among the three. *)
Definition predict_vote (proposal_type market_condition risk_level : string)
    (draw : F) (choice : string)
    : method EnhancedLearningAgent (string * F) :=
  let state : State := (market_condition, proposal_type, risk_level) in
  (a <- get ;;
   if fltb draw (exploration_rate a) then
     ret (choice, dec 33 100)
   else
     ensure_state state ;;
     q_values <- eval (row_of state) ;;
     action <- eval (fun _ => argmax q_values) ;;
     max_q <- eval (fun _ => row_get action q_values) ;;
     avg_q <- eval (fun _ =>
                py_div (py_sum (dict_values q_values))
                  (of_int (Z.of_nat (List.length q_values)))) ;;
     ret (action,
          py_min (of_int 1)
            (fdiv (fadd (fsub max_q avg_q) (of_int 1)) (of_int 2)))
  )%method.

(** [record_outcome] without its database row: the reward and the update. *)
Definition record_outcome (proposal_type agent_vote : string) (success : bool)
    (market_condition risk_level : string)
    : method EnhancedLearningAgent unit :=
  let reward := if success then of_int 1 else fsub (of_int 0) (dec 5 10) in
  _update_q_value (market_condition, proposal_type, risk_level) agent_vote reward.

(** [n] calls of the same method in a row. *)
Fixpoint repeat_call {S} (n : nat) (m : method S unit) : method S unit :=
  match n with
  | O => ret tt
  | S k => (m ;; repeat_call k m)%method
  end.

End Defs.

Arguments EnhancedLearningAgent F : clear implicits.

End Learning.

(* ------------------------------------------------------------------ *)
(** ** The scenarios of the specification *)

(** Running a method for the object it leaves. *)
Definition after {S A} (m : method S A) (s : S) : S := snd (m s).

Module Scenario.
Import Coalition.

Section Defs.
Context {F : Type} `{PyFloat F}.

Definition five : list string :=
  ["Agent-A"; "Agent-B"; "Agent-C"; "Agent-D"; "Agent-E"].

(** A coalition of the five agents with one open proposal, number [0],
    voted under [method] with the threshold [0.667]. *)
Definition opened (method : VotingMethod) : GovernanceCoalition F :=
  after
    (create_proposal "Agent-A" "Increase position size limits"
       "Raise max position from 100 SOL to 200 SOL" "parameter_change"
       (Some method) default_threshold default_deadline)
    (init "DeFi Strategy Council" five REPUTATION_WEIGHTED).

(** The votes of [ballots] cast in order on proposal [0], each with the
    weight that the coalition computes. *)
Definition cast (ballots : list (string * string))
    (c : GovernanceCoalition F) : GovernanceCoalition F :=
  fold_left (fun c b => after (vote 0 (fst b) (snd b) None) c) ballots c.

Definition four_to_one : list (string * string) :=
  [("Agent-A", "approve"); ("Agent-B", "approve"); ("Agent-C", "reject");
   ("Agent-D", "approve"); ("Agent-E", "approve")].

Definition three_to_two : list (string * string) :=
  [("Agent-A", "approve"); ("Agent-B", "approve"); ("Agent-C", "reject");
   ("Agent-D", "approve"); ("Agent-E", "reject")].


End Defs.
End Scenario.

(* ------------------------------------------------------------------ *)
(** ** Runs of a coalition *)

Module Run.
Import Coalition.

Section Defs.
Context {F : Type} `{PyFloat F}.

(** A call of one of the methods that change a coalition. *)
Inductive call : Type :=
| AddMember (agent_id : string) (initial_reputation : F)
| RemoveMember (agent_id : string)
| CreateProposal (proposer title description proposal_type : string)
    (voting_method : option VotingMethod) (required_threshold : F)
    (deadline : Z)
| Vote (proposal_id : Z) (voter vote : string) (vote_weight : option F)
| ExecuteProposal (proposal_id : Z).

Definition perform (k : call) (c : GovernanceCoalition F)
    : GovernanceCoalition F :=
  match k with
  | AddMember a r => after (add_member a r) c
  | RemoveMember a => after (remove_member a) c
  | CreateProposal pr t d ty m th dl => after (create_proposal pr t d ty m th dl) c
  | Vote pid voter v w => after (vote pid voter v w) c
  | ExecuteProposal pid => after (execute_proposal pid) c
  end.

(** The coalitions that a program can hold: a fresh one, and any one
    after a call, whether the call returned or raised. *)
Inductive reachable : GovernanceCoalition F -> Prop :=
| reach_init name members method : reachable (init name members method)
| reach_call k c : reachable c -> reachable (perform k c).

(** The members are a set, the reputations are those of the members, and
    the proposals are numbered from [0] in the order of their creation. *)
Record wf (c : GovernanceCoalition F) : Prop := {
  wf_members : NoDup (self_members c);
  wf_reputation : dict_keys (self_reputation c) = self_members c;
  wf_proposals :
    dict_keys (self_proposals c) =
    map Z.of_nat (seq 0 (List.length (self_proposals c)))
}.

(** The reputation that one turn of the loop of [_update_reputation]
    leaves to [voter], from the reputation [r] before it. *)
Definition adjusted (proposal : GovernanceProposal F) (outcome : bool)
    (voter : string) (r : F) : F :=
  if dict_mem voter (votes_for proposal) && outcome then fadd r (of_int 1)
  else if dict_mem voter (votes_against proposal) && negb outcome
  then fadd r (of_int 1)
  else if dict_mem voter (votes_for proposal) && negb outcome
  then fsub r (dec 5 10)
  else if dict_mem voter (votes_against proposal) && outcome
  then fsub r (dec 5 10)
  else r.

End Defs.
Arguments call F : clear implicits.
End Run.

Section CoalitionNotions.
Import Coalition Run.
Context {F : Type} `{PyFloat F}.

(** The [executed] flag of a proposal, [None] for a number that is not
    in use. *)
Definition is_executed (pid : Z) (c : GovernanceCoalition F) : option bool :=
  option_map (@executed F) (dict_get pid (self_proposals c)).

(** A run of calls, in order. *)
Definition perform_all (ks : list (call F)) (c : GovernanceCoalition F)
    : GovernanceCoalition F :=
  fold_left (fun c k => perform k c) ks c.

End CoalitionNotions.


(** The reputation of [agent], [None] for one who has none. *)
Definition reputation (F : Type) (agent : string)
    (c : Coalition.GovernanceCoalition F) : option F :=
  dict_get agent (Coalition.self_reputation c).

(** [len(self.members)] as the factor of the weight. *)
Definition member_count {F : Type} {N : PyFloat F}
    (c : Coalition.GovernanceCoalition F) : F :=
  of_int (Z.of_nat (List.length (Coalition.self_members c))).

(** [sum(self.reputation.values())] *)
Definition total_reputation {F : Type} {N : PyFloat F}
    (c : Coalition.GovernanceCoalition F) : F :=
  py_sum (dict_values (Coalition.self_reputation c)).


(** One round between two members: a proposal with the threshold [0.5],
    approved by the first and rejected by the second, then executed. *)
Definition round {F : Type} {N : PyFloat F} (i : nat) : list (Run.call F) :=
  [Run.CreateProposal "agent1" "round" "one more round" "parameter_change"
     (Some Coalition.SIMPLE_MAJORITY) (dec 5 10) Coalition.default_deadline;
   Run.Vote (Z.of_nat i) "agent1" "approve" None;
   Run.Vote (Z.of_nat i) "agent2" "reject" None;
   Run.ExecuteProposal (Z.of_nat i)].

Definition rounds {F : Type} {N : PyFloat F} (n : nat)
    : Coalition.GovernanceCoalition F :=
  perform_all (flat_map round (seq 0 n))
    (Coalition.init "Pair" ["agent1"; "agent2"] Coalition.REPUTATION_WEIGHTED).


(** A proposal with the given counts of votes for, against and abstaining. *)
Definition counted (f a b : Z) : Consensus.ProposalData :=
  {| Consensus.description := "Rebalance the portfolio";
     Consensus.votes_for := f; Consensus.votes_against := a;
     Consensus.votes_abstain := b;
     Consensus.weighted_votes_for := f; Consensus.weighted_votes_against := a;
     Consensus.executed := false |}.

(* ------------------------------------------------------------------ *)
(** ** The Q-table, row by row *)

Section LearningNotions.
Import Learning.
Context {F : Type} `{PyFloat F}.

(** The row of [state] as an update or a prediction finds it: the one in
    the table, or the row of zeros that the state gets when it is
    unknown. *)
Definition row_or_zero (state : State) (a : EnhancedLearningAgent F)
    : dict string F :=
  match dict_get state (q_table a) with
  | Some row => row
  | None => zero_row
  end.

(** The Q-learning rule on one row. *)
Definition q_step (lr df : F) (key : string) (reward : F) (row : dict string F)
    : outcome (dict string F) :=
  (current_q <-- row_get key row ;;
   max_future_q <-- py_max (dict_values row) ;;
   Return
     (dict_set key
        (fadd current_q
           (fmul lr (fsub (fadd reward (fmul df max_future_q)) current_q)))
        row))%outcome.

(** The exploitation branch of [predict_vote] on one row. *)
Definition exploit (q_values : dict string F) : outcome (string * F) :=
  (action <-- argmax q_values ;;
   max_q <-- row_get action q_values ;;
   avg_q <-- py_div (py_sum (dict_values q_values))
               (of_int (Z.of_nat (List.length q_values))) ;;
   Return (action,
           py_min (of_int 1)
             (fdiv (fadd (fsub max_q avg_q) (of_int 1)) (of_int 2))))%outcome.

(** [n] updates in a row, on one row. *)
Fixpoint q_steps (n : nat) (lr df : F) (key : string) (reward : F)
    (row : dict string F) : outcome (dict string F) :=
  match n with
  | O => Return row
  | S k => (row' <-- q_step lr df key reward row ;;
            q_steps k lr df key reward row')%outcome
  end.

(** The three keys of a row. *)
Definition is_action (key : string) : Prop :=
  key = "approve" \/ key = "reject" \/ key = "abstain".

(** The new value of an action after one update. *)
Definition learned (lr df reward q m : F) : F :=
  fadd q (fmul lr (fsub (fadd reward (fmul df m)) q)).

(** Every row of the table has the three actions as its keys, in the
    order in which [zero_row] lists them. *)
Definition rows_ok (a : EnhancedLearningAgent F) : Prop :=
  forall state row,
    dict_get state (q_table a) = Some row ->
    dict_keys row = ["approve"; "reject"; "abstain"].

End LearningNotions.

(** What [n] updates of one action from the row of zeros lead the
    exploitation branch to return. *)
Definition trained {F : Type} {N : PyFloat F} (lr df : F) (n : nat)
    (action : string) (reward : F) : outcome (string * F) :=
  (row <-- q_steps n lr df (lower action) reward Learning.zero_row ;;
   exploit row)%outcome.


(* ------------------------------------------------------------------ *)
(** ** governance/coalition.py: statistics *)

Module CoalitionStats.
Import Coalition.

Section Defs.
Context {F : Type} `{PyFloat F}.

(** The dictionary that [get_coalition_stats] returns. *)
Record Stats : Type := {
  name : string;
  total_members : Z;
  total_proposals : Z;
  voting_method : VotingMethod;
  members : list string;
  average_reputation : F;
  proposals_executed : Z
}.

(** [sum(1 for p in self.proposals.values() if p.executed)] *)
Definition count_executed (ps : dict Z (GovernanceProposal F)) : Z :=
  Z.of_nat (List.length (filter (@executed F) (dict_values ps))).

Definition get_coalition_stats (c : GovernanceCoalition F) : outcome Stats :=
  (average <--
     match self_reputation c with
     | [] => Return (of_int 0)
     | _ => py_div (py_sum (dict_values (self_reputation c)))
              (of_int (Z.of_nat (List.length (self_reputation c))))
     end ;;
   Return {| name := self_name c;
             total_members := Z.of_nat (List.length (self_members c));
             total_proposals := Z.of_nat (List.length (self_proposals c));
             voting_method := self_voting_method c;
             members := self_members c;
             average_reputation := average;
             proposals_executed := count_executed (self_proposals c) |})%outcome.

End Defs.
Arguments Stats F : clear implicits.
End CoalitionStats.

(* ------------------------------------------------------------------ *)
(** ** sdk/python/agent_swarm_sdk/agent.py and swarm.py *)

Module Swarm.

Section Defs.
Context {F : Type} `{PyFloat F}.

(** An [Agent]; [pubkey] is [str(self.keypair.pubkey())], the only use
    that the swarm makes of the keypair. *)
Record Agent : Type := {
  agent_type : string;
  name : string;
  pubkey : string;
  reputation : F;
  is_active : bool
}.

(** [Agent(agent_type, name, keypair, reputation)], the reputation being
    [100.0] when it is not given. *)
Definition new_agent (agent_type name pubkey : string) (reputation : option F)
    : Agent :=
  {| agent_type := agent_type; name := name; pubkey := pubkey;
     reputation := match reputation with Some r => r | None => of_int 100 end;
     is_active := true |}.

(** The attributes of an [AgentSwarm] apart from the RPC client. *)
Record AgentSwarm : Type := {
  program_id : string;
  rpc_url : string;
  authority : option string;
  _agents : dict string Agent;
  _proposals : dict Z Sdk.Proposal
}.

(** [AgentSwarm(program_id, rpc_url, authority)] *)
Definition init (program_id rpc_url : string) (authority : option string)
    : AgentSwarm :=
  {| program_id := program_id; rpc_url := rpc_url; authority := authority;
     _agents := []; _proposals := [] |}.

Definition set_agents ags (s : AgentSwarm) : AgentSwarm :=
  {| program_id := program_id s; rpc_url := rpc_url s;
     authority := authority s; _agents := ags; _proposals := _proposals s |}.

Definition set_proposals ps (s : AgentSwarm) : AgentSwarm :=
  {| program_id := program_id s; rpc_url := rpc_url s;
     authority := authority s; _agents := _agents s; _proposals := ps |}.

Definition initialize (max_agents min_votes_required proposal_timeout : Z)
    : method AgentSwarm string :=
  fun s =>
    match authority s with
    | None =>
        (Raise (ValueError "Authority keypair required for initialization"), s)
    | Some _ => (Return "initialize_tx_signature", s)
    end.

Definition register_agent (agent : Agent) : method AgentSwarm string :=
  fun s =>
    (Return "register_tx_signature",
     set_agents (dict_set (pubkey agent) agent (_agents s)) s).

Definition create_proposal (agent : Agent) (proposal_type description : string)
    (data : option (dict string string)) : method AgentSwarm Sdk.Proposal :=
  fun s =>
    let proposal_id := Z.of_nat (List.length (_proposals s)) in
    let proposal :=
      Sdk.init proposal_id (pubkey agent) proposal_type description
        (Some match data with Some d => d | None => [] end) in
    (Return proposal,
     set_proposals (dict_set proposal_id proposal (_proposals s)) s).

Definition vote (agent : Agent) (proposal_id : Z) (vote reasoning : string)
    : method AgentSwarm string :=
  fun s =>
    match dict_get proposal_id (_proposals s) with
    | None => (Raise (ValueError "Proposal not found"), s)
    | Some proposal =>
        (Return "vote_tx_signature",
         set_proposals
           (dict_set proposal_id
              (after (Sdk.record_vote (pubkey agent) vote) proposal)
              (_proposals s)) s)
    end.

(** The dictionary that [get_swarm_state] returns. *)
Record SwarmState : Type := {
  state_program_id : string;
  total_agents : Z;
  total_proposals : Z;
  state_rpc_url : string
}.

Definition get_swarm_state (s : AgentSwarm) : SwarmState :=
  {| state_program_id := program_id s;
     total_agents := Z.of_nat (List.length (_agents s));
     total_proposals := Z.of_nat (List.length (_proposals s));
     state_rpc_url := rpc_url s |}.

Definition get_agent (agent_pubkey : string) (s : AgentSwarm) : option Agent :=
  dict_get agent_pubkey (_agents s).

Definition get_proposal (proposal_id : Z) (s : AgentSwarm)
    : option Sdk.Proposal :=
  dict_get proposal_id (_proposals s).

Definition list_agents (s : AgentSwarm) : list Agent := dict_values (_agents s).


End Defs.
Arguments Agent F : clear implicits.
Arguments AgentSwarm F : clear implicits.
End Swarm.

(* ------------------------------------------------------------------ *)
(** ** agents/base_agent.py and the votes of agents/consensus_agent.py *)

Module BaseAgent.

Inductive ProposalType : Type :=
| REBALANCE
| TRADE
| RISK_LIMIT
| STRATEGY
| EMERGENCY.


(** The dataclass [ProposalData] with all its fields; the conflict test
    above reads it through [Consensus.ProposalData]. *)
Record ProposalData : Type := {
  proposal_type : ProposalType;
  data : string;
  description : string;
  created_at : Z;
  expires_at : Z;
  votes_for : Z;
  votes_against : Z;
  votes_abstain : Z;
  weighted_votes_for : Z;
  weighted_votes_against : Z;
  executed : bool
}.


(** The fields that the conflict test of the consensus agent reads. *)
Definition conflict_view (p : ProposalData) : Consensus.ProposalData :=
  {| Consensus.description := description p;
     Consensus.votes_for := votes_for p;
     Consensus.votes_against := votes_against p;
     Consensus.votes_abstain := votes_abstain p;
     Consensus.weighted_votes_for := weighted_votes_for p;
     Consensus.weighted_votes_against := weighted_votes_against p;
     Consensus.executed := executed p |}.

End BaseAgent.

Module ConsensusVote.
Import BaseAgent.



End ConsensusVote.

(* ------------------------------------------------------------------ *)
(** ** agents/enhanced_learning_agent.py: the stored Q-values *)

Module Store.
Import Learning.

(** Tuples of any length, as lists, compare component by component. *)
Fixpoint list_eqb {K : Type} `{Key K} (a b : list K) : bool :=
  match a, b with
  | [], [] => true
  | x :: a', y :: b' => key_eqb x y && list_eqb a' b'
  | _, _ => false
  end.

#[export] Instance list_Key {K : Type} `{Key K} : Key (list K) :=
  {| key_eqb := list_eqb |}.

(** [sep.join(parts)] *)
Fixpoint join (sep : string) (parts : list string) : string :=
  match parts with
  | [] => EmptyString
  | [p] => p
  | p :: rest => (p ++ sep ++ join sep rest)%string
  end.

(** [s.split(c)] for a separator of one character: the pieces between the
    occurrences of [c], empty pieces included. *)
Fixpoint split (c : ascii) (s : string) : list string :=
  match s with
  | EmptyString => [EmptyString]
  | String x rest =>
      if Ascii.eqb x c then EmptyString :: split c rest
      else match split c rest with
           | piece :: pieces => String x piece :: pieces
           | [] => [String x EmptyString]
           end
  end.

(** A state as the sequence of its components, which is what the tuple
    is to [join] and what [tuple(key.split(...))] gives back. *)
Definition components (state : State) : list string :=
  let '(market_condition, proposal_type, risk_level) := state in
  [market_condition; proposal_type; risk_level].

(** [state_key] of [_save_q_value] *)
Definition state_key (state : State) : string := join "|" (components state).

Section Defs.
Context {F : Type} `{PyFloat F}.

(** A row of the table [q_values]; [state] is its primary key. *)
Record QRow : Type := {
  state : string;
  approve_value : F;
  reject_value : F;
  abstain_value : F;
  updated_at : string
}.

(** [INSERT OR REPLACE]: the row that has the key, if any, goes and the new
    one is added. *)
Definition insert_or_replace (row : QRow) (table : list QRow) : list QRow :=
  (filter (fun r => negb (String.eqb (state r) (state row))) table ++ [row])%list.

(** [_save_q_value] on the table [q_values] of the database; [now] is
    what the clock gives for [updated_at]. *)
Definition _save_q_value (st : State) (now : string)
    (a : EnhancedLearningAgent F) (table : list QRow)
    : outcome (list QRow) :=
  (q_vals <-- row_of st a ;;
   approve <-- row_get "approve" q_vals ;;
   reject <-- row_get "reject" q_vals ;;
   abstain <-- row_get "abstain" q_vals ;;
   Return
     (insert_or_replace
        {| state := state_key st; approve_value := approve;
           reject_value := reject; abstain_value := abstain;
           updated_at := now |} table))%outcome.

(** The loop of [_load_q_values] over the rows fetched, on a table whose
    keys are tuples of any length, as [tuple(state_key.split(...))] may
    give. *)
Definition _load_q_values (rows : list QRow)
    (q_table : dict (list string) (dict string F))
    : dict (list string) (dict string F) :=
  fold_left
    (fun t row =>
       dict_set (split "|" (state row))
         [("approve", approve_value row); ("reject", reject_value row);
          ("abstain", abstain_value row)] t)
    rows q_table.

End Defs.
Arguments QRow F : clear implicits.
End Store.

(* ------------------------------------------------------------------ *)
(** ** Notions used by the further properties *)

(** [1] for [true], [0] for [false]. *)
Definition indicator (b : bool) : Z := if b then 1%Z else 0%Z.

(** The proposals of a swarm are numbered from [0] in the order of their
    creation. *)
Definition swarm_numbered {F : Type} (s : Swarm.AgentSwarm F) : Prop :=
  dict_keys (Swarm._proposals s) =
  map Z.of_nat (seq 0 (List.length (Swarm._proposals s))).

(** Every value of every row of the table lies between [lo] and [hi]. *)
Definition q_bounded (lo hi : Q) (a : Learning.EnhancedLearningAgent Q) : Prop :=
  forall state row q,
    dict_get state (Learning.q_table a) = Some row ->
    In q (dict_values row) -> lo <= q /\ q <= hi.

(** The loop of [demo_learning_agent] over its list of outcomes:
    [record_outcome] is called on each in turn, an outcome being given by
    its proposal type, vote, success, market condition and risk level.
    A call that raises ends the loop. *)
Fixpoint record_outcomes {F : Type} {N : PyFloat F}
    (outcomes : list (string * string * bool * string * string))
    : method (Learning.EnhancedLearningAgent F) unit :=
  match outcomes with
  | [] => ret tt
  | (pt, vote, success, mc, rl) :: rest =>
      (Learning.record_outcome pt vote success mc rl ;;
       record_outcomes rest)%method
  end.

(** The string has no occurrence of the character. *)
Fixpoint free_of (c : ascii) (s : string) : bool :=
  match s with
  | EmptyString => true
  | String x rest => negb (Ascii.eqb x c) && free_of c rest
  end.

(* ------------------------------------------------------------------ *)
(** * Properties *)

(** ** Dictionaries *)

Class KeyLaws (K : Type) {KK : Key K} : Prop := {
  key_eqb_eq : forall a b : K, key_eqb a b = true <-> a = b
}.
Arguments KeyLaws K {KK}.

#[export] Instance string_KeyLaws : KeyLaws string.
Proof. constructor; exact String.eqb_eq. Qed.

#[export] Instance Z_KeyLaws : KeyLaws Z.
Proof. constructor; exact Z.eqb_eq. Qed.

#[export] Instance pair_KeyLaws {A B} `{KeyLaws A} `{KeyLaws B} : KeyLaws (A * B).
Proof.
  constructor; intros [a1 a2] [b1 b2]; simpl.
  rewrite andb_true_iff, !key_eqb_eq. split.
  - intros [-> ->]; reflexivity.
  - intros [= -> ->]; split; reflexivity.
Qed.

Section DictFacts.
Context {K V : Type} `{KeyLaws K}.

Lemma key_eqb_refl (k : K) : key_eqb k k = true.
Proof. apply key_eqb_eq; reflexivity. Qed.

Lemma key_eqb_neq (a b : K) : a <> b -> key_eqb a b = false.
Proof.
  intros Hab. destruct (key_eqb a b) eqn:E; [|reflexivity].
  apply key_eqb_eq in E. contradiction.
Qed.

Lemma dict_get_set_same (k : K) (v : V) (d : dict K V) :
  dict_get k (dict_set k v d) = Some v.
Proof.
  induction d as [|[k' v'] d IH]; simpl.
  - rewrite key_eqb_refl; reflexivity.
  - destruct (key_eqb k k') eqn:E; simpl; rewrite E; [reflexivity | exact IH].
Qed.

Lemma dict_get_set_other (k k' : K) (v : V) (d : dict K V) :
  k <> k' -> dict_get k' (dict_set k v d) = dict_get k' d.
Proof.
  intros Hne. induction d as [|[k0 v0] d IH]; simpl.
  - rewrite key_eqb_neq by congruence; reflexivity.
  - destruct (key_eqb k k0) eqn:E; simpl.
    + apply key_eqb_eq in E; subst k0.
      rewrite key_eqb_neq by congruence; reflexivity.
    + destruct (key_eqb k' k0); [reflexivity | exact IH].
Qed.

Lemma dict_mem_set_same (k : K) (v : V) (d : dict K V) :
  dict_mem k (dict_set k v d) = true.
Proof. unfold dict_mem; rewrite dict_get_set_same; reflexivity. Qed.

Lemma dict_mem_set_other (k k' : K) (v : V) (d : dict K V) :
  k <> k' -> dict_mem k' (dict_set k v d) = dict_mem k' d.
Proof. intros; unfold dict_mem; rewrite dict_get_set_other by assumption; reflexivity. Qed.

(** Assigning twice to a key is assigning the last value: the first
    assignment leaves no trace. *)
Lemma dict_set_set (k : K) (v1 v2 : V) (d : dict K V) :
  dict_set k v2 (dict_set k v1 d) = dict_set k v2 d.
Proof.
  induction d as [|[k' v'] d IH]; simpl.
  - rewrite key_eqb_refl; reflexivity.
  - destruct (key_eqb k k') eqn:E; simpl; rewrite E; [reflexivity|].
    rewrite IH; reflexivity.
Qed.

(** An assignment keeps the keys when the key is there and adds it at the
    end when it is not. *)
Lemma dict_keys_set (k : K) (v : V) (d : dict K V) :
  dict_keys (dict_set k v d) =
  if dict_mem k d then dict_keys d else (dict_keys d ++ [k])%list.
Proof.
  unfold dict_mem. induction d as [|[k' v'] d IH]; simpl; [reflexivity|].
  destruct (key_eqb k k') eqn:E; simpl; [reflexivity|].
  rewrite IH. destruct (dict_get k d); reflexivity.
Qed.

Lemma dict_mem_keys (k : K) (d : dict K V) :
  dict_mem k d = set_mem k (dict_keys d).
Proof.
  unfold dict_mem, set_mem. induction d as [|[k' v'] d IH]; simpl; [reflexivity|].
  destruct (key_eqb k k'); simpl; [reflexivity | exact IH].
Qed.

Lemma set_mem_In (k : K) (s : pyset K) : set_mem k s = true <-> In k s.
Proof.
  unfold set_mem. rewrite existsb_exists. split.
  - intros [x [Hin E]]. apply key_eqb_eq in E; subst; exact Hin.
  - intros Hin. exists k. split; [exact Hin | apply key_eqb_refl].
Qed.

End DictFacts.

(* ------------------------------------------------------------------ *)
(** ** The tally *)

Section TallyFacts.
Import Coalition.
Context {F : Type} `{PyFloat F}.

(** What [tally_votes] returns for a proposal of the coalition. *)
Lemma tally_votes_found (c : GovernanceCoalition F) pid p :
  dict_get pid (self_proposals c) = Some p ->
  tally_votes pid c =
  Return
    (let tf := py_sum (dict_values (votes_for p)) in
     let ta := py_sum (dict_values (votes_against p)) in
     let rate := if feqb (fadd tf ta) (of_int 0) then of_int 0
                 else fdiv tf (fadd tf ta) in
     {| tally_proposal_id := pid; total_for := tf; total_against := ta;
        approval_rate := rate;
        tally_required_threshold := required_threshold p;
        passed := fleb (required_threshold p) rate;
        tally_voting_method := voting_method p |}).
Proof. intros Hp. unfold tally_votes. rewrite Hp. reflexivity. Qed.

Lemma tally_votes_missing (c : GovernanceCoalition F) pid :
  dict_get pid (self_proposals c) = None ->
  tally_votes pid c = Raise (ValueError "Proposal not found").
Proof. intros Hp. unfold tally_votes. rewrite Hp. reflexivity. Qed.


End TallyFacts.





(* ------------------------------------------------------------------ *)
(** ** One vote per agent *)

Section VoteFacts.
Import Coalition.
Context {F : Type} `{PyFloat F}.

(** What [vote] does for a member on a proposal of the coalition, once the
    weight is known: the vote is recorded, whatever the state of the
    proposal. *)
Lemma vote_with_weight (c : GovernanceCoalition F) pid p voter choice w :
  dict_get pid (self_proposals c) = Some p ->
  set_mem voter (self_members c) = true ->
  vote pid voter choice (Some w) c =
  (Return tt,
   set_proposals (dict_set pid (record choice voter w p) (self_proposals c)) c).
Proof.
  intros Hp Hm. unfold vote. rewrite Hp, Hm. reflexivity.
Qed.

Lemma vote_missing (c : GovernanceCoalition F) pid voter choice w :
  dict_get pid (self_proposals c) = None ->
  vote pid voter choice w c = (Raise (ValueError "Proposal not found"), c).
Proof. intros Hp. unfold vote. rewrite Hp. reflexivity. Qed.

Lemma vote_not_member (c : GovernanceCoalition F) pid p voter choice w :
  dict_get pid (self_proposals c) = Some p ->
  set_mem voter (self_members c) = false ->
  vote pid voter choice w c = (Raise (ValueError "Voter not in coalition"), c).
Proof. intros Hp Hm. unfold vote. rewrite Hp, Hm. reflexivity. Qed.

(** [record] never touches the [executed] flag. *)
Lemma record_executed choice voter (w : F) p :
  executed (record choice voter w p) = executed p.
Proof.
  unfold record.
  destruct (String.eqb (lower choice) "approve"); [reflexivity|].
  destruct (String.eqb (lower choice) "reject"); reflexivity.
Qed.

(** A second vote for the same choice replaces the weight of the first. *)
Lemma record_same_choice_overwrites choice voter (w1 w2 : F) p :
  record choice voter w2 (record choice voter w1 p) = record choice voter w2 p.
Proof.
  unfold record.
  destruct (String.eqb (lower choice) "approve").
  - unfold set_votes_for; cbn. rewrite dict_set_set. reflexivity.
  - destruct (String.eqb (lower choice) "reject").
    + unfold set_votes_against; cbn. rewrite dict_set_set. reflexivity.
    + unfold set_votes_abstain; cbn. rewrite dict_set_set. reflexivity.
Qed.

(** A second vote for another choice leaves the first one in its ledger:
    after approve and then reject the voter is in both. *)
Lemma record_other_choice_keeps voter (w1 w2 : F) p :
  let p' := record "reject" voter w2 (record "approve" voter w1 p) in
  dict_get voter (votes_for p') = Some w1 /\
  dict_get voter (votes_against p') = Some w2.
Proof.
  cbn. split; apply dict_get_set_same.
Qed.

End VoteFacts.

(** In the SDK's [Proposal] the votes are one dictionary from voter to
    choice, and a second vote replaces the first. *)
Lemma sdk_record_vote_overwrites voter v1 v2 (p : Sdk.Proposal) :
  after (Sdk.record_vote voter v2) (after (Sdk.record_vote voter v1) p) =
  after (Sdk.record_vote voter v2) p /\
  dict_get voter (Sdk.votes (after (Sdk.record_vote voter v2) p)) = Some v2.
Proof.
  unfold after, Sdk.record_vote; cbn. split.
  - rewrite dict_set_set. reflexivity.
  - apply dict_get_set_same.
Qed.

(** C2, on the code.  In [GovernanceCoalition.vote] the three choices are
    three dictionaries and a vote only writes into its own: when Agent-A
    approves and then rejects the same proposal, Agent-A stays in
    [votes_for] and enters [votes_against], and the tally counts weight
    [1.0] on each side for that one agent. *)
Theorem vote_changed_choice_counts_on_both_sides :
  let ballots := [("Agent-A", "approve"); ("Agent-A", "reject")] in
  (let c := Scenario.cast (F := Q) ballots
              (Scenario.opened Coalition.SUPERMAJORITY) in
   exists p t,
     dict_get 0%Z (Coalition.self_proposals c) = Some p /\
     Coalition.votes_for p = [("Agent-A", 1%Q)] /\
     Coalition.votes_against p = [("Agent-A", 1%Q)] /\
     Coalition.tally_votes 0 c = Return t /\
     Coalition.total_for t = 1%Q /\ Coalition.total_against t = 1%Q) /\
  (let c := Scenario.cast (F := float) ballots
              (Scenario.opened Coalition.SUPERMAJORITY) in
   exists p t,
     dict_get 0%Z (Coalition.self_proposals c) = Some p /\
     Coalition.votes_for p = [("Agent-A", 1%float)] /\
     Coalition.votes_against p = [("Agent-A", 1%float)] /\
     Coalition.tally_votes 0 c = Return t /\
     Coalition.total_for t = 1%float /\ Coalition.total_against t = 1%float).
Proof.
  split; cbv zeta; do 2 eexists; repeat split; vm_compute; reflexivity.
Qed.

(* ------------------------------------------------------------------ *)
(** ** Votes on an executed proposal *)

(** C3, refuted as stated.  Proposal [0] has been executed, with Agent-C
    the one voter against it.  Agent-C then votes to approve: the call
    returns normally, no error is raised, and the ledger of the executed
    proposal now holds Agent-C among the approvals as well. *)
Lemma vote_after_execution_is_recorded :
  let c := after (Coalition.execute_proposal 0)
             (Scenario.cast (F := Q) Scenario.four_to_one
                (Scenario.opened Coalition.SUPERMAJORITY)) in
  let r := Coalition.vote 0 "Agent-C" "approve" None c in
  option_map (@Coalition.executed Q) (dict_get 0%Z (Coalition.self_proposals c))
    = Some true /\
  option_map (@Coalition.votes_for Q) (dict_get 0%Z (Coalition.self_proposals c))
    = Some [("Agent-A", 1%Q); ("Agent-B", 1%Q); ("Agent-D", 1%Q);
            ("Agent-E", 1%Q)] /\
  fst r = Return tt /\
  option_map (@Coalition.votes_for Q)
    (dict_get 0%Z (Coalition.self_proposals (snd r)))
    = Some [("Agent-A", 1%Q); ("Agent-B", 1%Q); ("Agent-D", 1%Q);
            ("Agent-E", 1%Q); ("Agent-C", 1%Q)] /\
  snd r <> c.
Proof.
  cbv zeta. split; [|split; [|split; [|split]]].
  - vm_compute. reflexivity.
  - vm_compute. reflexivity.
  - vm_compute. reflexivity.
  - vm_compute. reflexivity.
  - vm_compute. discriminate.
Qed.

(** C3, amended.  Neither path looks at the [executed] flag.  For a member
    of the coalition whose weight is given or can be computed,
    [GovernanceCoalition.vote] on an executed proposal returns normally,
    writes the weight into the ledger of the chosen side, and leaves the
    flag, the members and the reputations as they were; the SDK's
    [Proposal.record_vote] on an executed proposal stores the vote and
    leaves the flag set. *)
Theorem vote_on_executed_proposal_is_recorded :
  (forall (F : Type) (N : PyFloat F) (c : Coalition.GovernanceCoalition F)
          pid p voter choice weight w,
     dict_get pid (Coalition.self_proposals c) = Some p ->
     Coalition.executed p = true ->
     set_mem voter (Coalition.self_members c) = true ->
     match weight with
     | None => Coalition._calculate_vote_weight voter (Coalition.voting_method p) c
     | Some w' => Return w'
     end = Return w ->
     exists c',
       Coalition.vote pid voter choice weight c = (Return tt, c') /\
       dict_get pid (Coalition.self_proposals c') =
         Some (Coalition.record choice voter w p) /\
       Coalition.executed (Coalition.record choice voter w p) = true /\
       Coalition.self_members c' = Coalition.self_members c /\
       Coalition.self_reputation c' = Coalition.self_reputation c) /\
  (forall (p : Sdk.Proposal) voter choice,
     Sdk.executed p = true ->
     exists p',
       Sdk.record_vote voter choice p = (Return tt, p') /\
       dict_get voter (Sdk.votes p') = Some choice /\
       Sdk.executed p' = true).
Proof.
  split.
  - intros F N c pid p voter choice weight w Hp He Hm Hw.
    eexists. split; [|split; [|split; [|split]]].
    + unfold Coalition.vote. rewrite Hp, Hm. cbn [negb]. rewrite Hw. reflexivity.
    + cbn [Coalition.self_proposals Coalition.set_proposals].
      apply dict_get_set_same.
    + rewrite record_executed. exact He.
    + reflexivity.
    + reflexivity.
  - intros p voter choice He. eexists. split; [reflexivity|]. split.
    + cbn. apply dict_get_set_same.
    + exact He.
Qed.

Lemma vote_on_executed_proposal_is_recorded_witness :
  let c := after (Coalition.execute_proposal 0)
             (Scenario.cast (F := Q) Scenario.four_to_one
                (Scenario.opened Coalition.SUPERMAJORITY)) in
  exists p c',
    dict_get 0%Z (Coalition.self_proposals c) = Some p /\
    Coalition.executed p = true /\
    Coalition.vote 0 "Agent-C" "approve" (Some 1%Q) c = (Return tt, c') /\
    dict_get 0%Z (Coalition.self_proposals c') =
      Some (Coalition.record "approve" "Agent-C" 1%Q p).
Proof.
  cbv zeta.
  assert (Hp : { p | dict_get 0%Z
                       (Coalition.self_proposals
                          (after (Coalition.execute_proposal 0)
                             (Scenario.cast (F := Q) Scenario.four_to_one
                                (Scenario.opened Coalition.SUPERMAJORITY))))
                     = Some p /\ Coalition.executed p = true }).
  { eexists. split; vm_compute; reflexivity. }
  destruct Hp as (p & Hp & He).
  destruct (proj1 vote_on_executed_proposal_is_recorded Q QFloat _
              0%Z p "Agent-C" "approve" (Some 1%Q) 1%Q Hp He eq_refl eq_refl)
    as (c' & Hv & Hg & _).
  exists p, c'. repeat split; assumption.
Defined.

(* ------------------------------------------------------------------ *)
(** ** Runs of a coalition and what they preserve *)

Section MoreDictFacts.
Context {K V : Type} `{KeyLaws K}.

Lemma dict_get_set (k k' : K) (v : V) (d : dict K V) :
  dict_get k' (dict_set k v d) =
  if key_eqb k k' then Some v else dict_get k' d.
Proof.
  destruct (key_eqb k k') eqn:E.
  - apply key_eqb_eq in E; subst. apply dict_get_set_same.
  - apply dict_get_set_other. intros ->. rewrite key_eqb_refl in E. discriminate.
Qed.

Lemma dict_set_get_id (k : K) (v : V) (d : dict K V) :
  dict_get k d = Some v -> dict_set k v d = d.
Proof.
  induction d as [|[k' v'] d IH]; simpl; [discriminate|].
  destruct (key_eqb k k') eqn:E.
  - intros [= ->]. reflexivity.
  - intros Hg. rewrite IH by exact Hg. reflexivity.
Qed.

Lemma dict_keys_set_present (k : K) (v : V) (d : dict K V) :
  dict_mem k d = true -> dict_keys (dict_set k v d) = dict_keys d.
Proof. intros Hm. rewrite dict_keys_set, Hm. reflexivity. Qed.

Lemma dict_length_set (k : K) (v : V) (d : dict K V) :
  List.length (dict_set k v d) =
  if dict_mem k d then List.length d else S (List.length d).
Proof.
  unfold dict_mem. induction d as [|[k' v'] d IH]; simpl; [reflexivity|].
  destruct (key_eqb k k'); simpl; [reflexivity|].
  rewrite IH. destruct (dict_get k d); reflexivity.
Qed.

Lemma set_mem_false_notin (k : K) (s : pyset K) :
  set_mem k s = false <-> ~ In k s.
Proof.
  rewrite <- (set_mem_In k s). destruct (set_mem k s); split; intros; congruence.
Qed.

Lemma set_add_NoDup (k : K) (s : pyset K) : NoDup s -> NoDup (set_add k s).
Proof.
  intros Hs. unfold set_add. destruct (set_mem k s) eqn:E; [exact Hs|].
  apply set_mem_false_notin in E.
  apply NoDup_app; [exact Hs | repeat constructor; intros [] | ].
  intros x Hx [<-|[]]. contradiction.
Qed.

Lemma set_remove_NoDup (k : K) (s : pyset K) : NoDup s -> NoDup (set_remove k s).
Proof. intros Hs. unfold set_remove. apply NoDup_filter. exact Hs. Qed.

Lemma set_remove_notin (k : K) (s : pyset K) :
  ~ In k s -> set_remove k s = s.
Proof.
  unfold set_remove. induction s as [|x s IH]; simpl; [reflexivity|].
  intros Hn. rewrite key_eqb_neq by (intros ->; apply Hn; left; reflexivity).
  simpl. rewrite IH; [reflexivity|]. intros Hin; apply Hn; right; exact Hin.
Qed.

Lemma dict_keys_del (k : K) (d : dict K V) :
  NoDup (dict_keys d) -> dict_keys (dict_del k d) = set_remove k (dict_keys d).
Proof.
  unfold set_remove. induction d as [|[k' v'] d IH]; simpl; [reflexivity|].
  intros Hnd. inversion Hnd as [|? ? Hnotin Hnd']; subst.
  destruct (key_eqb k k') eqn:E; simpl.
  - apply key_eqb_eq in E; subst k'.
    symmetry. apply set_remove_notin. exact Hnotin.
  - rewrite IH by exact Hnd'. reflexivity.
Qed.

Lemma set_of_list_fold (xs : list K) (s : pyset K) (d : dict K V) (v : K -> V) :
  dict_keys d = s -> NoDup s ->
  dict_keys (fold_left (fun d m => dict_set m (v m) d) xs d) =
    fold_left (fun s k => set_add k s) xs s /\
  NoDup (fold_left (fun s k => set_add k s) xs s).
Proof.
  revert s d. induction xs as [|x xs IH]; simpl; intros s d Hk Hs.
  - split; assumption.
  - apply IH.
    + rewrite dict_keys_set, dict_mem_keys, Hk. unfold set_add.
      destruct (set_mem x s); reflexivity.
    + apply set_add_NoDup. exact Hs.
Qed.

End MoreDictFacts.

Section RunFacts.
Import Coalition Run.
Context {F : Type} `{PyFloat F}.

Ltac fields :=
  cbn [self_name self_members self_voting_method self_proposals self_reputation
       set_members set_proposals set_reputation fst snd negb].

Lemma wf_init name members method : wf (init (F := F) name members method).
Proof.
  destruct (@set_of_list_fold string F _ _ members [] [] (fun _ => of_int 100)
              eq_refl (NoDup_nil _)) as [Hk Hn].
  constructor; fields.
  - exact Hn.
  - exact Hk.
  - reflexivity.
Qed.

Lemma wf_add_member a r (c : GovernanceCoalition F) :
  wf c -> wf (after (add_member a r) c).
Proof.
  intros [Hn Hr Hp]. unfold after, add_member.
  destruct (set_mem a (self_members c)) eqn:E; fields; [constructor; assumption|].
  constructor; fields.
  - apply set_add_NoDup. exact Hn.
  - rewrite dict_keys_set, dict_mem_keys, Hr. unfold set_add. rewrite E.
    reflexivity.
  - exact Hp.
Qed.

Lemma wf_remove_member a (c : GovernanceCoalition F) :
  wf c -> wf (after (remove_member a) c).
Proof.
  intros [Hn Hr Hp]. unfold after, remove_member.
  destruct (set_mem a (self_members c)) eqn:E; fields; [|constructor; assumption].
  rewrite dict_mem_keys, Hr, E. fields.
  constructor; fields.
  - apply set_remove_NoDup. exact Hn.
  - rewrite dict_keys_del by (rewrite Hr; exact Hn). rewrite Hr. reflexivity.
  - exact Hp.
Qed.

(** The number that the next proposal gets is not taken. *)
Lemma next_id_fresh (c : GovernanceCoalition F) :
  wf c ->
  dict_mem (Z.of_nat (List.length (self_proposals c))) (self_proposals c) = false.
Proof.
  intros [_ _ Hp]. rewrite dict_mem_keys, Hp.
  apply set_mem_false_notin. rewrite in_map_iff. intros [n [Hn Hin]].
  apply Nat2Z.inj in Hn. subst n. apply in_seq in Hin. lia.
Qed.

Lemma wf_create_proposal pr t d ty m th dl (c : GovernanceCoalition F) :
  wf c -> wf (after (create_proposal pr t d ty m th dl) c).
Proof.
  intros Hwf. pose proof (next_id_fresh Hwf) as Hfresh.
  destruct Hwf as [Hn Hr Hp]. unfold after, create_proposal.
  destruct (set_mem pr (self_members c)); fields; [|constructor; assumption].
  constructor; fields; try assumption.
  rewrite dict_keys_set, dict_length_set, Hfresh, Hp.
  rewrite seq_S, map_app. reflexivity.
Qed.

(** Writing a proposal back under its own number changes neither the
    numbers nor their order. *)
Lemma wf_set_proposal pid p p' (c : GovernanceCoalition F) :
  dict_get pid (self_proposals c) = Some p ->
  wf c -> wf (set_proposals (dict_set pid p' (self_proposals c)) c).
Proof.
  intros Hg [Hn Hr Hp].
  assert (Hm : dict_mem pid (self_proposals c) = true)
    by (unfold dict_mem; rewrite Hg; reflexivity).
  constructor; fields; try assumption.
  rewrite dict_keys_set_present, dict_length_set, Hm by exact Hm. exact Hp.
Qed.

Lemma wf_vote pid voter v w (c : GovernanceCoalition F) :
  wf c -> wf (after (vote pid voter v w) c).
Proof.
  intros Hwf. unfold after, vote.
  destruct (dict_get pid (self_proposals c)) as [p|] eqn:Hg; fields; [|exact Hwf].
  destruct (set_mem voter (self_members c)); fields; [|exact Hwf].
  destruct (match w with
            | None => _calculate_vote_weight voter (voting_method p) c
            | Some w' => Return w'
            end); fields; [|exact Hwf].
  eapply wf_set_proposal; eassumption.
Qed.

(** One turn of the loop, for a voter who has a reputation. *)
Lemma update_one_present p o voter r (c : GovernanceCoalition F) :
  dict_get voter (self_reputation c) = Some r ->
  update_one p o voter c =
  (Return tt,
   set_reputation (dict_set voter (adjusted p o voter r) (self_reputation c)) c).
Proof.
  intros Hg. unfold update_one, adjusted. rewrite Hg.
  destruct (dict_mem voter (votes_for p) && o); [reflexivity|].
  destruct (dict_mem voter (votes_against p) && negb o); [reflexivity|].
  destruct (dict_mem voter (votes_for p) && negb o); [reflexivity|].
  destruct (dict_mem voter (votes_against p) && o); [reflexivity|].
  rewrite (dict_set_get_id _ _ Hg). destruct c; reflexivity.
Qed.

(** The loop over voters who all have a reputation: it returns, each of
    them is adjusted once, and nothing else changes. *)
Lemma for_each_update_one p o (xs : list string) :
  forall c : GovernanceCoalition F,
    NoDup xs ->
    (forall x, In x xs -> dict_mem x (self_reputation c) = true) ->
    exists rep,
      for_each (update_one p o) xs c = (Return tt, set_reputation rep c) /\
      dict_keys rep = dict_keys (self_reputation c) /\
      (forall v,
         dict_get v rep =
         if set_mem v xs
         then option_map (adjusted p o v) (dict_get v (self_reputation c))
         else dict_get v (self_reputation c)).
Proof.
  induction xs as [|x xs IH]; intros c Hnd Hin.
  - exists (self_reputation c). cbn. repeat split. destruct c; reflexivity.
  - inversion Hnd as [|? ? Hx Hnd']; subst.
    assert (Hmx : dict_mem x (self_reputation c) = true)
      by (apply Hin; left; reflexivity).
    unfold dict_mem in Hmx.
    destruct (dict_get x (self_reputation c)) as [r|] eqn:Hg; [|discriminate].
    set (c1 := set_reputation
                 (dict_set x (adjusted p o x r) (self_reputation c)) c).
    destruct (IH c1 Hnd') as (rep & Hrun & Hkeys & Hget).
    { intros y Hy. cbn. unfold dict_mem. rewrite dict_get_set.
      destruct (key_eqb x y); [reflexivity|].
      apply (Hin y). right; exact Hy. }
    exists rep. split; [|split].
    + cbn [for_each]. unfold bind. erewrite update_one_present by exact Hg.
      fold c1. rewrite Hrun. destruct c; reflexivity.
    + rewrite Hkeys. cbn. apply dict_keys_set_present.
      unfold dict_mem. rewrite Hg. reflexivity.
    + intros v. rewrite Hget. cbn [set_mem existsb self_reputation c1 set_reputation].
      change (existsb (key_eqb v) xs) with (set_mem v xs).
      rewrite dict_get_set.
      destruct (key_eqb v x) eqn:E.
      * apply key_eqb_eq in E; subst v. rewrite key_eqb_refl.
        apply set_mem_false_notin in Hx. rewrite Hx. cbn. rewrite Hg. reflexivity.
      * rewrite key_eqb_neq
          by (intros ->; rewrite key_eqb_refl in E; discriminate).
        cbn. reflexivity.
Qed.

(** The order in which the loop meets the members, which for a Python
    [set] is not fixed, has no bearing on the reputations it leaves. *)
Lemma update_reputation_order_free p o (xs ys : list string)
    (c : GovernanceCoalition F) :
  NoDup xs -> Permutation xs ys ->
  (forall x, In x xs -> dict_mem x (self_reputation c) = true) ->
  forall v,
    dict_get v (self_reputation (after (for_each (update_one p o) xs) c)) =
    dict_get v (self_reputation (after (for_each (update_one p o) ys) c)).
Proof.
  intros Hnd Hperm Hin v.
  destruct (for_each_update_one p o c Hnd Hin) as (rx & Hrx & _ & Hgx).
  destruct (@for_each_update_one p o ys c) as (ry & Hry & _ & Hgy).
  { eapply Permutation_NoDup; eassumption. }
  { intros y Hy. apply Hin. eapply Permutation_in; [|exact Hy].
    apply Permutation_sym. exact Hperm. }
  unfold after. rewrite Hrx, Hry. cbn [snd self_reputation set_reputation].
  rewrite Hgx, Hgy.
  assert (E : set_mem v xs = set_mem v ys).
  { destruct (set_mem v ys) eqn:Ey.
    - apply set_mem_In. apply set_mem_In in Ey.
      eapply Permutation_in; [apply Permutation_sym; exact Hperm | exact Ey].
    - apply set_mem_false_notin. apply set_mem_false_notin in Ey.
      intros Hv. apply Ey. eapply Permutation_in; eassumption. }
  rewrite E. reflexivity.
Qed.

(** [_update_reputation] on a well-formed coalition returns, changes the
    reputations only, and adjusts every member once. *)
Lemma update_reputation_wf [pid p] o [c : GovernanceCoalition F] :
  wf c ->
  dict_get pid (self_proposals c) = Some p ->
  exists rep,
    _update_reputation pid o c = (Return tt, set_reputation rep c) /\
    dict_keys rep = dict_keys (self_reputation c) /\
    (forall v,
       dict_get v rep =
       if set_mem v (self_members c)
       then option_map (adjusted p o v) (dict_get v (self_reputation c))
       else dict_get v (self_reputation c)).
Proof.
  intros [Hn Hr Hp] Hg. unfold _update_reputation. rewrite Hg.
  apply for_each_update_one; [exact Hn|].
  intros x Hx. rewrite dict_mem_keys, Hr. apply set_mem_In. exact Hx.
Qed.

(** A turn of the loop never touches the proposals or the members,
    whether it returns or raises; nor does the loop. *)
Lemma update_one_frame p o x (c : GovernanceCoalition F) :
  self_proposals (snd (update_one p o x c)) = self_proposals c /\
  self_members (snd (update_one p o x c)) = self_members c.
Proof.
  unfold update_one.
  destruct (dict_get x (self_reputation c));
    repeat match goal with
           | |- context [if ?b then _ else _] => destruct b
           end; split; reflexivity.
Qed.

Lemma for_each_update_one_frame p o (xs : list string) :
  forall c : GovernanceCoalition F,
    self_proposals (snd (for_each (update_one p o) xs c)) = self_proposals c /\
    self_members (snd (for_each (update_one p o) xs c)) = self_members c.
Proof.
  induction xs as [|x xs IH]; intros c; [split; reflexivity|].
  cbn [for_each]. unfold bind.
  destruct (update_one_frame p o x c) as [H1 H2].
  destruct (update_one p o x c) as [[[]|e] c1]; cbn [snd] in *.
  - destruct (IH c1) as [H3 H4]. rewrite H3, H4. split; assumption.
  - split; assumption.
Qed.

End RunFacts.

(* ------------------------------------------------------------------ *)
(** ** Executing a proposal *)

Section ExecuteFacts.
Import Coalition Run.
Context {F : Type} `{PyFloat F}.

Ltac fields :=
  cbn [self_name self_members self_voting_method self_proposals self_reputation
       set_members set_proposals set_reputation fst snd negb].

Lemma execute_proposal_missing pid (c : GovernanceCoalition F) :
  dict_get pid (self_proposals c) = None ->
  execute_proposal pid c = (Raise (ValueError "Proposal not found"), c).
Proof.
  intros Hg. unfold execute_proposal. rewrite (tally_votes_missing _ _ Hg).
  reflexivity.
Qed.

(** On an executed proposal [execute_proposal] returns [False] and leaves
    the coalition as it is. *)
Lemma execute_proposal_executed pid p (c : GovernanceCoalition F) :
  dict_get pid (self_proposals c) = Some p ->
  executed p = true ->
  execute_proposal pid c = (Return false, c).
Proof.
  intros Hg He. unfold execute_proposal. rewrite (tally_votes_found _ _ Hg).
  cbv zeta. cbn [passed]. rewrite Hg, He.
  destruct (fleb _ _); reflexivity.
Qed.

(** Whatever a call of [execute_proposal] did, the coalition it leaves has
    the proposals under the same numbers, the proposal in question being
    either untouched or marked executed. *)
Lemma execute_proposal_marks pid p (c : GovernanceCoalition F) :
  dict_get pid (self_proposals c) = Some p ->
  (after (execute_proposal pid) c = c /\
   fst (execute_proposal pid c) = Return false) \/
  (executed p = false /\
   self_proposals (after (execute_proposal pid) c) =
   dict_set pid (set_executed true p) (self_proposals c) /\
   self_members (after (execute_proposal pid) c) = self_members c).
Proof.
  intros Hg. unfold after, execute_proposal.
  rewrite (tally_votes_found _ _ Hg). cbv zeta. cbn [passed]. rewrite Hg.
  destruct (fleb _ _); cbn [negb]; [|left; split; reflexivity].
  destruct (executed p) eqn:He; [left; split; reflexivity|].
  right. split; [reflexivity|].
  unfold bind, _update_reputation. fields. rewrite dict_get_set_same.
  match goal with
  | |- context [for_each ?b ?xs ?c1] =>
      destruct (for_each_update_one_frame (set_executed true p) true xs c1)
        as [H1 H2];
      destruct (for_each b xs c1) as [[[]|e] c2]
  end; cbn [snd fst ret] in *; fields; rewrite H1, H2; split; reflexivity.
Qed.

(** The second of two calls of [execute_proposal] on the
    same proposal changes nothing and does not report an execution. *)
Lemma execute_proposal_twice pid (c : GovernanceCoalition F) :
  let c1 := after (execute_proposal pid) c in
  after (execute_proposal pid) c1 = c1 /\
  fst (execute_proposal pid c1) <> Return true.
Proof.
  cbv zeta.
  destruct (dict_get pid (self_proposals c)) as [p|] eqn:Hg.
  - destruct (execute_proposal_marks pid c Hg) as [[Hsame Hret]|(He & Hp & Hm)].
    + rewrite Hsame. unfold after in *. rewrite Hsame, Hret.
      split; [reflexivity | discriminate].
    + assert (Hg1 : dict_get pid
                      (self_proposals (after (execute_proposal pid) c)) =
                    Some (set_executed true p))
        by (rewrite Hp; apply dict_get_set_same).
      unfold after at 1.
      rewrite (execute_proposal_executed pid _ Hg1 eq_refl).
      split; [reflexivity | discriminate].
  - unfold after. rewrite (execute_proposal_missing pid c Hg). cbn [snd fst].
    rewrite (execute_proposal_missing pid c Hg). split; [reflexivity|discriminate].
Qed.

Lemma wf_execute_proposal pid (c : GovernanceCoalition F) :
  wf c -> wf (after (execute_proposal pid) c).
Proof.
  intros Hwf. unfold after, execute_proposal.
  destruct (dict_get pid (self_proposals c)) as [p|] eqn:Hg.
  - rewrite (tally_votes_found _ _ Hg). cbv zeta. cbn [passed].
    destruct (fleb _ _); fields; [|exact Hwf].
    destruct (executed p); fields; [exact Hwf|].
    set (c1 := set_proposals
                 (dict_set pid (set_executed true p) (self_proposals c)) c).
    assert (Hwf1 : wf c1) by (eapply wf_set_proposal; eassumption).
    assert (Hg1 : dict_get pid (self_proposals c1) = Some (set_executed true p))
      by (apply dict_get_set_same).
    destruct (update_reputation_wf true Hwf1 Hg1)
      as (rep & Hrun & Hkeys & _).
    unfold bind. rewrite Hrun. cbn [ret snd].
    destruct Hwf1 as [Hn Hr Hp]. constructor; fields.
    + exact Hn.
    + rewrite Hkeys. exact Hr.
    + exact Hp.
  - rewrite (tally_votes_missing _ _ Hg). exact Hwf.
Qed.

Lemma wf_perform k (c : GovernanceCoalition F) : wf c -> wf (perform k c).
Proof.
  intros Hwf. destruct k; cbn [perform].
  - apply wf_add_member; exact Hwf.
  - apply wf_remove_member; exact Hwf.
  - apply wf_create_proposal; exact Hwf.
  - apply wf_vote; exact Hwf.
  - apply wf_execute_proposal; exact Hwf.
Qed.

(** Every coalition that a program can hold is well formed. *)
Lemma reachable_wf (c : GovernanceCoalition F) : reachable c -> wf c.
Proof.
  induction 1 as [name members method | k c Hc IH].
  - apply wf_init.
  - apply wf_perform; exact IH.
Qed.

(** No call resets the flag: an executed proposal stays executed. *)
Lemma executed_is_stable k pid (c : GovernanceCoalition F) :
  wf c -> is_executed pid c = Some true -> is_executed pid (perform k c) = Some true.
Proof.
  intros Hwf. unfold is_executed.
  destruct (dict_get pid (self_proposals c)) as [p|] eqn:Hg; [|discriminate].
  cbn [option_map]. intros [= He].
  destruct k; cbn [perform]; unfold after.
  - unfold add_member. destruct (set_mem _ _); fields; rewrite Hg, <- He; reflexivity.
  - unfold remove_member. destruct (set_mem _ _); fields.
    + destruct (dict_mem _ _); fields; rewrite Hg, <- He; reflexivity.
    + rewrite Hg, <- He; reflexivity.
  - unfold create_proposal. destruct (set_mem _ _); fields.
    + rewrite dict_get_set.
      destruct (key_eqb (Z.of_nat (List.length (self_proposals c))) pid) eqn:E.
      * apply key_eqb_eq in E. pose proof (next_id_fresh Hwf) as Hf.
        unfold dict_mem in Hf. rewrite E, Hg in Hf. discriminate.
      * rewrite Hg, <- He; reflexivity.
    + rewrite Hg, <- He; reflexivity.
  - unfold vote.
    destruct (dict_get proposal_id (self_proposals c)) as [q|] eqn:Hq; fields;
      [|rewrite Hg, <- He; reflexivity].
    destruct (set_mem _ _); fields; [|rewrite Hg, <- He; reflexivity].
    destruct (match vote_weight with
              | None => _calculate_vote_weight voter (voting_method q) c
              | Some w' => Return w'
              end); fields; [|rewrite Hg, <- He; reflexivity].
    rewrite dict_get_set. destruct (key_eqb proposal_id pid) eqn:E.
    + apply key_eqb_eq in E; subst proposal_id.
      rewrite Hg in Hq. injection Hq as <-.
      cbn [option_map]. rewrite record_executed, He. reflexivity.
    + rewrite Hg, <- He; reflexivity.
  - destruct (dict_get proposal_id (self_proposals c)) as [q|] eqn:Hq.
    + destruct (execute_proposal_marks proposal_id c Hq)
        as [[Hsame _]|(_ & Hp & _)]; unfold after in *.
      * rewrite Hsame, Hg, <- He; reflexivity.
      * rewrite Hp, dict_get_set. destruct (key_eqb proposal_id pid);
          [reflexivity | rewrite Hg, <- He; reflexivity].
    + rewrite (execute_proposal_missing proposal_id c Hq). fields.
      rewrite Hg, <- He; reflexivity.
Qed.

End ExecuteFacts.

Section RunOnce.
Import Coalition Run.
Context {F : Type} `{PyFloat F}.

Lemma reachable_perform_all (ks : list (call F)) :
  forall c : GovernanceCoalition F, reachable c -> reachable (perform_all ks c).
Proof.
  induction ks as [|k ks IH]; intros c Hc; [exact Hc|].
  cbn [perform_all fold_left]. apply IH. apply reach_call. exact Hc.
Qed.

Lemma perform_all_keeps_executed (ks : list (call F)) :
  forall (c : GovernanceCoalition F) pid,
    wf c -> is_executed pid c = Some true ->
    wf (perform_all ks c) /\ is_executed pid (perform_all ks c) = Some true.
Proof.
  induction ks as [|k ks IH]; intros c pid Hwf He; [split; assumption|].
  cbn [perform_all fold_left]. apply IH.
  - apply wf_perform; exact Hwf.
  - apply executed_is_stable; assumption.
Qed.

(** A call of [execute_proposal] that returns [True] leaves the proposal
    marked. *)
Lemma execute_proposal_true_marks pid (c : GovernanceCoalition F) :
  fst (execute_proposal pid c) = Return true ->
  is_executed pid (after (execute_proposal pid) c) = Some true.
Proof.
  intros Hret. unfold is_executed.
  destruct (dict_get pid (self_proposals c)) as [p|] eqn:Hg.
  - destruct (execute_proposal_marks pid c Hg) as [[_ Hf]|(_ & Hp & _)].
    + rewrite Hf in Hret. discriminate.
    + rewrite Hp, dict_get_set_same. reflexivity.
  - rewrite (execute_proposal_missing pid c Hg) in Hret. discriminate.
Qed.

End RunOnce.

(** C4.  The reputation deltas of a proposal are applied at most once.  On
    a proposal whose [executed] flag is set, [execute_proposal] returns
    [False] and leaves the whole coalition, reputations included, as it
    was; a second call right after a first changes nothing, whatever the
    first did; and once a call has returned [True], no run of later calls
    (votes, new members or proposals, other executions) makes a further
    [execute_proposal] on that proposal do anything. *)
Theorem execute_proposal_applies_deltas_once :
  forall (F : Type) (N : PyFloat F) (c : Coalition.GovernanceCoalition F) pid,
    (forall p,
       dict_get pid (Coalition.self_proposals c) = Some p ->
       Coalition.executed p = true ->
       Coalition.execute_proposal pid c = (Return false, c)) /\
    (let c1 := after (Coalition.execute_proposal pid) c in
     after (Coalition.execute_proposal pid) c1 = c1 /\
     fst (Coalition.execute_proposal pid c1) <> Return true) /\
    (forall ks,
       Run.reachable c ->
       fst (Coalition.execute_proposal pid c) = Return true ->
       let c2 := perform_all ks (after (Coalition.execute_proposal pid) c) in
       Coalition.execute_proposal pid c2 = (Return false, c2)).
Proof.
  intros F N c pid. split; [|split].
  - intros p Hg He. apply (execute_proposal_executed pid c Hg He).
  - apply execute_proposal_twice.
  - intros ks Hreach Hret. cbv zeta.
    destruct (@perform_all_keeps_executed F N ks
                (after (Coalition.execute_proposal pid) c) pid) as [_ He].
    + apply wf_execute_proposal. apply reachable_wf. exact Hreach.
    + apply execute_proposal_true_marks. exact Hret.
    + unfold is_executed in He.
      destruct (dict_get pid
                  (Coalition.self_proposals
                     (perform_all ks (after (Coalition.execute_proposal pid) c))))
        as [p|] eqn:Hg; [|discriminate].
      cbn in He. injection He as He.
      apply (execute_proposal_executed pid _ Hg He).
Qed.

Lemma cast_is_a_run (F : Type) (N : PyFloat F) ballots :
  forall c : Coalition.GovernanceCoalition F,
    Scenario.cast ballots c =
    perform_all (map (fun b => Run.Vote 0 (fst b) (snd b) None) ballots) c.
Proof.
  induction ballots as [|b bs IH]; intros c; [reflexivity|].
  cbn [map]. unfold Scenario.cast, perform_all in *. cbn [fold_left].
  rewrite IH. reflexivity.
Qed.

Lemma scenario_reachable (F : Type) (N : PyFloat F) m ballots :
  Run.reachable (Scenario.cast (F := F) ballots (Scenario.opened m)).
Proof.
  rewrite cast_is_a_run. apply reachable_perform_all.
  apply (Run.reach_call
           (Run.CreateProposal "Agent-A" "Increase position size limits"
              "Raise max position from 100 SOL to 200 SOL" "parameter_change"
              (Some m) Coalition.default_threshold Coalition.default_deadline)).
  apply Run.reach_init.
Qed.

Lemma execute_proposal_applies_deltas_once_witness :
  let c := Scenario.cast (F := Q) Scenario.four_to_one
             (Scenario.opened Coalition.SUPERMAJORITY) in
  fst (Coalition.execute_proposal 0 c) = Return true /\
  let c2 := perform_all
              [Run.Vote 0 "Agent-C" "approve" None;
               Run.AddMember "Agent-F" 100%Q]
              (after (Coalition.execute_proposal 0) c) in
  Coalition.execute_proposal 0 c2 = (Return false, c2).
Proof.
  cbv zeta. split.
  - vm_compute. reflexivity.
  - apply (proj2 (proj2 (@execute_proposal_applies_deltas_once Q QFloat
                           (Scenario.cast (F := Q) Scenario.four_to_one
                              (Scenario.opened Coalition.SUPERMAJORITY)) 0%Z))).
    + apply scenario_reachable.
    + vm_compute. reflexivity.
Defined.

(* ------------------------------------------------------------------ *)
(** ** Reputation after an execution *)

Section ReputationFacts.
Import Coalition Run.
Context {F : Type} `{PyFloat F}.

(** For a member recorded in at most one of the two ledgers the loop does
    what the specification says: [+1.0] on the winning side, [-0.5] on the
    losing side, nothing for one who abstained or did not vote. *)
Lemma update_reputation_single_ledger pid p o voter r
    (c : GovernanceCoalition F) :
  wf c ->
  dict_get pid (self_proposals c) = Some p ->
  set_mem voter (self_members c) = true ->
  dict_get voter (self_reputation c) = Some r ->
  exists c',
    _update_reputation pid o c = (Return tt, c') /\
    self_proposals c' = self_proposals c /\
    self_members c' = self_members c /\
    (dict_mem voter (votes_for p) = true ->
     dict_mem voter (votes_against p) = false ->
     dict_get voter (self_reputation c') =
     Some (if o then fadd r (of_int 1) else fsub r (dec 5 10))) /\
    (dict_mem voter (votes_against p) = true ->
     dict_mem voter (votes_for p) = false ->
     dict_get voter (self_reputation c') =
     Some (if o then fsub r (dec 5 10) else fadd r (of_int 1))) /\
    (dict_mem voter (votes_for p) = false ->
     dict_mem voter (votes_against p) = false ->
     dict_get voter (self_reputation c') = Some r).
Proof.
  intros Hwf Hg Hm Hr.
  destruct (update_reputation_wf o Hwf Hg) as (rep & Hrun & _ & Hget).
  exists (set_reputation rep c). split; [exact Hrun|].
  split; [reflexivity|]. split; [reflexivity|].
  cbn [self_reputation set_reputation].
  rewrite Hget, Hm, Hr. cbn [option_map]. unfold adjusted.
  repeat split; intros H1 H2; rewrite H1, H2; destruct o; reflexivity.
Qed.

(** A member recorded in both ledgers is paid as a winner, whichever way
    the proposal went. *)
Lemma update_reputation_both_ledgers pid p o voter r
    (c : GovernanceCoalition F) :
  wf c ->
  dict_get pid (self_proposals c) = Some p ->
  set_mem voter (self_members c) = true ->
  dict_get voter (self_reputation c) = Some r ->
  dict_mem voter (votes_for p) = true ->
  dict_mem voter (votes_against p) = true ->
  dict_get voter (self_reputation (after (_update_reputation pid o) c)) =
  Some (fadd r (of_int 1)).
Proof.
  intros Hwf Hg Hm Hr H1 H2.
  destruct (update_reputation_wf o Hwf Hg) as (rep & Hrun & _ & Hget).
  unfold after. rewrite Hrun. cbn [snd self_reputation set_reputation].
  rewrite Hget, Hm, Hr. cbn [option_map]. unfold adjusted.
  rewrite H1, H2. destruct o; reflexivity.
Qed.

End ReputationFacts.

(** C6, on the code.  Agent-A approves, then changes to reject (or to
    abstain); the four others approve and the proposal is executed as
    approved.  Agent-A, whose standing vote lost (or was an abstention),
    is still in [votes_for] and gains [1.0], from [100.0] to [101.0], where
    the claim gives [99.5] (or [100.0]). *)
Theorem update_reputation_pays_overwritten_vote :
  let others :=
    [("Agent-B", "approve"); ("Agent-C", "approve"); ("Agent-D", "approve");
     ("Agent-E", "approve")] in
  let changed_to choice :=
    ("Agent-A", "approve") :: ("Agent-A", choice) :: others in
  let exact choice :=
    Scenario.cast (F := Q) (changed_to choice)
      (Scenario.opened Coalition.SUPERMAJORITY) in
  let binary64 choice :=
    Scenario.cast (F := float) (changed_to choice)
      (Scenario.opened Coalition.SUPERMAJORITY) in
  (reputation "Agent-A" (exact "reject") = Some 100%Q /\
   fst (Coalition.execute_proposal 0 (exact "reject")) = Return true /\
   reputation "Agent-A"
     (after (Coalition.execute_proposal 0) (exact "reject")) = Some 101%Q) /\
  (reputation "Agent-A" (exact "abstain") = Some 100%Q /\
   fst (Coalition.execute_proposal 0 (exact "abstain")) = Return true /\
   reputation "Agent-A"
     (after (Coalition.execute_proposal 0) (exact "abstain")) = Some 101%Q) /\
  (reputation "Agent-A" (binary64 "reject") = Some 100%float /\
   fst (Coalition.execute_proposal 0 (binary64 "reject")) = Return true /\
   reputation "Agent-A"
     (after (Coalition.execute_proposal 0) (binary64 "reject")) =
     Some 101%float) /\
  (reputation "Agent-A" (binary64 "abstain") = Some 100%float /\
   fst (Coalition.execute_proposal 0 (binary64 "abstain")) = Return true /\
   reputation "Agent-A"
     (after (Coalition.execute_proposal 0) (binary64 "abstain")) =
     Some 101%float).
Proof.
  cbv zeta. repeat split; vm_compute; reflexivity.
Qed.

(* ------------------------------------------------------------------ *)
(** ** Exact arithmetic *)



Lemma Qeq_bool_false (x y : Q) : ~ x == y -> Qeq_bool x y = false.
Proof.
  intros Hne. destruct (Qeq_bool x y) eqn:E; [|reflexivity].
  apply Qeq_bool_iff in E. contradiction.
Qed.

Lemma fltb_Q (x y : Q) : fltb x y = true <-> x < y.
Proof.
  cbn. rewrite negb_true_iff. split.
  - intros E. apply Qnot_le_lt. intros Hle. apply Qle_bool_iff in Hle. congruence.
  - intros Hlt. destruct (Qle_bool y x) eqn:E; [|reflexivity].
    apply Qle_bool_iff in E. apply Qlt_not_le in Hlt. contradiction.
Qed.

Lemma fltb_Q_false (x y : Q) : fltb x y = false <-> y <= x.
Proof.
  cbn. rewrite negb_false_iff. apply Qle_bool_iff.
Qed.

(** [sum] in exact arithmetic: the sum, starting from [acc]. *)
Lemma fold_fadd_Q (xs : list Q) :
  forall acc, fold_left fadd xs acc == fold_right Qplus 0 xs + acc.
Proof.
  induction xs as [|x xs IH]; intros acc; cbn [fold_left fold_right].
  - ring.
  - rewrite IH. cbn [fadd QFloat]. rewrite Qred_correct. ring.
Qed.

Lemma py_sum_Q (xs : list Q) : py_sum xs == fold_right Qplus 0 xs.
Proof. unfold py_sum. rewrite fold_fadd_Q. cbn. ring. Qed.

Lemma Qsum_nonneg (xs : list Q) :
  (forall x, In x xs -> 0 <= x) -> 0 <= fold_right Qplus 0 xs.
Proof.
  induction xs as [|x xs IH]; intros Hpos; cbn [fold_right]; [lra|].
  assert (0 <= x) by (apply Hpos; left; reflexivity).
  assert (0 <= fold_right Qplus 0 xs)
    by (apply IH; intros y Hy; apply Hpos; right; exact Hy).
  lra.
Qed.


Lemma dict_get_In_values {K V} `{KeyLaws K} (k : K) (v : V) (d : dict K V) :
  dict_get k d = Some v -> In v (dict_values d).
Proof.
  unfold dict_values.
  induction d as [|[k' v'] d IH]; cbn [dict_get map snd]; [discriminate|].
  destruct (key_eqb k k').
  - intros [= ->]. left; reflexivity.
  - intros Hg. right. apply IH. exact Hg.
Qed.

(* ------------------------------------------------------------------ *)
(** ** Reputation-weighted votes *)

Lemma reputation_weight_formula {F : Type} {N : PyFloat F}
    (c : Coalition.GovernanceCoalition F) voter r :
  reputation voter c = Some r ->
  feqb (total_reputation c) (of_int 0) = false ->
  Coalition._calculate_vote_weight voter Coalition.REPUTATION_WEIGHTED c =
  Return (fmul (fdiv r (total_reputation c)) (member_count c)).
Proof.
  intros Hr Hz. unfold Coalition._calculate_vote_weight, Coalition.reputation_of.
  unfold reputation in Hr. rewrite Hr. cbn [obind].
  unfold py_div. unfold total_reputation in Hz. rewrite Hz. reflexivity.
Qed.








(** The same excess without any unusual input: the loser of 201 such
    rounds has the reputation [-0.5], and the winner then weighs more than
    the two members there are. *)
Lemma reputation_turns_negative_by_voting :
  reputation "agent2" (rounds (F := Q) 201) = Some (-1 # 2) /\
  reputation "agent1" (rounds (F := Q) 201) = Some 301%Q /\
  (exists w,
     Coalition._calculate_vote_weight "agent1" Coalition.REPUTATION_WEIGHTED
       (rounds (F := Q) 201) = Return w /\ member_count (rounds (F := Q) 201) < w).
Proof.
  split; [vm_compute; reflexivity|]. split; [vm_compute; reflexivity|].
  eexists. split; [vm_compute; reflexivity|]. vm_compute. reflexivity.
Qed.

(* ------------------------------------------------------------------ *)
(** ** Conflict detection *)



(** What the test computes, in exact arithmetic. *)
Lemma conflict_detected_exact (threshold : Q) (p : Consensus.ProposalData) :
  let total := (Consensus.votes_for p + Consensus.votes_against p +
                Consensus.votes_abstain p)%Z in
  Consensus.conflict_detected threshold p = true <->
  (0 < total)%Z /\
  Qabs (inject_Z (Consensus.votes_for p) / inject_Z total -
        inject_Z (Consensus.votes_against p) / inject_Z total) < threshold.
Proof.
  cbv zeta. unfold Consensus.conflict_detected, Consensus.int_div.
  destruct (Z.gtb_spec (Consensus.votes_for p + Consensus.votes_against p +
                        Consensus.votes_abstain p) 0) as [Hpos | Hle].
  - rewrite fltb_Q. cbn [fabs fsub fdiv of_int QFloat].
    rewrite !Qred_correct. split; [intros Hlt; split; [lia | exact Hlt] | tauto].
  - split; [discriminate | intros [Hpos _]; lia].
Qed.


(** The loop logs exactly the proposals that the test flags. *)
Lemma analyze_and_decide_logs {F : Type} {N : PyFloat F} (threshold : F)
    (fetched : list (option Consensus.ProposalData)) (d : string) :
  In d (Consensus.analyze_and_decide threshold fetched) <->
  exists p, In (Some p) fetched /\
            Consensus.conflict_detected threshold p = true /\
            Consensus.description p = d.
Proof.
  induction fetched as [|[p|] rest IH]; cbn [Consensus.analyze_and_decide].
  - split; [intros [] | intros (p & [] & _)].
  - destruct (Consensus.conflict_detected threshold p) eqn:E.
    + cbn [In]. rewrite IH. split.
      * intros [<- | (q & Hq & Hc & Hd)].
        -- exists p. repeat split; [left; reflexivity | exact E].
        -- exists q. repeat split; [right; exact Hq | exact Hc | exact Hd].
      * intros (q & [[= <-] | Hq] & Hc & Hd).
        -- left; exact Hd.
        -- right. exists q. repeat split; assumption.
    + rewrite IH. split.
      * intros (q & Hq & Hc & Hd). exists q. repeat split;
          [right; exact Hq | exact Hc | exact Hd].
      * intros (q & [[= <-] | Hq] & Hc & Hd); [congruence|].
        exists q. repeat split; assumption.
  - rewrite IH. split.
    + intros (q & Hq & Hc & Hd). exists q. repeat split;
        [right; exact Hq | exact Hc | exact Hd].
    + intros (q & [Hq | Hq] & Hc & Hd); [discriminate|].
      exists q. repeat split; assumption.
Qed.



(* ------------------------------------------------------------------ *)
(** ** The Q-table *)

Section QTable.
Import Learning.
Context {F : Type} `{PyFloat F}.

Lemma ensure_state_row state (a : EnhancedLearningAgent F) :
  exists a',
    ensure_state state a = (Return tt, a') /\
    dict_get state (q_table a') = Some (row_or_zero state a) /\
    (forall row, dict_set state row (q_table a') = dict_set state row (q_table a)) /\
    learning_rate a' = learning_rate a /\
    discount_factor a' = discount_factor a /\
    exploration_rate a' = exploration_rate a.
Proof.
  unfold ensure_state, row_or_zero, dict_mem.
  destruct (dict_get state (q_table a)) as [row|] eqn:Hg; cbn [negb].
  - exists a. repeat split. exact Hg.
  - eexists. split; [reflexivity|]. cbn [q_table set_q_table].
    split; [apply dict_get_set_same|]. split; [|repeat split].
    intros row. apply dict_set_set.
Qed.

(** [_update_q_value] is the rule applied to the row of the state, written
    back under the state. *)
Lemma update_q_value_row state action reward (a : EnhancedLearningAgent F) row' :
  q_step (learning_rate a) (discount_factor a) (lower action) reward
    (row_or_zero state a) = Return row' ->
  _update_q_value state action reward a =
  (Return tt, set_q_table (dict_set state row' (q_table a)) a).
Proof.
  intros Hstep. unfold _update_q_value, bind.
  destruct (ensure_state_row state a) as (a1 & He & Hg & Hset & Hlr & Hdf & Hex).
  rewrite He. unfold eval at 1. unfold row_of. rewrite Hg.
  unfold q_step in Hstep.
  unfold eval at 1.
  destruct (row_get (lower action) (row_or_zero state a)) as [q|e];
    cbn [obind] in Hstep; [|discriminate].
  unfold eval at 1.
  destruct (py_max (dict_values (row_or_zero state a))) as [m|e];
    cbn [obind] in Hstep; [|discriminate].
  injection Hstep as <-.
  unfold get, put. rewrite Hset, Hlr, Hdf.
  destruct a, a1; cbn in *; subst. reflexivity.
Qed.

End QTable.

Section Rows.
Import Learning.
Context {F : Type} `{PyFloat F}.

Lemma rows_ok_init : rows_ok (init (F := F)).
Proof. intros state row. cbn. discriminate. Qed.

Lemma rows_ok_row_or_zero state (a : EnhancedLearningAgent F) :
  rows_ok a -> dict_keys (row_or_zero state a) = ["approve"; "reject"; "abstain"].
Proof.
  intros Hok. unfold row_or_zero.
  destruct (dict_get state (q_table a)) as [row|] eqn:Hg; [|reflexivity].
  apply (Hok state row Hg).
Qed.

Lemma rows_ok_set state row (a : EnhancedLearningAgent F) :
  rows_ok a ->
  dict_keys row = ["approve"; "reject"; "abstain"] ->
  rows_ok (set_q_table (dict_set state row (q_table a)) a).
Proof.
  intros Hok Hrow s r. cbn [q_table set_q_table]. rewrite dict_get_set.
  destruct (key_eqb state s).
  - intros [= <-]. exact Hrow.
  - apply Hok.
Qed.

Lemma rows_ok_ensure_state state (a : EnhancedLearningAgent F) :
  rows_ok a -> rows_ok (after (ensure_state state) a).
Proof.
  intros Hok. unfold after, ensure_state.
  destruct (negb (dict_mem state (q_table a))); cbn [snd]; [|exact Hok].
  apply rows_ok_set; [exact Hok | reflexivity].
Qed.

(** An update keeps the rows in shape, whether it returns or raises. *)
Lemma rows_ok_update_q_value state action reward (a : EnhancedLearningAgent F) :
  rows_ok a -> rows_ok (after (_update_q_value state action reward) a).
Proof.
  intros Hok. pose proof (rows_ok_ensure_state state Hok) as Hok1.
  pose proof (rows_ok_row_or_zero state Hok) as Hkeys.
  unfold after in *. unfold _update_q_value, bind.
  destruct (ensure_state_row state a) as (a1 & He & Hg & Hset & _).
  rewrite He in *. cbn [snd] in Hok1.
  unfold eval at 1. unfold row_of. rewrite Hg.
  unfold eval at 1.
  destruct (row_get (lower action) (row_or_zero state a)) as [q|e] eqn:Hq;
    [|exact Hok1].
  unfold eval at 1.
  destruct (py_max (dict_values (row_or_zero state a))) as [m|e]; [|exact Hok1].
  unfold get, put. cbn [snd].
  apply rows_ok_set; [exact Hok1|].
  rewrite dict_keys_set_present; [exact Hkeys|].
  unfold row_get in Hq. unfold dict_mem.
  destruct (dict_get (lower action) (row_or_zero state a)); [reflexivity|discriminate].
Qed.


End Rows.

Section UpdateRule.
Import Learning.
Context {F : Type} `{PyFloat F}.

(** In the row of an unknown state every action has the value zero, and
    so has their maximum. *)
Lemma zero_row_values key :
  is_action key ->
  row_get key (zero_row (F := F)) = Return (of_int 0) /\
  py_max (dict_values (zero_row (F := F))) = Return (of_int 0).
Proof.
  intros Hk. split.
  - destruct Hk as [-> | [-> | ->]]; reflexivity.
  - cbn. destruct (fltb (of_int 0) (of_int 0)) eqn:E; cbn; rewrite ?E; reflexivity.
Qed.

Lemma update_q_value_rule state action reward (a : EnhancedLearningAgent F) q m :
  row_get (lower action) (row_or_zero state a) = Return q ->
  py_max (dict_values (row_or_zero state a)) = Return m ->
  exists a' row',
    _update_q_value state action reward a = (Return tt, a') /\
    dict_get state (q_table a') = Some row' /\
    row_get (lower action) row' =
      Return (learned (learning_rate a) (discount_factor a) reward q m) /\
    (forall other, other <> lower action ->
       dict_get other row' = dict_get other (row_or_zero state a)) /\
    (forall state', state' <> state ->
       dict_get state' (q_table a') = dict_get state' (q_table a)) /\
    learning_rate a' = learning_rate a /\
    discount_factor a' = discount_factor a /\
    exploration_rate a' = exploration_rate a.
Proof.
  intros Hq Hm.
  set (new := learned (learning_rate a) (discount_factor a) reward q m).
  set (row' := dict_set (lower action) new (row_or_zero state a)).
  exists (set_q_table (dict_set state row' (q_table a)) a), row'.
  split.
  { apply update_q_value_row. unfold q_step. rewrite Hq, Hm. reflexivity. }
  cbn [q_table set_q_table learning_rate discount_factor exploration_rate].
  split; [apply dict_get_set_same|].
  split; [unfold row_get, row'; rewrite dict_get_set_same; reflexivity|].
  split; [intros other Hne; unfold row'; apply dict_get_set_other; congruence|].
  split; [intros s' Hne; apply dict_get_set_other; congruence|].
  repeat split.
Qed.

(** On a table whose rows have the three actions an update with one of
    the three actions returns. *)
Lemma update_q_value_returns state action reward (a : EnhancedLearningAgent F) :
  rows_ok a -> is_action (lower action) ->
  exists a', _update_q_value state action reward a = (Return tt, a').
Proof.
  intros Hok Hact. pose proof (rows_ok_row_or_zero state Hok) as Hkeys.
  destruct (row_or_zero state a) as [|[k1 v1] [|[k2 v2] [|[k3 v3] [|? ?]]]] eqn:Hrow;
    try discriminate Hkeys.
  injection Hkeys as -> -> ->.
  assert (Hq : exists q, row_get (lower action) (row_or_zero state a) = Return q).
  { rewrite Hrow. destruct Hact as [-> | [-> | ->]]; eexists; reflexivity. }
  destruct Hq as [q Hq].
  destruct (py_max (dict_values (row_or_zero state a))) as [m|e] eqn:Hm;
    [|rewrite Hrow in Hm; discriminate Hm].
  destruct (update_q_value_rule state action reward a Hq Hm)
    as (a' & _ & Hrun & _).
  exists a'. exact Hrun.
Qed.

End UpdateRule.

(** [max] in exact arithmetic: an element that no element exceeds. *)
Lemma fold_max_Q (xs : list Q) :
  forall x,
    let m := fold_left (fun m y => if fltb m y then y else m) xs x in
    In m (x :: xs) /\ forall y, In y (x :: xs) -> y <= m.
Proof.
  induction xs as [|z xs IH]; intros x; cbv zeta; cbn [fold_left].
  - split; [left; reflexivity | intros y [<- | []]; lra].
  - destruct (IH (if fltb x z then z else x)) as [Hin Hmax]. cbv zeta in *.
    split.
    + destruct Hin as [Hin | Hin]; [|right; right; exact Hin].
      rewrite <- Hin. destruct (fltb x z); [right; left|left]; reflexivity.
    + intros y [Hy | [Hy | Hy]].
      * subst y. destruct (fltb x z) eqn:E.
        -- apply fltb_Q in E.
           assert (z <= fold_left (fun m y0 => if fltb m y0 then y0 else m) xs z)
             by (apply Hmax; left; reflexivity).
           lra.
        -- apply Hmax; left; reflexivity.
      * subst y. destruct (fltb x z) eqn:E.
        -- apply Hmax; left; reflexivity.
        -- apply fltb_Q_false in E.
           assert (x <= fold_left (fun m y0 => if fltb m y0 then y0 else m) xs x)
             by (apply Hmax; left; reflexivity).
           lra.
      * apply Hmax; right; exact Hy.
Qed.

Lemma py_max_Q (xs : list Q) (m : Q) :
  py_max xs = Return m -> In m xs /\ forall y, In y xs -> y <= m.
Proof.
  destruct xs as [|x xs]; cbn [py_max]; [discriminate|].
  intros [= <-]. apply fold_max_Q.
Qed.

(** C8.  [_update_q_value] replaces [Q(s,a)] by
    [Q(s,a) + alpha * (reward + gamma * max_a' Q(s,a') - Q(s,a))], the
    maximum being over the row of the same state, leaves the other actions
    and the other states alone, with [alpha = 0.1] and [gamma = 0.95] as
    [__init__] sets them; a state that is not in the table first gets the
    row of zeros for approve, reject and abstain, on which the rule is then
    applied.  On the tables that the agent builds, an update with one of
    the three actions returns. *)
Theorem update_q_value_is_q_learning :
  (forall (F : Type) (N : PyFloat F) state action reward
          (a : Learning.EnhancedLearningAgent F) q m,
     Learning.row_get (lower action) (row_or_zero state a) = Return q ->
     py_max (dict_values (row_or_zero state a)) = Return m ->
     exists a' row',
       Learning._update_q_value state action reward a = (Return tt, a') /\
       dict_get state (Learning.q_table a') = Some row' /\
       Learning.row_get (lower action) row' =
         Return
           (fadd q
              (fmul (Learning.learning_rate a)
                 (fsub (fadd reward (fmul (Learning.discount_factor a) m)) q))) /\
       (forall other, other <> lower action ->
          dict_get other row' = dict_get other (row_or_zero state a)) /\
       (forall state', state' <> state ->
          dict_get state' (Learning.q_table a') =
          dict_get state' (Learning.q_table a)) /\
       Learning.learning_rate a' = Learning.learning_rate a /\
       Learning.discount_factor a' = Learning.discount_factor a /\
       Learning.exploration_rate a' = Learning.exploration_rate a) /\
  (forall (F : Type) (N : PyFloat F) state
          (a : Learning.EnhancedLearningAgent F) key,
     dict_get state (Learning.q_table a) = None ->
     is_action key ->
     row_or_zero state a =
       [("approve", of_int 0); ("reject", of_int 0); ("abstain", of_int 0)] /\
     Learning.row_get key (row_or_zero state a) = Return (of_int 0) /\
     py_max (dict_values (row_or_zero state a)) = Return (of_int 0)) /\
  (forall (F : Type) (N : PyFloat F) state action reward
          (a : Learning.EnhancedLearningAgent F),
     rows_ok a -> is_action (lower action) ->
     exists a', Learning._update_q_value state action reward a = (Return tt, a')) /\
  (forall (xs : list Q) (m : Q),
     py_max xs = Return m -> In m xs /\ forall y, In y xs -> y <= m) /\
  (Learning.learning_rate (Learning.init (F := Q)) == 1 # 10 /\
   Learning.discount_factor (Learning.init (F := Q)) == 95 # 100) /\
  (Learning.learning_rate (Learning.init (F := float)) = 0.1%float /\
   Learning.discount_factor (Learning.init (F := float)) = 0.95%float).
Proof.
  split; [|split; [|split; [|split; [|split]]]].
  - intros F N state action reward a q m. apply update_q_value_rule.
  - intros F N state a key Hg Hk. unfold row_or_zero. rewrite Hg.
    split; [reflexivity|]. apply zero_row_values. exact Hk.
  - intros F N state action reward a. apply update_q_value_returns.
  - exact py_max_Q.
  - split; vm_compute; reflexivity.
  - split; vm_compute; reflexivity.
Qed.

Lemma update_q_value_is_q_learning_witness :
  let state : Learning.State := ("normal", "trade", "medium") in
  exists a' row',
    Learning._update_q_value state "APPROVE" 1%Q (Learning.init (F := Q)) =
      (Return tt, a') /\
    dict_get state (Learning.q_table a') = Some row' /\
    Learning.row_get "approve" row' = Return (1 # 10).
Proof.
  cbv zeta.
  destruct (proj1 update_q_value_is_q_learning Q QFloat
              ("normal", "trade", "medium") "APPROVE" 1%Q
              (Learning.init (F := Q)) 0%Q 0%Q eq_refl eq_refl)
    as (a' & row' & Hrun & Hrow & Hval & _).
  exists a', row'. split; [exact Hrun|]. split; [exact Hrow|]. exact Hval.
Defined.

(* ------------------------------------------------------------------ *)
(** ** Prediction *)

Section Prediction.
Import Learning.
Context {F : Type} `{PyFloat F}.

Lemma row_or_zero_set state row (a : EnhancedLearningAgent F) :
  row_or_zero state (set_q_table (dict_set state row (q_table a)) a) = row.
Proof.
  unfold row_or_zero. cbn [q_table set_q_table].
  rewrite dict_get_set_same. reflexivity.
Qed.

(** [n] updates of the same state and action are [n] steps of the rule on
    the row of that state. *)
Lemma repeat_update_rows state action reward (n : nat) :
  forall (a : EnhancedLearningAgent F) row_n,
    q_steps n (learning_rate a) (discount_factor a) (lower action) reward
      (row_or_zero state a) = Return row_n ->
    exists a',
      repeat_call n (_update_q_value state action reward) a = (Return tt, a') /\
      row_or_zero state a' = row_n /\
      learning_rate a' = learning_rate a /\
      discount_factor a' = discount_factor a /\
      exploration_rate a' = exploration_rate a.
Proof.
  induction n as [|n IH]; intros a row_n; cbn [q_steps repeat_call].
  - intros [= <-]. exists a. repeat split.
  - destruct (q_step (learning_rate a) (discount_factor a) (lower action) reward
                (row_or_zero state a)) as [row1|e] eqn:Hstep;
      cbn [obind]; [|discriminate].
    intros Hrest.
    set (a1 := set_q_table (dict_set state row1 (q_table a)) a).
    destruct (IH a1 row_n) as (a' & Hrun & Hrow & Hlr & Hdf & Hex).
    { unfold a1. rewrite row_or_zero_set. exact Hrest. }
    exists a'. unfold bind.
    rewrite (update_q_value_row state action reward a Hstep). fold a1.
    rewrite Hrun. repeat split; assumption.
Qed.

(** With a draw below the exploration rate [predict_vote] returns the
    action drawn, with the confidence [0.33], and leaves the agent alone. *)
Lemma predict_vote_explores pt mc rl draw choice (a : EnhancedLearningAgent F) :
  fltb draw (exploration_rate a) = true ->
  predict_vote pt mc rl draw choice a = (Return (choice, dec 33 100), a).
Proof.
  intros Hd. unfold predict_vote, bind, get. rewrite Hd. reflexivity.
Qed.

(** Otherwise it returns what the row of the state gives. *)
Lemma predict_vote_exploits pt mc rl draw choice (a : EnhancedLearningAgent F) :
  fltb draw (exploration_rate a) = false ->
  fst (predict_vote pt mc rl draw choice a) = exploit (row_or_zero (mc, pt, rl) a).
Proof.
  intros Hd. unfold predict_vote, bind, get. rewrite Hd.
  destruct (ensure_state_row (mc, pt, rl) a) as (a1 & He & Hg & _).
  rewrite He. unfold eval at 1. unfold row_of. rewrite Hg.
  unfold exploit.
  unfold eval at 1.
  destruct (argmax (row_or_zero (mc, pt, rl) a)) as [action|e];
    cbn [obind]; [|reflexivity].
  unfold eval at 1.
  destruct (row_get action (row_or_zero (mc, pt, rl) a)) as [max_q|e];
    cbn [obind]; [|reflexivity].
  unfold eval at 1.
  destruct (py_div _ _) as [avg_q|e]; cbn [obind]; reflexivity.
Qed.




End Prediction.

Lemma trained_prediction {F : Type} {N : PyFloat F} mc pt rl
    (a0 : Learning.EnhancedLearningAgent F) draw choice n action reward r :
  row_or_zero (mc, pt, rl) a0 = Learning.zero_row ->
  trained (Learning.learning_rate a0) (Learning.discount_factor a0) n action
    reward = Return r ->
  fltb draw (of_int 0) = false ->
  fst (Learning.predict_vote pt mc rl draw choice
         (Learning.set_exploration_rate (of_int 0)
            (after
               (Learning.repeat_call n
                  (Learning._update_q_value (mc, pt, rl) action reward))
               a0))) = Return r.
Proof.
  intros Hzero Htrained Hdraw. unfold trained in Htrained.
  destruct (q_steps n (Learning.learning_rate a0) (Learning.discount_factor a0)
              (lower action) reward Learning.zero_row) as [row_n|e] eqn:Hsteps;
    cbn [obind] in Htrained; [|discriminate].
  rewrite <- Hzero in Hsteps.
  destruct (repeat_update_rows (mc, pt, rl) action reward n a0 Hsteps)
    as (a' & Hrun & Hrow & _).
  unfold after. rewrite Hrun. cbn [snd].
  rewrite predict_vote_exploits by exact Hdraw.
  change (row_or_zero (mc, pt, rl)
            (Learning.set_exploration_rate (of_int 0) a'))
    with (row_or_zero (mc, pt, rl) a').
  rewrite Hrow. exact Htrained.
Qed.

(** C9.  From a row of zeros for the state (the state unknown, or known
    with zeros), with the learning rate and the discount of [__init__],
    fifty updates with the action approve and the reward [1.0], then the
    exploration rate set to [0]: whatever the random draw, [predict_vote]
    returns approve, with the confidence [1.0], which is above [0.5].  In
    exact arithmetic and in binary64. *)
Theorem fifty_approvals_predict_approve :
  (forall mc pt rl (a0 : Learning.EnhancedLearningAgent Q) draw choice,
     Learning.learning_rate a0 = dec 1 10 ->
     Learning.discount_factor a0 = dec 95 100 ->
     row_or_zero (mc, pt, rl) a0 = Learning.zero_row ->
     fltb draw (of_int 0) = false ->
     fst (Learning.predict_vote pt mc rl draw choice
            (Learning.set_exploration_rate (of_int 0)
               (after
                  (Learning.repeat_call 50
                     (Learning._update_q_value (mc, pt, rl) "approve" (of_int 1)))
                  a0))) = Return ("approve", 1%Q) /\
     fltb (dec 5 10) 1%Q = true) /\
  (forall mc pt rl (a0 : Learning.EnhancedLearningAgent float) draw choice,
     Learning.learning_rate a0 = dec 1 10 ->
     Learning.discount_factor a0 = dec 95 100 ->
     row_or_zero (mc, pt, rl) a0 = Learning.zero_row ->
     fltb draw (of_int 0) = false ->
     fst (Learning.predict_vote pt mc rl draw choice
            (Learning.set_exploration_rate (of_int 0)
               (after
                  (Learning.repeat_call 50
                     (Learning._update_q_value (mc, pt, rl) "approve" (of_int 1)))
                  a0))) = Return ("approve", 1%float) /\
     fltb (dec 5 10) 1%float = true).
Proof.
  split; intros mc pt rl a0 draw choice Hlr Hdf Hzero Hdraw.
  - split; [|vm_compute; reflexivity].
    apply trained_prediction; [exact Hzero | | exact Hdraw].
    rewrite Hlr, Hdf. vm_compute. reflexivity.
  - split; [|vm_compute; reflexivity].
    apply trained_prediction; [exact Hzero | | exact Hdraw].
    rewrite Hlr, Hdf. vm_compute. reflexivity.
Qed.

Lemma fifty_approvals_predict_approve_witness :
  fst (Learning.predict_vote "trade" "normal" "medium" (3 # 10) "reject"
         (Learning.set_exploration_rate (of_int 0)
            (after
               (Learning.repeat_call 50
                  (Learning._update_q_value ("normal", "trade", "medium")
                     "approve" (of_int 1)))
               (Learning.init (F := Q))))) = Return ("approve", 1%Q).
Proof.
  destruct (proj1 fifty_approvals_predict_approve "normal" "trade" "medium"
              (@Learning.init Q QFloat) (3 # 10) "reject") as [Hp _];
    [reflexivity | reflexivity | reflexivity | vm_compute; reflexivity |].
  exact Hp.
Defined.

(* ------------------------------------------------------------------ *)
(** ** Confidence *)





(* ------------------------------------------------------------------ *)
(** * Further properties of the code *)

(** ** More on dictionaries and sets *)

Section AppendFacts.
Context {K V : Type} `{KeyLaws K}.

Lemma set_mem_add_same (k : K) (s : pyset K) : set_mem k (set_add k s) = true.
Proof.
  unfold set_add. destruct (set_mem k s) eqn:E; [exact E|].
  unfold set_mem. rewrite existsb_app. cbn. rewrite key_eqb_refl.
  rewrite orb_true_r. reflexivity.
Qed.

Lemma set_mem_remove_same (k : K) (s : pyset K) :
  set_mem k (set_remove k s) = false.
Proof.
  apply set_mem_false_notin. unfold set_remove. rewrite filter_In.
  intros [_ E]. rewrite key_eqb_refl in E. discriminate.
Qed.

Lemma set_remove_add (k : K) (s : pyset K) :
  set_mem k s = false -> set_remove k (set_add k s) = s.
Proof.
  intros E. unfold set_add. rewrite E. unfold set_remove.
  rewrite filter_app. cbn. rewrite key_eqb_refl. cbn. rewrite app_nil_r.
  apply set_remove_notin. apply set_mem_false_notin. exact E.
Qed.

Lemma dict_set_absent (k : K) (v : V) (d : dict K V) :
  dict_mem k d = false -> dict_set k v d = (d ++ [(k, v)])%list.
Proof.
  unfold dict_mem. induction d as [|[k' v'] d IH]; cbn; [reflexivity|].
  destruct (key_eqb k k'); [discriminate|].
  intros E. rewrite IH by exact E. reflexivity.
Qed.

Lemma dict_del_set_absent (k : K) (v : V) (d : dict K V) :
  dict_mem k d = false -> dict_del k (dict_set k v d) = d.
Proof.
  unfold dict_mem. induction d as [|[k' v'] d IH]; cbn.
  - rewrite key_eqb_refl. reflexivity.
  - destruct (key_eqb k k') eqn:E; [discriminate|].
    intros Hg. cbn. rewrite E, IH by exact Hg. reflexivity.
Qed.

Lemma dict_get_del_same (k : K) (d : dict K V) :
  NoDup (dict_keys d) -> dict_get k (dict_del k d) = None.
Proof.
  induction d as [|[k' v'] d IH]; cbn; [reflexivity|].
  intros Hnd. inversion Hnd as [|? ? Hnotin Hnd']; subst.
  destruct (key_eqb k k') eqn:E.
  - apply key_eqb_eq in E; subst k'.
    destruct (dict_get k d) as [v|] eqn:Hg; [|reflexivity].
    exfalso. apply Hnotin. change (map fst d) with (dict_keys d).
    apply set_mem_In. rewrite <- dict_mem_keys.
    unfold dict_mem. rewrite Hg. reflexivity.
  - cbn. rewrite E. apply IH. exact Hnd'.
Qed.

(** The values after an assignment: the new one, or one that was there. *)
Lemma dict_values_set_In (k : K) (v x : V) (d : dict K V) :
  In x (dict_values (dict_set k v d)) -> x = v \/ In x (dict_values d).
Proof.
  unfold dict_values. induction d as [|[k' v'] d IH]; cbn.
  - intros [<- | []]. left; reflexivity.
  - destruct (key_eqb k k'); cbn.
    + intros [<- | Hin]; [left; reflexivity | right; right; exact Hin].
    + intros [<- | Hin]; [right; left; reflexivity|].
      destruct (IH Hin) as [-> | Hin']; [left; reflexivity | right; right; exact Hin'].
Qed.

(** A dictionary whose keys are numbered from [0] has the next number
    free. *)
Lemma numbered_next_free (d : dict Z V) :
  dict_keys d = map Z.of_nat (seq 0 (List.length d)) ->
  dict_mem (Z.of_nat (List.length d)) d = false.
Proof.
  intros Hp. rewrite dict_mem_keys, Hp.
  apply set_mem_false_notin. rewrite in_map_iff. intros [n [Hn Hin]].
  apply Nat2Z.inj in Hn. subst n. apply in_seq in Hin. lia.
Qed.

End AppendFacts.

(* ------------------------------------------------------------------ *)
(** ** Members of a coalition *)

Section MemberFacts.
Import Coalition Run.
Context {F : Type} `{PyFloat F}.

Ltac fields :=
  cbn [self_name self_members self_voting_method self_proposals self_reputation
       set_members set_proposals set_reputation fst snd negb].

(** X1.  [add_member] for an agent who is a member changes nothing, the
    reputation included; so adding twice is adding once, whatever the
    second reputation. *)
Theorem add_member_twice a r1 r2 (c : GovernanceCoalition F) :
  after (add_member a r2) (after (add_member a r1) c) =
  after (add_member a r1) c.
Proof.
  unfold after at 1. unfold add_member at 1.
  assert (Hm : set_mem a (self_members (after (add_member a r1) c)) = true).
  { unfold after, add_member. destruct (set_mem a (self_members c)) eqn:E; fields.
    - exact E.
    - apply set_mem_add_same. }
  rewrite Hm. reflexivity.
Qed.

(** X2.  On a well-formed coalition, adding an agent who is not a member
    and removing the agent again gives the coalition back as it was. *)
Theorem add_then_remove_member a r (c : GovernanceCoalition F) :
  wf c ->
  set_mem a (self_members c) = false ->
  after (remove_member a) (after (add_member a r) c) = c.
Proof.
  intros [Hn Hr Hp] Hm.
  assert (Hd : dict_mem a (self_reputation c) = false)
    by (rewrite dict_mem_keys, Hr; exact Hm).
  unfold after, add_member, remove_member. rewrite Hm. fields.
  rewrite set_mem_add_same. fields. rewrite dict_mem_set_same. fields.
  rewrite set_remove_add by exact Hm.
  rewrite dict_del_set_absent by exact Hd.
  destruct c; reflexivity.
Qed.

(** X3.  Once removed, an agent is no member and has no reputation, and
    the agent's votes and proposals are refused with [ValueError], the
    coalition staying as it is. *)
Theorem removed_member_is_refused a (c : GovernanceCoalition F) :
  wf c ->
  let c' := after (remove_member a) c in
  set_mem a (self_members c') = false /\
  dict_get a (self_reputation c') = None /\
  (forall pid choice weight,
     exists msg, vote pid a choice weight c' = (Raise (ValueError msg), c')) /\
  (forall title description kind vm threshold deadline,
     exists msg,
       create_proposal a title description kind vm threshold deadline c' =
       (Raise (ValueError msg), c')).
Proof.
  intros Hwf. pose proof (wf_remove_member a Hwf) as Hwf'. cbv zeta.
  assert (Hm : set_mem a (self_members (after (remove_member a) c)) = false).
  { destruct Hwf as [Hn Hr Hp]. unfold after, remove_member.
    destruct (set_mem a (self_members c)) eqn:E; fields; [|exact E].
    destruct (dict_mem a (self_reputation c)); fields; apply set_mem_remove_same. }
  split; [exact Hm|]. split.
  - destruct Hwf' as [_ Hr' _].
    destruct (dict_get a (self_reputation (after (remove_member a) c))) eqn:Hg;
      [|reflexivity].
    assert (dict_mem a (self_reputation (after (remove_member a) c)) = true)
      by (unfold dict_mem; rewrite Hg; reflexivity).
    rewrite dict_mem_keys, Hr', Hm in *. discriminate.
  - split.
    + intros pid choice weight. unfold vote.
      destruct (dict_get pid (self_proposals (after (remove_member a) c)));
        [rewrite Hm|]; eexists; reflexivity.
    + intros title description kind vm threshold deadline.
      unfold create_proposal. rewrite Hm. eexists; reflexivity.
Qed.

(** X4.  Adding or removing a member touches no proposal: the votes that
    a removed member has cast stay in the ledgers, and every tally is what
    it was. *)
Theorem membership_keeps_tallies a r pid (c : GovernanceCoalition F) :
  self_proposals (after (add_member a r) c) = self_proposals c /\
  self_proposals (after (remove_member a) c) = self_proposals c /\
  tally_votes pid (after (add_member a r) c) = tally_votes pid c /\
  tally_votes pid (after (remove_member a) c) = tally_votes pid c.
Proof.
  assert (H1 : self_proposals (after (add_member a r) c) = self_proposals c).
  { unfold after, add_member. destruct (set_mem a (self_members c)); reflexivity. }
  assert (H2 : self_proposals (after (remove_member a) c) = self_proposals c).
  { unfold after, remove_member. destruct (set_mem a (self_members c)); fields;
      [|reflexivity].
    destruct (dict_mem a (self_reputation c)); reflexivity. }
  repeat split; try assumption; unfold tally_votes; rewrite ?H1, ?H2; reflexivity.
Qed.

End MemberFacts.

Lemma add_then_remove_member_witness :
  after (Coalition.remove_member "Agent-F")
    (after (Coalition.add_member "Agent-F" 80%Q)
       (Scenario.opened (F := Q) Coalition.SUPERMAJORITY)) =
  Scenario.opened (F := Q) Coalition.SUPERMAJORITY.
Proof.
  apply add_then_remove_member.
  - apply reachable_wf. apply (scenario_reachable QFloat Coalition.SUPERMAJORITY []).
  - vm_compute. reflexivity.
Defined.

Lemma removed_member_is_refused_witness :
  exists msg,
    Coalition.vote 0 "Agent-B" "approve" None
      (after (Coalition.remove_member "Agent-B")
         (Scenario.opened (F := Q) Coalition.SUPERMAJORITY)) =
    (Raise (ValueError msg),
     after (Coalition.remove_member "Agent-B")
       (Scenario.opened (F := Q) Coalition.SUPERMAJORITY)).
Proof.
  apply (removed_member_is_refused "Agent-B"
           (c := Scenario.opened (F := Q) Coalition.SUPERMAJORITY)).
  apply reachable_wf. apply (scenario_reachable QFloat Coalition.SUPERMAJORITY []).
Defined.

(* ------------------------------------------------------------------ *)
(** ** Proposals and votes of a coalition *)

Section ProposalFacts.
Import Coalition Run.
Context {F : Type} `{PyFloat F}.

Ltac fields :=
  cbn [self_name self_members self_voting_method self_proposals self_reputation
       set_members set_proposals set_reputation fst snd negb].

(** X5.  On a well-formed coalition [create_proposal] by a member returns
    a proposal whose number is the count of the proposals so far; the
    proposal is stored under that number, open, with empty ledgers, with
    the method given or else the coalition's; every earlier proposal is
    still there unchanged, and the members and reputations are untouched.
    When the proposer is no member the call raises [ValueError] and the
    coalition stays as it is. *)
Theorem create_proposal_numbers pr t d ty vm th dl (c : GovernanceCoalition F) :
  wf c ->
  (set_mem pr (self_members c) = false ->
   exists msg,
     create_proposal pr t d ty vm th dl c = (Raise (ValueError msg), c)) /\
  (set_mem pr (self_members c) = true ->
   exists p c',
     create_proposal pr t d ty vm th dl c = (Return p, c') /\
     id p = Z.of_nat (List.length (self_proposals c)) /\
     dict_get (id p) (self_proposals c) = None /\
     dict_get (id p) (self_proposals c') = Some p /\
     List.length (self_proposals c') = S (List.length (self_proposals c)) /\
     votes_for p = [] /\ votes_against p = [] /\ votes_abstain p = [] /\
     executed p = false /\
     required_threshold p = th /\
     voting_method p =
       match vm with Some m => m | None => self_voting_method c end /\
     (forall pid q,
        dict_get pid (self_proposals c) = Some q ->
        dict_get pid (self_proposals c') = Some q) /\
     self_members c' = self_members c /\
     self_reputation c' = self_reputation c).
Proof.
  intros Hwf. pose proof (next_id_fresh Hwf) as Hfresh.
  split; intros Hm; unfold create_proposal; rewrite Hm; fields.
  - eexists; reflexivity.
  - do 2 eexists. split; [reflexivity|]. cbn [id votes_for votes_against
      votes_abstain executed required_threshold voting_method]. fields.
    assert (Hnone : dict_get (Z.of_nat (List.length (self_proposals c)))
                      (self_proposals c) = None).
    { unfold dict_mem in Hfresh.
      destruct (dict_get _ (self_proposals c)); [discriminate | reflexivity]. }
    repeat split.
    + exact Hnone.
    + apply dict_get_set_same.
    + rewrite dict_length_set, Hfresh. reflexivity.
    + intros pid q Hq. rewrite dict_get_set.
      destruct (key_eqb (Z.of_nat (List.length (self_proposals c))) pid) eqn:E;
        [|exact Hq].
      apply key_eqb_eq in E. subst pid. congruence.
Qed.

(** X6.  [vote] either raises and leaves the coalition untouched, or
    returns and changes one thing only: in the proposal voted on, the entry
    of the voter in the ledger of the choice.  The other entries of that
    ledger, the two other ledgers, the flag and threshold of the proposal,
    the other proposals, the members and the reputations are as before. *)
Theorem vote_changes_one_entry pid voter choice weight
    (c : GovernanceCoalition F) :
  (forall e, fst (vote pid voter choice weight c) = Raise e ->
             after (vote pid voter choice weight) c = c) /\
  (fst (vote pid voter choice weight c) = Return tt ->
   exists p w,
     dict_get pid (self_proposals c) = Some p /\
     set_mem voter (self_members c) = true /\
     let c' := after (vote pid voter choice weight) c in
     let p' := record choice voter w p in
     dict_get pid (self_proposals c') = Some p' /\
     (forall other, other <> pid ->
        dict_get other (self_proposals c') = dict_get other (self_proposals c)) /\
     self_members c' = self_members c /\
     self_reputation c' = self_reputation c /\
     (forall v, v <> voter ->
        dict_get v (votes_for p') = dict_get v (votes_for p) /\
        dict_get v (votes_against p') = dict_get v (votes_against p) /\
        dict_get v (votes_abstain p') = dict_get v (votes_abstain p)) /\
     executed p' = executed p /\
     required_threshold p' = required_threshold p /\
     voting_method p' = voting_method p).
Proof.
  unfold after, vote.
  destruct (dict_get pid (self_proposals c)) as [p|] eqn:Hp; fields.
  2:{ split; [reflexivity | discriminate]. }
  destruct (set_mem voter (self_members c)) eqn:Hm; fields.
  2:{ split; [reflexivity | discriminate]. }
  destruct (match weight with
            | None => _calculate_vote_weight voter (voting_method p) c
            | Some w' => Return w'
            end) as [w|e]; fields.
  2:{ split; [reflexivity | discriminate]. }
  split; [discriminate|]. intros _. exists p, w. cbv zeta.
  split; [reflexivity|]. split; [reflexivity|].
  split; [apply dict_get_set_same|].
  split; [intros other Hne; apply dict_get_set_other; congruence|].
  split; [reflexivity|]. split; [reflexivity|].
  split.
  - intros v Hv. unfold record.
    destruct (String.eqb (lower choice) "approve");
      [|destruct (String.eqb (lower choice) "reject")];
      cbn [votes_for votes_against votes_abstain set_votes_for set_votes_against
           set_votes_abstain];
      repeat split; try reflexivity; apply dict_get_set_other; congruence.
  - unfold record.
    destruct (String.eqb (lower choice) "approve");
      [|destruct (String.eqb (lower choice) "reject")];
      repeat split.
Qed.

(** X7.  The choice is read without regard to case, and every choice that
    is neither approve nor reject is an abstention: it is written into
    [votes_abstain] and leaves the tally of the proposal as it was. *)
Theorem vote_other_choice_abstains pid p voter choice w
    (c : GovernanceCoalition F) :
  dict_get pid (self_proposals c) = Some p ->
  set_mem voter (self_members c) = true ->
  lower choice <> "approve" ->
  lower choice <> "reject" ->
  let c' := after (vote pid voter choice (Some w)) c in
  dict_get pid (self_proposals c') =
    Some (set_votes_abstain (dict_set voter w (votes_abstain p)) p) /\
  tally_votes pid c' = tally_votes pid c.
Proof.
  intros Hp Hm Ha Hr. cbv zeta. unfold after.
  erewrite vote_with_weight by eassumption. fields.
  assert (Hrec : record choice voter w p =
                 set_votes_abstain (dict_set voter w (votes_abstain p)) p).
  { unfold record. apply String.eqb_neq in Ha, Hr. rewrite Ha, Hr. reflexivity. }
  rewrite Hrec. split; [apply dict_get_set_same|].
  erewrite tally_votes_found by (fields; apply dict_get_set_same).
  erewrite (@tally_votes_found _ _ c) by exact Hp. reflexivity.
Qed.

(** The case of the letters of approve and reject does not matter. *)
Lemma record_ignores_case voter (w : F) p :
  record "APPROVE" voter w p = record "approve" voter w p /\
  record "Reject" voter w p = record "reject" voter w p.
Proof. split; reflexivity. Qed.

End ProposalFacts.

Lemma create_proposal_numbers_witness :
  exists p c',
    Coalition.create_proposal "Agent-B" "Second" "A second proposal" "trade"
      None (dec 5 10) 3600
      (Scenario.opened (F := Q) Coalition.SUPERMAJORITY) = (Return p, c') /\
    Coalition.id p = 1%Z /\
    dict_get 1%Z (Coalition.self_proposals c') = Some p.
Proof.
  destruct (proj2 (@create_proposal_numbers Q "Agent-B" "Second"
                     "A second proposal" "trade" None (dec 5 10) 3600%Z
                     (Scenario.opened (F := Q) Coalition.SUPERMAJORITY)
                     (reachable_wf
                        (scenario_reachable QFloat Coalition.SUPERMAJORITY [])))
              eq_refl)
    as (p & c' & Hrun & Hid & _ & Hget & _).
  exists p, c'. split; [exact Hrun|]. split; [exact Hid|].
  rewrite Hid in Hget. exact Hget.
Defined.

Lemma vote_changes_one_entry_witness :
  exists p w,
    dict_get 0%Z
      (Coalition.self_proposals
         (Scenario.opened (F := Q) Coalition.SUPERMAJORITY)) = Some p /\
    dict_get 0%Z
      (Coalition.self_proposals
         (after (Coalition.vote 0 "Agent-B" "approve" None)
            (Scenario.opened (F := Q) Coalition.SUPERMAJORITY))) =
    Some (Coalition.record "approve" "Agent-B" w p).
Proof.
  destruct (proj2 (@vote_changes_one_entry Q QFloat 0%Z "Agent-B" "approve" None
                     (Scenario.opened (F := Q) Coalition.SUPERMAJORITY))
              eq_refl)
    as (p & w & Hp & _ & Hget & _).
  exists p, w. split; assumption.
Defined.

Lemma vote_other_choice_abstains_witness :
  Coalition.tally_votes 0
    (after (Coalition.vote 0 "Agent-B" "yes" (Some 1%Q))
       (Scenario.cast (F := Q) Scenario.four_to_one
          (Scenario.opened Coalition.SUPERMAJORITY))) =
  Coalition.tally_votes 0
    (Scenario.cast (F := Q) Scenario.four_to_one
       (Scenario.opened Coalition.SUPERMAJORITY)).
Proof.
  assert (Hp : { p | dict_get 0%Z
                       (Coalition.self_proposals
                          (Scenario.cast (F := Q) Scenario.four_to_one
                             (Scenario.opened Coalition.SUPERMAJORITY))) = Some p }).
  { eexists. vm_compute. reflexivity. }
  destruct Hp as [p Hp].
  apply (@vote_other_choice_abstains Q QFloat 0%Z p "Agent-B" "yes" 1%Q _ Hp).
  - reflexivity.
  - discriminate.
  - discriminate.
Defined.

(* ------------------------------------------------------------------ *)
(** ** Tallies in exact arithmetic *)

Section TallyExact.
Import Coalition Run.

Lemma fleb_Q (x y : Q) : fleb x y = true <-> x <= y.
Proof. cbn. apply Qle_bool_iff. Qed.

Lemma fleb_Q_false (x y : Q) : fleb x y = false <-> y < x.
Proof.
  cbn. split.
  - intros E. apply Qnot_le_lt. intros Hle. apply Qle_bool_iff in Hle. congruence.
  - intros Hlt. destruct (Qle_bool x y) eqn:E; [|reflexivity].
    apply Qle_bool_iff in E. apply Qlt_not_le in Hlt. contradiction.
Qed.

Lemma feqb_Q (x y : Q) : feqb x y = true <-> x == y.
Proof. cbn. apply Qeq_bool_iff. Qed.

Lemma feqb_Q_false (x y : Q) : feqb x y = false <-> ~ x == y.
Proof.
  cbn. split.
  - intros E Heq. apply Qeq_bool_iff in Heq. congruence.
  - apply Qeq_bool_false.
Qed.

(** X8.  A proposal on which nobody has voted for or against has the
    approval rate [0.0]; its threshold being positive, it does not pass,
    and [execute_proposal] returns [False] and changes nothing. *)
Theorem unvoted_proposal_is_not_executed pid p (c : GovernanceCoalition Q) :
  dict_get pid (self_proposals c) = Some p ->
  votes_for p = [] -> votes_against p = [] ->
  0 < required_threshold p ->
  (exists t, tally_votes pid c = Return t /\
             approval_rate t = 0 /\ passed t = false) /\
  execute_proposal pid c = (Return false, c).
Proof.
  intros Hp Hf Ha Hth.
  assert (Hpass : fleb (required_threshold p) 0 = false)
    by (apply fleb_Q_false; exact Hth).
  split.
  - eexists. split; [apply tally_votes_found; exact Hp|].
    cbn [approval_rate passed]. rewrite Hf, Ha. cbn. split; [reflexivity|exact Hpass].
  - unfold execute_proposal. rewrite (tally_votes_found c pid Hp).
    cbn [passed]. rewrite Hf, Ha.
    change (py_sum (dict_values (@nil (string * Q)))) with 0%Q.
    change (feqb (fadd 0 0) (of_int 0)) with true. cbv iota.
    change (@of_int Q _ 0%Z) with 0%Q. rewrite Hpass. reflexivity.
Qed.

(** X9.  There is no quorum.  A proposal with some positive weight for
    it and no vote against it has the approval rate [1] and passes every
    threshold up to [1], however few of the members have voted and
    whatever the abstentions. *)
Theorem one_approval_passes pid p (c : GovernanceCoalition Q) :
  dict_get pid (self_proposals c) = Some p ->
  votes_against p = [] ->
  0 < py_sum (dict_values (votes_for p)) ->
  required_threshold p <= 1 ->
  exists t, tally_votes pid c = Return t /\
            approval_rate t == 1 /\ passed t = true.
Proof.
  intros Hp Ha Hf Hth.
  eexists. split; [apply tally_votes_found; exact Hp|].
  cbn [approval_rate passed]. rewrite Ha.
  set (tf := py_sum (dict_values (votes_for p))) in *.
  assert (Htot : fadd tf (py_sum (dict_values (@nil (string * Q)))) == tf).
  { change (py_sum (dict_values (@nil (string * Q)))) with 0%Q.
    cbn [fadd QFloat]. rewrite Qred_correct. ring. }
  assert (Hnz : feqb (fadd tf (py_sum (dict_values (@nil (string * Q)))))
                  (of_int 0) = false).
  { apply feqb_Q_false. rewrite Htot. change (@of_int Q _ 0%Z) with 0%Q. lra. }
  rewrite Hnz.
  assert (Hrate : fdiv tf (fadd tf (py_sum (dict_values (@nil (string * Q)))))
                  == 1).
  { cbn [fdiv QFloat]. rewrite Qred_correct, Htot. field. lra. }
  split; [exact Hrate|]. apply fleb_Q. rewrite Hrate. exact Hth.
Qed.

(** X10.  When no recorded weight is negative, the approval rate lies
    between [0] and [1]. *)
Theorem approval_rate_is_a_ratio pid p (c : GovernanceCoalition Q) :
  dict_get pid (self_proposals c) = Some p ->
  (forall w, In w (dict_values (votes_for p)) -> 0 <= w) ->
  (forall w, In w (dict_values (votes_against p)) -> 0 <= w) ->
  exists t, tally_votes pid c = Return t /\
            0 <= approval_rate t /\ approval_rate t <= 1.
Proof.
  intros Hp Hf Ha.
  eexists. split; [apply tally_votes_found; exact Hp|].
  cbn [approval_rate].
  set (tf := py_sum (dict_values (votes_for p))).
  set (ta := py_sum (dict_values (votes_against p))).
  assert (Htf : 0 <= tf) by (unfold tf; rewrite py_sum_Q; apply Qsum_nonneg; exact Hf).
  assert (Hta : 0 <= ta) by (unfold ta; rewrite py_sum_Q; apply Qsum_nonneg; exact Ha).
  assert (Htot : fadd tf ta == tf + ta) by (cbn [fadd QFloat]; apply Qred_correct).
  destruct (feqb (fadd tf ta) (of_int 0)) eqn:Hz.
  - change (@of_int Q _ 0%Z) with 0%Q. split; lra.
  - apply feqb_Q_false in Hz. rewrite Htot in Hz.
    change (@of_int Q _ 0%Z) with 0%Q in Hz.
    assert (Hpos : 0 < tf + ta) by lra.
    cbn [fdiv QFloat]. rewrite Qred_correct, Htot. split.
    + apply Qle_shift_div_l; [exact Hpos | lra].
    + apply Qle_shift_div_r; [exact Hpos | lra].
Qed.

End TallyExact.

Lemma unvoted_proposal_is_not_executed_witness :
  Coalition.execute_proposal 0
    (Scenario.opened (F := Q) Coalition.SUPERMAJORITY) =
  (Return false, Scenario.opened (F := Q) Coalition.SUPERMAJORITY).
Proof.
  assert (Hp : { p | dict_get 0%Z
                       (Coalition.self_proposals
                          (Scenario.opened (F := Q) Coalition.SUPERMAJORITY))
                     = Some p /\ Coalition.votes_for p = [] /\
                     Coalition.votes_against p = [] /\
                     0 < Coalition.required_threshold p }).
  { eexists. repeat split; vm_compute; reflexivity. }
  destruct Hp as (p & Hp & Hf & Ha & Hth).
  apply (proj2 (unvoted_proposal_is_not_executed 0%Z _ Hp Hf Ha Hth)).
Defined.

Lemma one_approval_passes_witness :
  exists t,
    Coalition.tally_votes 0
      (Scenario.cast (F := Q) [("Agent-A", "approve"); ("Agent-B", "abstain")]
         (Scenario.opened Coalition.SUPERMAJORITY)) = Return t /\
    Coalition.approval_rate t == 1 /\ Coalition.passed t = true.
Proof.
  assert (Hp : { p | dict_get 0%Z
                       (Coalition.self_proposals
                          (Scenario.cast (F := Q)
                             [("Agent-A", "approve"); ("Agent-B", "abstain")]
                             (Scenario.opened Coalition.SUPERMAJORITY)))
                     = Some p /\ Coalition.votes_against p = [] /\
                     0 < py_sum (dict_values (Coalition.votes_for p)) /\
                     Coalition.required_threshold p <= 1 }).
  { eexists. split; [vm_compute; reflexivity|].
    split; [vm_compute; reflexivity|]. split; [vm_compute; reflexivity|].
    vm_compute. discriminate. }
  destruct Hp as (p & Hp & Ha & Hf & Hth).
  exact (one_approval_passes 0%Z _ Hp Ha Hf Hth).
Defined.

Lemma approval_rate_is_a_ratio_witness :
  exists t,
    Coalition.tally_votes 0
      (Scenario.cast (F := Q) Scenario.three_to_two
         (Scenario.opened Coalition.SUPERMAJORITY)) = Return t /\
    0 <= Coalition.approval_rate t /\ Coalition.approval_rate t <= 1.
Proof.
  assert (Hp : { p | dict_get 0%Z
                       (Coalition.self_proposals
                          (Scenario.cast (F := Q) Scenario.three_to_two
                             (Scenario.opened Coalition.SUPERMAJORITY)))
                     = Some p /\
                     Coalition.votes_for p =
                       [("Agent-A", 1); ("Agent-B", 1); ("Agent-D", 1)] /\
                     Coalition.votes_against p =
                       [("Agent-C", 1); ("Agent-E", 1)] }).
  { eexists. repeat split; vm_compute; reflexivity. }
  destruct Hp as (p & Hp & Hf & Ha).
  apply (approval_rate_is_a_ratio 0%Z _ Hp).
  - rewrite Hf. intros w [<- | [<- | [<- | []]]]; vm_compute; discriminate.
  - rewrite Ha. intros w [<- | [<- | []]]; vm_compute; discriminate.
Defined.

(* ------------------------------------------------------------------ *)
(** ** What an execution does *)

Section ExecuteOutcome.
Import Coalition Run.
Context {F : Type} `{PyFloat F}.

Ltac fields :=
  cbn [self_name self_members self_voting_method self_proposals self_reputation
       set_members set_proposals set_reputation fst snd negb].


End ExecuteOutcome.


(* ------------------------------------------------------------------ *)
(** ** Reputation weights and statistics *)

Lemma map_dict_get_keys {K V : Type} `{KeyLaws K} (d : dict K V) :
  NoDup (dict_keys d) ->
  map (fun k => dict_get k d) (dict_keys d) = map Some (dict_values d).
Proof.
  unfold dict_keys, dict_values.
  induction d as [|[k v] d IH]; cbn [map fst snd]; [reflexivity|].
  intros Hnd. inversion Hnd as [|? ? Hnotin Hnd']; subst.
  cbn [dict_get]. rewrite key_eqb_refl. f_equal.
  rewrite <- (IH Hnd'). apply map_ext_in. intros k' Hk'.
  rewrite key_eqb_neq; [reflexivity|]. intros ->. contradiction.
Qed.

Lemma Qsum_scaled (rs : list Q) (total n : Q) :
  ~ total == 0 ->
  fold_right Qplus 0 (map (fun r => fmul (fdiv r total) n) rs) ==
  fold_right Qplus 0 rs / total * n.
Proof.
  intros Ht. induction rs as [|r rs IH]; cbn [map fold_right].
  - field. exact Ht.
  - rewrite IH. cbn [fmul fdiv QFloat]. rewrite !Qred_correct. field. exact Ht.
Qed.

(** X12.  On a well-formed coalition whose reputations do not add up to
    zero, the reputation weights of the members are all defined and add up
    to the number of members: the average member weighs [1]. *)
Theorem reputation_weights_add_up (c : Coalition.GovernanceCoalition Q) :
  Run.wf c ->
  ~ total_reputation c == 0 ->
  exists weights,
    map (fun voter =>
           Coalition._calculate_vote_weight voter Coalition.REPUTATION_WEIGHTED c)
      (Coalition.self_members c) = map Return weights /\
    fold_right Qplus 0 weights == member_count c.
Proof.
  intros [Hn Hr _] Hz.
  exists (map (fun r => fmul (fdiv r (total_reputation c)) (member_count c))
            (dict_values (Coalition.self_reputation c))).
  split.
  - rewrite map_map.
    assert (Hnd : NoDup (dict_keys (Coalition.self_reputation c)))
      by (rewrite Hr; exact Hn).
    pose proof (map_dict_get_keys (Coalition.self_reputation c) Hnd) as Hmap.
    rewrite Hr in Hmap.
    transitivity
      (map (fun o : option Q =>
              match o with
              | Some r =>
                  Return (fmul (fdiv r (total_reputation c)) (member_count c))
              | None => Raise (KeyError "")
              end)
         (map (fun k => dict_get k (Coalition.self_reputation c))
            (Coalition.self_members c))).
    + rewrite map_map. apply map_ext_in. intros voter Hv.
      destruct (dict_get voter (Coalition.self_reputation c)) as [r|] eqn:Hg.
      * apply reputation_weight_formula; [exact Hg|].
        apply feqb_Q_false. exact Hz.
      * exfalso.
        assert (Hm : dict_mem voter (Coalition.self_reputation c) = true)
          by (rewrite dict_mem_keys, Hr; apply set_mem_In; exact Hv).
        unfold dict_mem in Hm. rewrite Hg in Hm. discriminate.
    + rewrite Hmap, map_map. reflexivity.
  - rewrite Qsum_scaled by exact Hz.
    unfold total_reputation at 1. rewrite <- py_sum_Q.
    fold (total_reputation c). field. exact Hz.
Qed.

Lemma reputation_weights_add_up_witness :
  exists weights,
    map (fun voter =>
           Coalition._calculate_vote_weight voter Coalition.REPUTATION_WEIGHTED
             (Coalition.init (F := Q) "Test Coalition"
                ["agent1"; "agent2"; "agent3"] Coalition.REPUTATION_WEIGHTED))
      ["agent1"; "agent2"; "agent3"] = map Return weights /\
    fold_right Qplus 0 weights == 3.
Proof.
  apply (@reputation_weights_add_up
           (Coalition.init (F := Q) "Test Coalition"
              ["agent1"; "agent2"; "agent3"] Coalition.REPUTATION_WEIGHTED)).
  - apply wf_init.
  - vm_compute. discriminate.
Defined.

Section StatsFacts.
Import Coalition Run CoalitionStats.

(** X13.  In exact arithmetic [get_coalition_stats] always returns, also
    for a coalition without members, where the average is [0]; the count
    of executed proposals is at most the count of proposals; and on a
    well-formed coalition the average times the number of members is the
    sum of the reputations. *)
Theorem coalition_stats_are_consistent (c : GovernanceCoalition Q) :
  exists st,
    get_coalition_stats c = Return st /\
    (0 <= proposals_executed st <= total_proposals st)%Z /\
    (self_reputation c = [] -> average_reputation st = 0) /\
    (wf c ->
     average_reputation st * inject_Z (total_members st) == total_reputation c).
Proof.
  unfold get_coalition_stats.
  assert (Hcount : (0 <= count_executed (self_proposals c)
                    <= Z.of_nat (List.length (self_proposals c)))%Z).
  { unfold count_executed. split; [lia|]. apply Nat2Z.inj_le.
    unfold dict_values. rewrite <- (length_map snd (self_proposals c)).
    apply filter_length_le. }
  destruct (self_reputation c) as [|kv rest] eqn:Hrep.
  - cbn [obind]. eexists. split; [reflexivity|].
    cbn [proposals_executed total_proposals average_reputation total_members].
    split; [exact Hcount|]. split; [reflexivity|].
    intros [_ Hr _]. unfold total_reputation. rewrite Hrep.
    rewrite <- Hr, Hrep. cbn. reflexivity.
  - unfold py_div.
    assert (Hlen : feqb (@of_int Q _ (Z.of_nat (List.length (kv :: rest))))
                     (of_int 0) = false).
    { apply (proj2 (feqb_Q_false _ _)). cbn [of_int QFloat].
      rewrite inject_Z_injective. cbn [List.length]. lia. }
    rewrite Hlen. cbn [obind]. eexists. split; [reflexivity|].
    cbn [proposals_executed total_proposals average_reputation total_members].
    split; [exact Hcount|]. split; [discriminate|].
    intros [_ Hr _]. unfold total_reputation. rewrite Hrep.
    assert (Hn : List.length (self_members c) = List.length (kv :: rest)).
    { rewrite <- Hr, Hrep. unfold dict_keys. rewrite length_map. reflexivity. }
    rewrite Hn. cbn [fdiv of_int QFloat]. rewrite Qred_correct.
    field. change 0%Q with (inject_Z 0). rewrite inject_Z_injective.
    cbn [List.length]. lia.
Qed.

End StatsFacts.

Lemma coalition_stats_are_consistent_witness :
  exists st,
    CoalitionStats.get_coalition_stats
      (Scenario.opened (F := Q) Coalition.SUPERMAJORITY) = Return st /\
    CoalitionStats.average_reputation st *
      inject_Z (CoalitionStats.total_members st) ==
    total_reputation (Scenario.opened (F := Q) Coalition.SUPERMAJORITY).
Proof.
  destruct (coalition_stats_are_consistent
              (Scenario.opened (F := Q) Coalition.SUPERMAJORITY))
    as (st & Hrun & _ & _ & Havg).
  exists st. split; [exact Hrun|]. apply Havg.
  apply reachable_wf. apply (scenario_reachable QFloat Coalition.SUPERMAJORITY []).
Defined.

Section ExecutedCount.
Import Coalition Run CoalitionStats.
Context {F : Type} `{PyFloat F}.

Lemma count_executed_set pid p p' (ps : dict Z (GovernanceProposal F)) :
  dict_get pid ps = Some p ->
  (executed p = true -> executed p' = true) ->
  (count_executed ps <= count_executed (dict_set pid p' ps))%Z.
Proof.
  unfold count_executed, dict_values. intros Hg Himp. apply Nat2Z.inj_le.
  revert Hg. induction ps as [|[k q] ps IH]; cbn [dict_get]; [discriminate|].
  destruct (key_eqb pid k) eqn:E; cbn [dict_set map snd filter]; rewrite E.
  - intros [= ->]. cbn [map snd filter].
    destruct (executed p) eqn:He.
    + rewrite (Himp eq_refl). reflexivity.
    + destruct (executed p'); cbn [List.length]; lia.
  - intros Hg. cbn [map snd filter].
    destruct (executed q); cbn [List.length]; specialize (IH Hg); lia.
Qed.

Lemma count_executed_new pid p (ps : dict Z (GovernanceProposal F)) :
  dict_mem pid ps = false ->
  (count_executed ps <= count_executed (dict_set pid p ps))%Z.
Proof.
  intros Hm. rewrite (dict_set_absent _ _ _ Hm).
  unfold count_executed, dict_values. apply Nat2Z.inj_le.
  rewrite map_app, filter_app, length_app. lia.
Qed.

(** X14.  On a well-formed coalition no call lowers the number of
    executed proposals that [get_coalition_stats] reports. *)
Theorem executed_count_never_decreases k (c : GovernanceCoalition F) :
  wf c ->
  (count_executed (self_proposals c) <=
   count_executed (self_proposals (perform k c)))%Z.
Proof.
  intros Hwf.
  destruct k as [a r | a | pr t d ty vm th dl | vpid voter choice weight | epid];
    cbn [perform].
  - rewrite (proj1 (membership_keeps_tallies a r 0%Z c)). lia.
  - rewrite (proj1 (proj2 (membership_keeps_tallies a (of_int 0) 0%Z c))). lia.
  - unfold after, create_proposal.
    destruct (set_mem pr (self_members c)); cbn [negb snd]; [|lia].
    cbn [self_proposals set_proposals]. apply count_executed_new.
    apply next_id_fresh. exact Hwf.
  - unfold after, Coalition.vote.
    destruct (dict_get vpid (self_proposals c)) as [p|] eqn:Hp; cbn [snd]; [|lia].
    destruct (set_mem voter (self_members c)); cbn [negb snd]; [|lia].
    destruct (match weight with
              | None => _calculate_vote_weight voter (Coalition.voting_method p) c
              | Some w' => Return w'
              end) as [w'|e]; cbn [snd]; [|lia].
    cbn [self_proposals set_proposals].
    eapply count_executed_set; [exact Hp|]. rewrite record_executed. tauto.
  - destruct (dict_get epid (self_proposals c)) as [p|] eqn:Hp.
    + destruct (execute_proposal_marks epid c Hp)
        as [[Hsame _] | (_ & Hps & _)].
      * rewrite Hsame. lia.
      * rewrite Hps. eapply count_executed_set; [exact Hp|]. reflexivity.
    + unfold after. rewrite (execute_proposal_missing epid c Hp). cbn [snd].
      lia.
Qed.

End ExecutedCount.

Lemma executed_count_never_decreases_witness :
  (CoalitionStats.count_executed
     (Coalition.self_proposals
        (Scenario.cast (F := Q) Scenario.four_to_one
           (Scenario.opened Coalition.SUPERMAJORITY))) <=
   CoalitionStats.count_executed
     (Coalition.self_proposals
        (Run.perform (Run.ExecuteProposal 0)
           (Scenario.cast (F := Q) Scenario.four_to_one
              (Scenario.opened Coalition.SUPERMAJORITY)))))%Z.
Proof.
  apply executed_count_never_decreases.
  apply reachable_wf. apply scenario_reachable.
Defined.

(* ------------------------------------------------------------------ *)
(** ** The proposals of the SDK *)

Section SdkFacts.
Import Sdk.

Lemma count_filter_set (voter vote choice : string) (d : dict string string) :
  Z.of_nat
    (List.length
       (filter (fun v => String.eqb v choice) (dict_values (dict_set voter vote d)))) =
  (Z.of_nat (List.length (filter (fun v => String.eqb v choice) (dict_values d)))
   - match dict_get voter d with
     | Some old => indicator (String.eqb old choice)
     | None => 0
     end
   + indicator (String.eqb vote choice))%Z.
Proof.
  unfold dict_values, indicator.
  induction d as [|[k v] d IH]; cbn [dict_set dict_get map snd filter].
  - destruct (String.eqb vote choice); cbn [List.length]; lia.
  - change (key_eqb voter k) with (String.eqb voter k).
    destruct (String.eqb voter k) eqn:E; cbn [map snd filter].
    + destruct (String.eqb v choice), (String.eqb vote choice);
        cbn [List.length]; lia.
    + destruct (String.eqb v choice); cbn [List.length]; rewrite ?Nat2Z.inj_succ;
        rewrite IH; lia.
Qed.

(** X15.  In the SDK a vote is an upsert and the counts follow it: after
    [record_vote] the count of a choice is what it was, less one if the
    earlier vote of that voter was for the choice, plus one if the new
    vote is. *)
Theorem sdk_counts_follow_the_last_vote voter vote choice (p : Proposal) :
  count_votes choice (after (record_vote voter vote) p) =
  (count_votes choice p
   - match dict_get voter (votes p) with
     | Some old => indicator (String.eqb old choice)
     | None => 0
     end
   + indicator (String.eqb vote choice))%Z.
Proof.
  unfold count_votes, after, record_vote. cbn [snd votes].
  apply count_filter_set.
Qed.

(** X16.  [get_status] reads [executed] first, whatever the votes; a
    proposal that is not executed is pending exactly when no vote is
    recorded, so never again after a [record_vote]; and a first vote whose
    string is not exactly approve or reject (an abstention, or approve in
    capitals) makes a pending proposal tied. *)
Theorem sdk_status_edges (p : Proposal) :
  (executed p = true -> get_status p = "executed") /\
  (executed p = false -> (get_status p = "pending" <-> votes p = [])) /\
  (forall voter vote,
     executed p = false ->
     get_status (after (record_vote voter vote) p) <> "pending") /\
  (forall voter vote,
     executed p = false -> votes p = [] ->
     vote <> "approve" -> vote <> "reject" ->
     get_status (after (record_vote voter vote) p) = "tied").
Proof.
  assert (Hcases : forall q, executed q = false -> votes q <> [] ->
                             get_status q <> "pending").
  { intros q He Hv. unfold get_status. rewrite He.
    destruct (votes q) as [|kv rest] eqn:Hq; [congruence|].
    destruct (_ >? _)%Z; [discriminate|].
    destruct (_ >? _)%Z; discriminate. }
  assert (Hset : forall voter vote, votes (after (record_vote voter vote) p) <> []).
  { intros voter vote. unfold after, record_vote. cbn [snd votes].
    destruct (votes p) as [|[k v] rest]; cbn [dict_set]; [discriminate|].
    destruct (key_eqb voter k); discriminate. }
  split; [|split; [|split]].
  - intros He. unfold get_status. rewrite He. reflexivity.
  - intros He. split.
    + intros Hs. destruct (votes p) as [|kv rest] eqn:Hv; [reflexivity|].
      exfalso. apply (Hcases p He); [rewrite Hv; discriminate | exact Hs].
    + intros Hv. unfold get_status. rewrite He, Hv. reflexivity.
  - intros voter vote He. apply Hcases; [exact He | apply Hset].
  - intros voter vote He Hv Ha Hr. unfold get_status, after, record_vote.
    cbn [snd executed votes count_votes]. rewrite He, Hv. cbn [dict_set].
    unfold count_votes, dict_values. cbn [votes map snd filter].
    apply String.eqb_neq in Ha, Hr. rewrite Ha, Hr. reflexivity.
Qed.

End SdkFacts.

Lemma sdk_status_edges_witness :
  Sdk.get_status
    (after (Sdk.record_vote "agent-key" "APPROVE")
       (Sdk.init 0 "agent-key" "trade" "Buy" None)) = "tied".
Proof.
  apply (proj2 (proj2 (proj2 (sdk_status_edges
                                (Sdk.init 0 "agent-key" "trade" "Buy" None))))).
  - reflexivity.
  - reflexivity.
  - discriminate.
  - discriminate.
Defined.

(* ------------------------------------------------------------------ *)
(** ** The swarm of the SDK *)

Section SwarmFacts.
Import Swarm.
Context {F : Type} `{PyFloat F}.

Ltac sfields :=
  cbn [program_id rpc_url authority _agents _proposals set_agents
       Swarm.set_proposals fst snd].

Lemma swarm_numbered_init pid url auth : swarm_numbered (init (F := F) pid url auth).
Proof. reflexivity. Qed.

Lemma swarm_numbered_register agent (s : AgentSwarm F) :
  swarm_numbered s -> swarm_numbered (after (register_agent agent) s).
Proof. intros Hn. exact Hn. Qed.

Lemma swarm_numbered_vote agent pid choice reasoning (s : AgentSwarm F) :
  swarm_numbered s -> swarm_numbered (after (vote agent pid choice reasoning) s).
Proof.
  intros Hn. unfold after, vote.
  destruct (dict_get pid (_proposals s)) as [p|] eqn:Hp; sfields; [|exact Hn].
  unfold swarm_numbered. sfields.
  assert (Hm : dict_mem pid (_proposals s) = true)
    by (unfold dict_mem; rewrite Hp; reflexivity).
  rewrite dict_keys_set_present, dict_length_set, Hm by exact Hm. exact Hn.
Qed.

(** X17.  In a swarm whose proposals are numbered from [0],
    [create_proposal] gives the new proposal the count of the proposals so
    far as its number, which is free; [get_proposal] with that number
    returns the proposal, pending and without votes; the earlier proposals
    are unchanged; and the proposals are again numbered from [0].  (They
    are so in a new swarm, and [register_agent] and [vote] keep them so:
    the three lemmas above.) *)
Theorem swarm_create_then_get agent kind description data (s : AgentSwarm F) :
  swarm_numbered s ->
  exists p s',
    create_proposal agent kind description data s = (Return p, s') /\
    Sdk.id p = Z.of_nat (List.length (_proposals s)) /\
    get_proposal (Sdk.id p) s = None /\
    get_proposal (Sdk.id p) s' = Some p /\
    Sdk.proposer p = pubkey agent /\
    Sdk.votes p = [] /\
    Sdk.get_status p = "pending" /\
    (forall pid q, get_proposal pid s = Some q -> get_proposal pid s' = Some q) /\
    total_proposals (get_swarm_state s') =
      (total_proposals (get_swarm_state s) + 1)%Z /\
    _agents s' = _agents s /\
    swarm_numbered s'.
Proof.
  intros Hn. pose proof (numbered_next_free _ Hn) as Hfree.
  assert (Hnone : dict_get (Z.of_nat (List.length (_proposals s))) (_proposals s)
                  = None).
  { unfold dict_mem in Hfree.
    destruct (dict_get _ (_proposals s)); [discriminate | reflexivity]. }
  do 2 eexists. split; [reflexivity|]. unfold get_proposal, get_swarm_state.
  sfields. cbn [Sdk.id Sdk.init Sdk.proposer Sdk.votes total_proposals].
  split; [reflexivity|]. split; [exact Hnone|].
  split; [apply dict_get_set_same|]. split; [reflexivity|].
  split; [reflexivity|]. split; [reflexivity|].
  split.
  { intros pid q Hq. rewrite dict_get_set.
    destruct (key_eqb (Z.of_nat (List.length (_proposals s))) pid) eqn:E;
      [|exact Hq].
    apply key_eqb_eq in E. subst pid. congruence. }
  split; [rewrite dict_length_set, Hfree; lia|].
  split; [reflexivity|].
  unfold swarm_numbered. sfields.
  rewrite dict_keys_set, dict_length_set, Hfree, Hn.
  rewrite seq_S, map_app. reflexivity.
Qed.

(** X18.  [vote] of the swarm raises [ValueError] for an unknown number
    and then changes nothing.  For a known proposal it accepts the vote of
    any agent, registered or not, executed or not the proposal: the vote is
    stored under the agent's key, the other votes and the other proposals
    and the agents are unchanged. *)
Theorem swarm_vote_is_recorded agent pid choice reasoning (s : AgentSwarm F) :
  (get_proposal pid s = None ->
   exists msg,
     vote agent pid choice reasoning s = (Raise (ValueError msg), s)) /\
  (forall p,
     get_proposal pid s = Some p ->
     exists s' p',
       vote agent pid choice reasoning s = (Return "vote_tx_signature", s') /\
       get_proposal pid s' = Some p' /\
       dict_get (pubkey agent) (Sdk.votes p') = Some choice /\
       (forall voter, voter <> pubkey agent ->
          dict_get voter (Sdk.votes p') = dict_get voter (Sdk.votes p)) /\
       Sdk.executed p' = Sdk.executed p /\
       (forall other, other <> pid ->
          get_proposal other s' = get_proposal other s) /\
       _agents s' = _agents s).
Proof.
  unfold get_proposal, vote. split.
  - intros Hp. rewrite Hp. eexists; reflexivity.
  - intros p Hp. rewrite Hp. do 2 eexists. split; [reflexivity|]. sfields.
    split; [apply dict_get_set_same|].
    unfold after, Sdk.record_vote. cbn [snd Sdk.votes Sdk.executed].
    split; [apply dict_get_set_same|].
    split; [intros voter Hv; apply dict_get_set_other; congruence|].
    split; [reflexivity|].
    split; [intros other Hne; apply dict_get_set_other; congruence|].
    reflexivity.
Qed.


(** X20.  [register_agent] stores the agent under its key: [get_agent]
    with that key returns it, the agents under other keys stay, and
    registering under a key that is taken replaces the agent without
    changing the number of agents. *)
Theorem swarm_register_then_get agent (s : AgentSwarm F) :
  let s' := after (register_agent agent) s in
  get_agent (pubkey agent) s' = Some agent /\
  (forall key, key <> pubkey agent -> get_agent key s' = get_agent key s) /\
  total_agents (get_swarm_state s') =
    (total_agents (get_swarm_state s)
     + match get_agent (pubkey agent) s with Some _ => 0 | None => 1 end)%Z /\
  _proposals s' = _proposals s.
Proof.
  cbv zeta. unfold get_agent, get_swarm_state, after, register_agent.
  sfields. cbn [total_agents].
  split; [apply dict_get_set_same|].
  split; [intros key Hne; apply dict_get_set_other; congruence|].
  split; [|reflexivity].
  rewrite dict_length_set. unfold dict_mem.
  destruct (dict_get (pubkey agent) (_agents s)); lia.
Qed.

End SwarmFacts.

Lemma swarm_create_then_get_witness :
  exists p s',
    Swarm.create_proposal
      (Swarm.new_agent (F := Q) "analytics" "Scout" "key-1" None)
      "trade" "Buy 10 SOL" None
      (Swarm.init "program" "https://api.devnet.solana.com" None) =
    (Return p, s') /\
    Swarm.get_proposal 0 s' = Some p.
Proof.
  destruct (@swarm_create_then_get Q
              (Swarm.new_agent (F := Q) "analytics" "Scout" "key-1" None)
              "trade" "Buy 10 SOL" None
              (Swarm.init "program" "https://api.devnet.solana.com" None)
              eq_refl)
    as (p & s' & Hrun & Hid & _ & Hget & _).
  exists p, s'. split; [exact Hrun|]. rewrite Hid in Hget. exact Hget.
Defined.

Lemma swarm_vote_is_recorded_witness :
  exists msg,
    Swarm.vote (Swarm.new_agent (F := Q) "analytics" "Scout" "key-1" None) 7
      "approve" ""
      (Swarm.init "program" "https://api.devnet.solana.com" None) =
    (Raise (ValueError msg),
     Swarm.init "program" "https://api.devnet.solana.com" None).
Proof.
  apply (proj1 (@swarm_vote_is_recorded Q
                  (Swarm.new_agent (F := Q) "analytics" "Scout" "key-1" None)
                  7%Z "approve" ""
                  (Swarm.init "program" "https://api.devnet.solana.com" None))).
  reflexivity.
Defined.


(* ------------------------------------------------------------------ *)
(** ** The votes of the consensus agent *)

Section ConsensusVoteFacts.
Import BaseAgent ConsensusVote.



End ConsensusVoteFacts.


(* ------------------------------------------------------------------ *)
(** ** More on the conflict test *)

(** X22.  With a positive threshold the conflict test flags every
    proposal on which all the votes cast are abstentions; with a threshold
    of at most [1] it never flags a proposal whose votes are all for it or
    all against it. *)
Theorem conflict_test_extremes (threshold : Q) (p : Consensus.ProposalData) :
  (0 < threshold ->
   Consensus.votes_for p = 0%Z -> Consensus.votes_against p = 0%Z ->
   (0 < Consensus.votes_abstain p)%Z ->
   Consensus.conflict_detected threshold p = true) /\
  (threshold <= 1 ->
   Consensus.votes_abstain p = 0%Z ->
   (Consensus.votes_against p = 0%Z /\ (0 < Consensus.votes_for p)%Z) \/
   (Consensus.votes_for p = 0%Z /\ (0 < Consensus.votes_against p)%Z) ->
   Consensus.conflict_detected threshold p = false).
Proof.
  split.
  - intros Hth Hf Ha Hb. apply conflict_detected_exact. rewrite Hf, Ha.
    split; [lia|]. replace (0 + 0 + Consensus.votes_abstain p)%Z
      with (Consensus.votes_abstain p) by lia.
    assert (Hq : ~ inject_Z (Consensus.votes_abstain p) == 0).
    { change 0%Q with (inject_Z 0). rewrite inject_Z_injective. lia. }
    setoid_replace (inject_Z 0 / inject_Z (Consensus.votes_abstain p) -
                    inject_Z 0 / inject_Z (Consensus.votes_abstain p)) with 0
      by (field; exact Hq).
    exact Hth.
  - intros Hth Hb Hcase.
    destruct (Consensus.conflict_detected threshold p) eqn:E; [|reflexivity].
    apply conflict_detected_exact in E. destruct E as [_ E]. exfalso.
    rewrite Hb in E. destruct Hcase as [[Ha Hf] | [Hf Ha]].
    + rewrite Ha in E.
      replace (Consensus.votes_for p + 0 + 0)%Z with (Consensus.votes_for p)
        in E by lia.
      assert (Hq : ~ inject_Z (Consensus.votes_for p) == 0).
      { change 0%Q with (inject_Z 0). rewrite inject_Z_injective. lia. }
      setoid_replace (inject_Z (Consensus.votes_for p) /
                      inject_Z (Consensus.votes_for p) -
                      inject_Z 0 / inject_Z (Consensus.votes_for p)) with 1
        in E by (field; exact Hq).
      change (Qabs 1) with 1%Q in E. lra.
    + rewrite Hf in E.
      replace (0 + Consensus.votes_against p + 0)%Z
        with (Consensus.votes_against p) in E by lia.
      assert (Hq : ~ inject_Z (Consensus.votes_against p) == 0).
      { change 0%Q with (inject_Z 0). rewrite inject_Z_injective. lia. }
      setoid_replace (inject_Z 0 / inject_Z (Consensus.votes_against p) -
                      inject_Z (Consensus.votes_against p) /
                      inject_Z (Consensus.votes_against p)) with (- (1))
        in E by (field; exact Hq).
      change (Qabs (- (1))) with 1%Q in E. lra.
Qed.

Lemma conflict_test_extremes_witness :
  Consensus.conflict_detected (F := Q) Consensus.conflict_threshold
    (counted 0 0 4) = true.
Proof.
  apply (proj1 (conflict_test_extremes Consensus.conflict_threshold
                  (counted 0 0 4))).
  - vm_compute. reflexivity.
  - reflexivity.
  - reflexivity.
  - cbn. lia.
Defined.

(* ------------------------------------------------------------------ *)
(** ** More on the Q-table *)

Section TableFacts.
Import Learning.
Context {F : Type} `{PyFloat F}.

(** The agent that an update leaves: the one with the state made known,
    when the update raises, or that one with the row of the state
    replaced by the step of the rule. *)
Lemma update_q_value_after state action reward (a : EnhancedLearningAgent F) :
  after (_update_q_value state action reward) a = after (ensure_state state) a \/
  exists row',
    q_step (learning_rate a) (discount_factor a) (lower action) reward
      (row_or_zero state a) = Return row' /\
    after (_update_q_value state action reward) a =
    set_q_table (dict_set state row' (q_table a)) a.
Proof.
  destruct (q_step (learning_rate a) (discount_factor a) (lower action) reward
              (row_or_zero state a)) as [row'|e] eqn:Hstep.
  - right. exists row'. split; [reflexivity|].
    unfold after. rewrite (update_q_value_row state action reward a Hstep).
    reflexivity.
  - left. unfold after, _update_q_value, bind.
    destruct (ensure_state_row state a) as (a1 & He & Hg & _).
    rewrite He. cbn [snd]. unfold eval at 1. unfold row_of. rewrite Hg.
    unfold q_step in Hstep. unfold eval at 1.
    destruct (row_get (lower action) (row_or_zero state a)) as [q|e1];
      [|reflexivity].
    unfold eval at 1.
    destruct (py_max (dict_values (row_or_zero state a))) as [m|e2];
      [|reflexivity].
    cbn [obind] in Hstep. discriminate.
Qed.

Lemma ensure_state_twice state (a : EnhancedLearningAgent F) :
  ensure_state state (after (ensure_state state) a) =
  (Return tt, after (ensure_state state) a).
Proof.
  destruct (ensure_state_row state a) as (a1 & He & Hg & _).
  unfold after. rewrite He. cbn [snd]. unfold ensure_state, dict_mem.
  rewrite Hg. reflexivity.
Qed.

Lemma ensure_state_returns state (a : EnhancedLearningAgent F) :
  ensure_state state a = (Return tt, after (ensure_state state) a).
Proof.
  unfold after, ensure_state. destruct (negb _); reflexivity.
Qed.

(** An update sees the agent only after the state has been made known. *)
Lemma update_q_value_after_ensure state action reward
    (a : EnhancedLearningAgent F) :
  _update_q_value state action reward (after (ensure_state state) a) =
  _update_q_value state action reward a.
Proof.
  unfold _update_q_value, bind at 1 6.
  rewrite ensure_state_twice. rewrite (ensure_state_returns state a).
  reflexivity.
Qed.

(** The agent that a prediction leaves: the same, or the same with the
    state made known. *)
Lemma predict_vote_after pt mc rl draw choice (a : EnhancedLearningAgent F) :
  after (predict_vote pt mc rl draw choice) a = a \/
  after (predict_vote pt mc rl draw choice) a =
  after (ensure_state (mc, pt, rl)) a.
Proof.
  unfold predict_vote, bind, get. unfold after at 1 2. cbn beta.
  destruct (fltb draw (exploration_rate a)); [left; reflexivity|]. right.
  rewrite (ensure_state_returns (mc, pt, rl) a).
  unfold eval at 1. destruct (row_of _ _); [|reflexivity].
  unfold eval at 1. destruct (argmax _); [|reflexivity].
  unfold eval at 1. destruct (row_get _ _); [|reflexivity].
  unfold eval at 1. destruct (py_div _ _); reflexivity.
Qed.

(** X23.  A prediction does not disturb the learning: an update of the
    state after a prediction for it gives the outcome and the agent that
    the update alone gives. *)
Theorem predict_then_update pt mc rl draw choice action reward
    (a : EnhancedLearningAgent F) :
  _update_q_value (mc, pt, rl) action reward
    (after (predict_vote pt mc rl draw choice) a) =
  _update_q_value (mc, pt, rl) action reward a.
Proof.
  destruct (predict_vote_after pt mc rl draw choice a) as [-> | ->].
  - reflexivity.
  - apply update_q_value_after_ensure.
Qed.

(** X24.  An update of one state changes neither the rates nor what the
    table holds for any other state, and so not what [predict_vote]
    returns for another state. *)
Theorem update_leaves_other_states state action reward pt mc rl draw choice
    (a : EnhancedLearningAgent F) :
  (mc, pt, rl) <> state ->
  let a' := after (_update_q_value state action reward) a in
  dict_get (mc, pt, rl) (q_table a') = dict_get (mc, pt, rl) (q_table a) /\
  exploration_rate a' = exploration_rate a /\
  learning_rate a' = learning_rate a /\
  discount_factor a' = discount_factor a /\
  fst (predict_vote pt mc rl draw choice a') =
  fst (predict_vote pt mc rl draw choice a).
Proof.
  intros Hne. cbv zeta.
  assert (Hframe :
    dict_get (mc, pt, rl)
      (q_table (after (_update_q_value state action reward) a)) =
    dict_get (mc, pt, rl) (q_table a) /\
    exploration_rate (after (_update_q_value state action reward) a) =
      exploration_rate a /\
    learning_rate (after (_update_q_value state action reward) a) =
      learning_rate a /\
    discount_factor (after (_update_q_value state action reward) a) =
      discount_factor a).
  { destruct (update_q_value_after state action reward a)
      as [-> | (row' & _ & ->)].
    - unfold after, ensure_state.
      match goal with |- context [if ?b then _ else _] => destruct b end;
        cbn [snd]; [|repeat split].
      cbn [q_table set_q_table exploration_rate learning_rate discount_factor].
      repeat split. apply dict_get_set_other. congruence.
    - cbn [q_table set_q_table exploration_rate learning_rate discount_factor].
      repeat split. apply dict_get_set_other. congruence. }
  destruct Hframe as (Hg & He & Hl & Hd).
  repeat split; try assumption.
  destruct (fltb draw (exploration_rate a)) eqn:Hdraw.
  - assert (Hdraw' := Hdraw). rewrite <- He in Hdraw'.
    rewrite (@predict_vote_explores F _ pt mc rl draw choice _ Hdraw).
    rewrite (@predict_vote_explores F _ pt mc rl draw choice _ Hdraw').
    reflexivity.
  - assert (Hdraw' := Hdraw). rewrite <- He in Hdraw'.
    rewrite (@predict_vote_exploits F _ pt mc rl draw choice _ Hdraw).
    rewrite (@predict_vote_exploits F _ pt mc rl draw choice _ Hdraw').
    unfold row_or_zero, State. rewrite Hg. reflexivity.
Qed.

End TableFacts.

Lemma update_leaves_other_states_witness :
  fst (Learning.predict_vote "trade" "normal" "medium" (1 # 2) "abstain"
         (after
            (Learning._update_q_value ("bullish", "rebalance", "low") "approve"
               (of_int 1))
            (Learning.init (F := Q)))) =
  fst (Learning.predict_vote "trade" "normal" "medium" (1 # 2) "abstain"
         (Learning.init (F := Q))).
Proof.
  apply (@update_leaves_other_states Q QFloat ("bullish", "rebalance", "low")
           "approve" (of_int 1) "trade" "normal" "medium" (1 # 2) "abstain"
           (Learning.init (F := Q))).
  discriminate.
Defined.

(* ------------------------------------------------------------------ *)
(** ** The values of the table stay bounded *)

Lemma zero_row_bounded (q : Q) :
  In q (dict_values (Learning.zero_row (F := Q))) -> -10 <= q /\ q <= 20.
Proof.
  cbn. intros [<- | [<- | [<- | []]]]; split; discriminate.
Qed.

Lemma q_bounded_set state row (a : Learning.EnhancedLearningAgent Q) :
  q_bounded (-10) 20 a ->
  (forall q, In q (dict_values row) -> -10 <= q /\ q <= 20) ->
  q_bounded (-10) 20
    (Learning.set_q_table (dict_set state row (Learning.q_table a)) a).
Proof.
  intros Hb Hrow state' row' q.
  cbn [Learning.q_table Learning.set_q_table].
  rewrite dict_get_set. destruct (key_eqb state state').
  - intros [= <-]. apply Hrow.
  - apply Hb.
Qed.

Lemma q_bounded_ensure_state state (a : Learning.EnhancedLearningAgent Q) :
  q_bounded (-10) 20 a ->
  q_bounded (-10) 20 (after (Learning.ensure_state state) a).
Proof.
  intros Hb. unfold after, Learning.ensure_state.
  match goal with |- context [if ?b then _ else _] => destruct b end;
    cbn [snd]; [|exact Hb].
  apply q_bounded_set; [exact Hb | apply zero_row_bounded].
Qed.

Lemma q_bounded_row_or_zero state (a : Learning.EnhancedLearningAgent Q) q :
  q_bounded (-10) 20 a ->
  In q (dict_values (row_or_zero state a)) -> -10 <= q /\ q <= 20.
Proof.
  intros Hb. unfold row_or_zero.
  destruct (dict_get state (Learning.q_table a)) as [row|] eqn:Hg.
  - apply (Hb state row q Hg).
  - apply zero_row_bounded.
Qed.

(** One step of the rule keeps a value within [[-10, 20]], for a reward
    within [[-1/2, 1]] and the rates of [__init__]. *)
Lemma learned_bounded (lr df reward q m : Q) :
  lr == 1 # 10 -> df == 95 # 100 ->
  -(1 # 2) <= reward -> reward <= 1 ->
  -10 <= q -> q <= 20 -> -10 <= m -> m <= 20 ->
  -10 <= learned lr df reward q m /\ learned lr df reward q m <= 20.
Proof.
  intros Hlr Hdf Hr1 Hr2 Hq1 Hq2 Hm1 Hm2.
  assert (E : learned lr df reward q m == q + lr * (reward + df * m - q)).
  { unfold learned. cbn [fadd fmul fsub QFloat]. rewrite !Qred_correct.
    reflexivity. }
  rewrite E, Hlr, Hdf. split; lra.
Qed.

Lemma q_bounded_update state action reward
    (a : Learning.EnhancedLearningAgent Q) :
  Learning.learning_rate a == 1 # 10 ->
  Learning.discount_factor a == 95 # 100 ->
  -(1 # 2) <= reward -> reward <= 1 ->
  q_bounded (-10) 20 a ->
  q_bounded (-10) 20 (after (Learning._update_q_value state action reward) a).
Proof.
  intros Hlr Hdf Hr1 Hr2 Hb.
  destruct (update_q_value_after state action reward a)
    as [-> | (row' & Hstep & ->)].
  - apply q_bounded_ensure_state, Hb.
  - apply q_bounded_set; [exact Hb|].
    unfold q_step in Hstep.
    destruct (Learning.row_get (lower action) (row_or_zero state a))
      as [q|e] eqn:Hq; cbn [obind] in Hstep; [|discriminate].
    destruct (py_max (dict_values (row_or_zero state a)))
      as [m|e] eqn:Hm; cbn [obind] in Hstep; [|discriminate].
    injection Hstep as <-.
    assert (Hqin : In q (dict_values (row_or_zero state a))).
    { unfold Learning.row_get in Hq.
      destruct (dict_get (lower action) (row_or_zero state a)) as [q'|] eqn:Hg;
        [|discriminate].
      injection Hq as ->. eapply dict_get_In_values, Hg. }
    destruct (py_max_Q _ Hm) as [Hmin _].
    destruct (@q_bounded_row_or_zero state a q Hb Hqin) as [Hq1 Hq2].
    destruct (@q_bounded_row_or_zero state a m Hb Hmin) as [Hm1 Hm2].
    intros x Hx. apply dict_values_set_In in Hx. destruct Hx as [-> | Hx].
    + apply learned_bounded; assumption.
    + apply (@q_bounded_row_or_zero state a x Hb Hx).
Qed.

Lemma update_q_value_rates {F : Type} {N : PyFloat F} state action reward
    (a : Learning.EnhancedLearningAgent F) :
  Learning.learning_rate
    (after (Learning._update_q_value state action reward) a) =
    Learning.learning_rate a /\
  Learning.discount_factor
    (after (Learning._update_q_value state action reward) a) =
    Learning.discount_factor a.
Proof.
  destruct (update_q_value_after state action reward a)
    as [-> | (row' & _ & ->)].
  - unfold after, Learning.ensure_state.
    match goal with |- context [if ?b then _ else _] => destruct b end;
      split; reflexivity.
  - split; reflexivity.
Qed.

Lemma record_outcomes_bounded
    (outcomes : list (string * string * bool * string * string)) :
  forall a : Learning.EnhancedLearningAgent Q,
    Learning.learning_rate a == 1 # 10 ->
    Learning.discount_factor a == 95 # 100 ->
    q_bounded (-10) 20 a ->
    q_bounded (-10) 20 (after (record_outcomes outcomes) a).
Proof.
  induction outcomes as [|[[[[pt vote] success] mc] rl] rest IH];
    intros a Hlr Hdf Hb; [exact Hb|].
  cbn [record_outcomes]. unfold after, bind.
  set (reward := if success then @of_int Q _ 1 else fsub (of_int 0) (dec 5 10)).
  assert (Hr : -(1 # 2) <= reward /\ reward <= 1).
  { subst reward. destruct success; split; vm_compute; discriminate. }
  destruct Hr as [Hr1 Hr2].
  pose proof (@q_bounded_update (mc, pt, rl) vote reward a Hlr Hdf Hr1 Hr2 Hb) as Hb1.
  destruct (update_q_value_rates (mc, pt, rl) vote reward a) as [Hlr1 Hdf1].
  unfold after in Hb1, Hlr1, Hdf1. unfold Learning.record_outcome.
  fold reward.
  destruct (Learning._update_q_value (mc, pt, rl) vote reward a) as [[[]|e] a1];
    cbn [snd] in *.
  - apply IH; [rewrite Hlr1; exact Hlr | rewrite Hdf1; exact Hdf | exact Hb1].
  - exact Hb1.
Qed.

(** X25.  Whatever outcomes are recorded, starting from the agent of
    [__init__], every value of the table stays between [-10] and [20],
    the values at which the reward of a failure, [-0.5], and that of a
    success, [1.0], repeat themselves under the discount of [0.95]. *)
Theorem q_values_stay_bounded
    (outcomes : list (string * string * bool * string * string)) :
  q_bounded (-10) 20 (after (record_outcomes outcomes) (Learning.init (F := Q))).
Proof.
  apply record_outcomes_bounded.
  - vm_compute. reflexivity.
  - vm_compute. reflexivity.
  - intros state row q. cbn. discriminate.
Qed.

(* ------------------------------------------------------------------ *)
(** ** The choice among the three actions *)

(** X26.  On a row of the table, [max(q_values, key=q_values.get)] takes
    approve unless another value is strictly greater, reject when it is
    strictly above approve and abstain is not strictly above it, and
    abstain only when it is strictly above both: ties go to the action
    that comes first in the row. *)
Theorem argmax_breaks_ties_in_order (x y z : Q) :
  let row : dict string Q :=
    [("approve", x); ("reject", y); ("abstain", z)] in
  (Learning.argmax row = Return "approve" <-> y <= x /\ z <= x) /\
  (Learning.argmax row = Return "reject" <-> x < y /\ z <= y) /\
  (Learning.argmax row = Return "abstain" <-> x < z /\ y < z).
Proof.
  cbv zeta. unfold Learning.argmax. cbn [fold_left snd fst].
  destruct (fltb x y) eqn:Exy; cbn [snd fst].
  - apply fltb_Q in Exy. destruct (fltb y z) eqn:Eyz; cbn [fst].
    + apply fltb_Q in Eyz.
      repeat split; try discriminate; try lra;
        intros [? ?]; exfalso; lra.
    + apply fltb_Q_false in Eyz.
      repeat split; try discriminate; try lra;
        intros [? ?]; exfalso; lra.
  - apply fltb_Q_false in Exy. destruct (fltb x z) eqn:Exz; cbn [fst].
    + apply fltb_Q in Exz.
      repeat split; try discriminate; try lra;
        intros [? ?]; exfalso; lra.
    + apply fltb_Q_false in Exz.
      repeat split; try discriminate; try lra;
        intros [? ?]; exfalso; lra.
Qed.

(** X27.  A prediction that exploits, for a state that the table does not
    have, returns approve with confidence one half, and leaves the state
    in the table with the row of zeros: predicting changes the table. *)
Theorem predict_vote_on_unknown_state pt mc rl draw choice
    (a : Learning.EnhancedLearningAgent Q) :
  dict_get (mc, pt, rl) (Learning.q_table a) = None ->
  fltb draw (Learning.exploration_rate a) = false ->
  fst (Learning.predict_vote pt mc rl draw choice a) =
    Return ("approve", 1 # 2) /\
  Learning.q_table (after (Learning.predict_vote pt mc rl draw choice) a) =
    (Learning.q_table a ++ [((mc, pt, rl), Learning.zero_row)])%list.
Proof.
  intros Hg Hd. split.
  - rewrite (@predict_vote_exploits Q _ pt mc rl draw choice a Hd).
    unfold row_or_zero, Learning.State in *. rewrite Hg. vm_compute. reflexivity.
  - unfold Learning.predict_vote, bind, get. unfold after. cbn beta.
    rewrite Hd. unfold Learning.ensure_state at 1. unfold dict_mem.
    unfold Learning.State in *. rewrite Hg. cbn [negb].
    unfold eval at 1. unfold Learning.row_of at 1.
    cbn [Learning.q_table Learning.set_q_table].
    rewrite dict_get_set_same.
    rewrite dict_set_absent by (unfold dict_mem; rewrite Hg; reflexivity).
    vm_compute eval. reflexivity.
Qed.

Lemma predict_vote_on_unknown_state_witness :
  fst (Learning.predict_vote "trade" "normal" "medium" (1 # 2) "reject"
         (Learning.init (F := Q))) =
    Return ("approve", 1 # 2) /\
  Learning.q_table
    (after (Learning.predict_vote "trade" "normal" "medium" (1 # 2) "reject")
       (Learning.init (F := Q))) =
    [(("normal", "trade", "medium"), Learning.zero_row)].
Proof.
  apply (@predict_vote_on_unknown_state "trade" "normal" "medium" (1 # 2)
           "reject" (Learning.init (F := Q))); reflexivity.
Defined.

(* ------------------------------------------------------------------ *)
(** ** The stored Q-values *)

#[export] Instance list_KeyLaws {K} `{KeyLaws K} :
  @KeyLaws (list K) Store.list_Key.
Proof.
  constructor. intros a. induction a as [|x a IH]; intros [|y b];
    cbn [key_eqb Store.list_Key Store.list_eqb]; try (split; discriminate).
  - split; reflexivity.
  - rewrite andb_true_iff, key_eqb_eq.
    change (Store.list_eqb a b) with (@key_eqb _ Store.list_Key a b).
    rewrite IH. split.
    + intros [-> ->]; reflexivity.
    + intros [= -> ->]; split; reflexivity.
Qed.

Section StoreFacts.
Import Learning Store.

Lemma split_not_empty (c : ascii) (s : string) : split c s <> [].
Proof.
  destruct s as [|x rest]; cbn [split]; [discriminate|].
  destruct (Ascii.eqb x c); [discriminate|].
  destruct (split c rest); discriminate.
Qed.

(** A string without the separator is one piece. *)
Lemma split_free (c : ascii) (s : string) :
  free_of c s = true -> split c s = [s].
Proof.
  induction s as [|x rest IH]; cbn [split free_of]; [reflexivity|].
  intros Hf. apply andb_true_iff in Hf. destruct Hf as [Hx Hrest].
  apply negb_true_iff in Hx. rewrite Hx, IH by exact Hrest. reflexivity.
Qed.

(** The first piece ends at the first separator. *)
Lemma split_app_free (c : ascii) (p rest : string) :
  free_of c p = true ->
  split c (p ++ String c rest) = p :: split c rest.
Proof.
  induction p as [|x p IH]; cbn [split free_of String.append].
  - intros _. rewrite Ascii.eqb_refl. reflexivity.
  - intros Hf. apply andb_true_iff in Hf. destruct Hf as [Hx Hp].
    apply negb_true_iff in Hx. rewrite Hx, IH by exact Hp. reflexivity.
Qed.

(** No piece has the separator. *)
Lemma split_pieces_free (c : ascii) (s : string) :
  forallb (free_of c) (split c s) = true.
Proof.
  induction s as [|x rest IH]; cbn [split]; [reflexivity|].
  destruct (Ascii.eqb x c) eqn:Ex.
  - cbn [forallb free_of]. exact IH.
  - destruct (split c rest) as [|piece pieces].
    + cbn [forallb free_of]. rewrite Ex. reflexivity.
    + cbn [forallb free_of] in *. rewrite Ex. exact IH.
Qed.

(** Joining the pieces gives the string back. *)
Lemma join_split (c : ascii) (s : string) :
  join (String c EmptyString) (split c s) = s.
Proof.
  induction s as [|x rest IH]; cbn [split]; [reflexivity|].
  pose proof (split_not_empty c rest) as Hne.
  destruct (Ascii.eqb x c) eqn:Ex.
  - apply Ascii.eqb_eq in Ex. subst x.
    destruct (split c rest) as [|piece pieces]; [congruence|].
    change (join (String c EmptyString) (EmptyString :: piece :: pieces))
      with (String c (join (String c EmptyString) (piece :: pieces))).
    rewrite IH. reflexivity.
  - destruct (split c rest) as [|piece pieces]; [congruence|].
    destruct pieces as [|piece' pieces].
    + cbn [join] in *. rewrite IH. reflexivity.
    + change (join (String c EmptyString) (String x piece :: piece' :: pieces))
        with (String x (join (String c EmptyString) (piece :: piece' :: pieces))).
      rewrite IH. reflexivity.
Qed.

(** The key of a state whose components are without the separator
    splits into the components. *)
Lemma split_state_key (st : State) :
  forallb (free_of "|") (components st) = true ->
  split "|" (state_key st) = components st.
Proof.
  destruct st as [[mc pt] rl]. unfold state_key, components.
  cbn [forallb join]. intros Hf.
  apply andb_true_iff in Hf. destruct Hf as [Hmc Hf].
  apply andb_true_iff in Hf. destruct Hf as [Hpt Hf].
  apply andb_true_iff in Hf. destruct Hf as [Hrl _].
  change (mc ++ "|" ++ pt ++ "|" ++ rl)%string
    with (mc ++ String "|" (pt ++ String "|" rl))%string.
  rewrite split_app_free by exact Hmc.
  rewrite split_app_free by exact Hpt.
  rewrite split_free by exact Hrl. reflexivity.
Qed.

(** X28.  The key under which a state is stored always gives the state's
    text back when its pieces are joined, but splitting it gives the
    three components of the state back exactly when none of them has
    the separator. *)
Theorem state_key_round_trip (st : State) :
  join "|" (split "|" (state_key st)) = state_key st /\
  (split "|" (state_key st) = components st <->
   forallb (free_of "|") (components st) = true).
Proof.
  split; [apply join_split|]. split.
  - intros <-. apply split_pieces_free.
  - apply split_state_key.
Qed.

Context {F : Type} `{PyFloat F}.

Lemma load_q_values_app (rows : list (QRow F)) (row : QRow F) t0 :
  _load_q_values (rows ++ [row]) t0 =
  dict_set (split "|" (state row))
    [("approve", approve_value row); ("reject", reject_value row);
     ("abstain", abstain_value row)] (_load_q_values rows t0).
Proof.
  unfold _load_q_values. rewrite fold_left_app. reflexivity.
Qed.

Lemma three_action_row (row : dict string F) :
  dict_keys row = ["approve"; "reject"; "abstain"] ->
  exists x y z,
    row = [("approve", x); ("reject", y); ("abstain", z)].
Proof.
  destruct row as [|[k1 x] [|[k2 y] [|[k3 z] [|? ?]]]]; try discriminate.
  cbn. intros [= -> -> ->]. exists x, y, z. reflexivity.
Qed.

Lemma filter_out_key (key : string) (table : list (QRow F)) :
  filter (fun r => String.eqb (state r) key)
    (filter (fun r => negb (String.eqb (state r) key)) table) = [].
Proof.
  induction table as [|r table IH]; cbn [filter]; [reflexivity|].
  destruct (String.eqb (state r) key) eqn:E; cbn [negb filter];
    rewrite ?E; exact IH.
Qed.

(** X29.  A row of the table that is saved and then loaded is found again
    unchanged under its state, whatever else the database and the table
    hold, when no component of the state has the separator; the saved
    row is the last of the database and the only one with its key. *)
Theorem saved_row_is_loaded_back (st : State) (now : string)
    (a : EnhancedLearningAgent F) (table : list (QRow F))
    (t0 : dict (list string) (dict string F)) (row : dict string F) :
  rows_ok a ->
  dict_get st (q_table a) = Some row ->
  forallb (free_of "|") (components st) = true ->
  exists table',
    _save_q_value st now a table = Return table' /\
    dict_get (components st) (_load_q_values table' t0) = Some row /\
    List.length (filter (fun r => String.eqb (state r) (state_key st)) table')
      = 1%nat.
Proof.
  intros Hok Hg Hfree.
  pose proof (Hok st row Hg) as Hk. apply three_action_row in Hk.
  destruct Hk as (x & y & z & ->).
  unfold _save_q_value, row_of. rewrite Hg. cbn [obind row_get dict_get].
  cbn [key_eqb string_Key String.eqb Ascii.eqb Bool.eqb obind].
  eexists. split; [reflexivity|]. split.
  - unfold insert_or_replace. rewrite load_q_values_app.
    cbn [state approve_value reject_value abstain_value].
    rewrite (split_state_key st Hfree).
    apply dict_get_set_same.
  - unfold insert_or_replace. cbn [state]. rewrite filter_app, length_app.
    cbn [filter state]. rewrite String.eqb_refl. cbn [List.length].
    rewrite filter_out_key. reflexivity.
Qed.

End StoreFacts.

Lemma state_key_round_trip_witness :
  Store.split "|" (Store.state_key ("bullish", "rebalance", "low")) =
    ["bullish"; "rebalance"; "low"] /\
  Store.split "|" (Store.state_key ("bull|bear", "rebalance", "low")) <>
    ["bull|bear"; "rebalance"; "low"].
Proof.
  split.
  - apply (proj2 (proj2 (state_key_round_trip ("bullish", "rebalance", "low")))).
    reflexivity.
  - intros E.
    apply (proj1 (proj2 (state_key_round_trip ("bull|bear", "rebalance", "low"))))
      in E.
    discriminate E.
Defined.

Lemma saved_row_is_loaded_back_witness :
  exists table',
    Store._save_q_value ("bullish", "rebalance", "low") "2024-01-01T00:00:00"
      (after
         (Learning.record_outcome "rebalance" "approve" true "bullish" "low")
         (Learning.init (F := Q)))
      [] = Return table' /\
    @dict_get _ _ Store.list_Key ["bullish"; "rebalance"; "low"]
      (Store._load_q_values table' []) =
      Some [("approve", 1 # 10); ("reject", 0); ("abstain", 0)] /\
    List.length
      (filter
         (fun r => String.eqb (Store.state r)
                     (Store.state_key ("bullish", "rebalance", "low")))
         table') = 1%nat.
Proof.
  apply (@saved_row_is_loaded_back Q ("bullish", "rebalance", "low")
           "2024-01-01T00:00:00"
           (after
              (Learning.record_outcome "rebalance" "approve" true "bullish" "low")
              (Learning.init (F := Q)))
           [] [] [("approve", 1 # 10); ("reject", 0); ("abstain", 0)]).
  - apply rows_ok_update_q_value, rows_ok_init.
  - vm_compute. reflexivity.
  - reflexivity.
Defined.

Lemma argmax_breaks_ties_in_order_witness :
  Learning.argmax
    [("approve", 0%Q); ("reject", 0%Q); ("abstain", 0%Q)] = Return "approve".
Proof.
  apply (proj2 (proj1 (argmax_breaks_ties_in_order 0 0 0))).
  split; discriminate.
Defined.
